(** * nekro-sense: the command-line helper [tools/nekroctl.py] and the
    privileged execution layer of [tools/nekroctl_gui.py]

    A shallow embedding of the two Python modules and the properties that
    their specification states about them, followed by further properties
    of the same code, of what the window reads back and sends, and of the
    string scanner [analysis/extract_strings.py].

    Conventions of the embedding.
    - A Python [str] is a [string]; its characters are read as the code
      points 0..255 (Latin-1), on which [str.strip], [str.lower] and [int]
      are written out exactly.  Code points above 255 are not representable.
    - A Python [int] is a [Z].
    - Exceptions, the attribute files, [sys.stdout] and [sys.stderr] are
      explicit: a command is a function from a [world] to a result and a
      new [world].
    - CPython's limit on the length of a decimal literal given to [int]
      (4300 digits by default) is not modelled. *)

From Stdlib Require Import ZArith List String Ascii Bool Lia.
Import ListNotations.
Open Scope string_scope.
Open Scope Z_scope.

(** ** Python text primitives *)

Module Py.

(** [str.isspace] on one character, for code points below 256. *)
Definition isspace (c : ascii) : bool :=
  let n := Z.of_N (N_of_ascii c) in
  ((9 <=? n) && (n <=? 13)) || ((28 <=? n) && (n <=? 32))
  || (n =? 133) || (n =? 160).

(** [str.lower] on one character: A-Z, and the Latin-1 capitals
    U+00C0..U+00DE except the multiplication sign U+00D7. *)
Definition lower_char (c : ascii) : ascii :=
  let n := Z.of_N (N_of_ascii c) in
  if ((65 <=? n) && (n <=? 90))
     || ((192 <=? n) && (n <=? 222) && negb (n =? 215))
  then ascii_of_N (Z.to_N (n + 32))
  else c.

Fixpoint lower (s : string) : string :=
  match s with
  | EmptyString => EmptyString
  | String c s' => String (lower_char c) (lower s')
  end.

Fixpoint lstrip (s : string) : string :=
  match s with
  | EmptyString => EmptyString
  | String c s' => if isspace c then lstrip s' else s
  end.

Fixpoint rstrip (s : string) : string :=
  match s with
  | EmptyString => EmptyString
  | String c s' =>
      match rstrip s' with
      | EmptyString => if isspace c then EmptyString else String c EmptyString
      | r => String c r
      end
  end.

(** [s.strip()] *)
Definition strip (s : string) : string := rstrip (lstrip s).

(** [s.startswith(p)] *)
Definition startswith (p s : string) : bool := String.prefix p s.

(** [needle in s] for two strings. *)
Fixpoint contains (needle s : string) : bool :=
  String.prefix needle s
  || match s with
     | EmptyString => false
     | String _ s' => contains needle s'
     end.

(** [c in s] for one character [c]. *)
Definition char_in (c : ascii) (s : string) : bool :=
  contains (String c EmptyString) s.

(** [any(f(c) for c in s)] *)
Fixpoint any_char (f : ascii -> bool) (s : string) : bool :=
  match s with
  | EmptyString => false
  | String c s' => f c || any_char f s'
  end.

(** [sep.join(l)] *)
Definition join (sep : string) (l : list string) : string :=
  String.concat sep l.

(** Truth value of a string: non-empty. *)
Definition truthy (s : string) : bool :=
  match s with EmptyString => false | _ => true end.

(** [a or b] on strings. *)
Definition or_else (a b : string) : string := if truthy a then a else b.

(** [s[1:]] *)
Definition tail (s : string) : string :=
  match s with EmptyString => EmptyString | String _ s' => s' end.

(** [s[i:j]] for [0 <= i <= j]. *)
Definition slice (i j : nat) (s : string) : string :=
  String.substring i (j - i) s.

(** What [f.read()] returns for a file opened in text mode with the
    default [newline=None]: every carriage return followed by a line feed,
    and every other carriage return, is read as one line feed. *)
Fixpoint universal_newlines (s : string) : string :=
  match s with
  | EmptyString => EmptyString
  | String c s' =>
      if Ascii.eqb c "013" then
        match s' with
        | String c' s'' =>
            if Ascii.eqb c' "010" then String "010" (universal_newlines s'')
            else String "010" (universal_newlines s')
        | EmptyString => String "010" EmptyString
        end
      else String c (universal_newlines s')
  end.

(** [s.split(sep)] for a one-character separator. *)
Fixpoint split_go (sep : ascii) (cur : string) (s : string) : list string :=
  match s with
  | EmptyString => [cur]
  | String c s' =>
      if Ascii.eqb c sep then cur :: split_go sep EmptyString s'
      else split_go sep (cur ++ String c EmptyString) s'
  end.

Definition split (sep : ascii) (s : string) : list string :=
  split_go sep EmptyString s.

(** [s.split()]: the runs of characters that are not white space. *)
Fixpoint split_ws_go (cur : string) (s : string) : list string :=
  match s with
  | EmptyString => if truthy cur then [cur] else []
  | String c s' =>
      if isspace c then
        ((if truthy cur then [cur] else []) ++ split_ws_go EmptyString s')%list
      else split_ws_go (cur ++ String c EmptyString) s'
  end.

Definition split_ws (s : string) : list string := split_ws_go EmptyString s.

(** *** Decimal text of an integer: [str(n)] *)

Definition digit_char (d : Z) : ascii := ascii_of_N (Z.to_N (48 + d)).

Fixpoint digits_go (fuel : nat) (n : Z) (acc : string) : string :=
  match fuel with
  | O => acc
  | S fuel' =>
      let acc' := String (digit_char (n mod 10)) acc in
      if n <? 10 then acc' else digits_go fuel' (n / 10) acc'
  end.

Definition str_nonneg (n : Z) : string :=
  digits_go (S (Z.to_nat (Z.log2 n))) n EmptyString.

Definition str (z : Z) : string :=
  if z <? 0 then String "-" (str_nonneg (- z)) else str_nonneg z.

(** *** Reading an integer: [int(s)] and [int(s, 16)] *)

Definition digit_val (c : ascii) : option Z :=
  let n := Z.of_N (N_of_ascii c) in
  if (48 <=? n) && (n <=? 57) then Some (n - 48) else None.

(** The digit loop of [int]: single underscores are allowed between
    digits; [us] records that the previous character was an underscore. *)
Fixpoint int_digits (acc : Z) (us : bool) (s : string) : option Z :=
  match s with
  | EmptyString => if us then None else Some acc
  | String c s' =>
      match digit_val c with
      | Some d => int_digits (10 * acc + d) false s'
      | None =>
          if Ascii.eqb c "_" then
            if us then None else int_digits acc true s'
          else None
      end
  end.

Definition int_unsigned (s : string) : option Z :=
  match s with
  | EmptyString => None
  | String c s' =>
      match digit_val c with
      | Some d => int_digits d false s'
      | None => None
      end
  end.

Definition int_signed (t : string) : option Z :=
  match t with
  | String "-" s' => option_map Z.opp (int_unsigned s')
  | String "+" s' => int_unsigned s'
  | _ => int_unsigned t
  end.

(** The white space that [int] skips, which is not the set of [str.strip]:
    the characters that C's [isspace] accepts (tab to carriage return, and
    the space), and the white space above U+007F, which [int] turns into
    spaces first (U+0085 and U+00A0 below 256).  The separators
    U+001C..U+001F are white space for [str.strip] and are not skipped
    here. *)
Definition int_space (c : ascii) : bool :=
  let n := Z.of_N (N_of_ascii c) in
  ((9 <=? n) && (n <=? 13)) || (n =? 32) || (n =? 133) || (n =? 160).

Fixpoint int_lstrip (s : string) : string :=
  match s with
  | EmptyString => EmptyString
  | String c s' => if int_space c then int_lstrip s' else s
  end.

Fixpoint int_rstrip (s : string) : string :=
  match s with
  | EmptyString => EmptyString
  | String c s' =>
      match int_rstrip s' with
      | EmptyString => if int_space c then EmptyString else String c EmptyString
      | r => String c r
      end
  end.

(** [int(s)]: surrounding white space, an optional sign, decimal digits.
    [None] stands for [ValueError]. *)
Definition int (s : string) : option Z := int_signed (int_rstrip (int_lstrip s)).

Definition isdigit (c : ascii) : bool :=
  match digit_val c with Some _ => true | None => false end.

(** [all(f(c) for c in s)] *)
Fixpoint all_char (f : ascii -> bool) (s : string) : bool :=
  match s with
  | EmptyString => true
  | String c s' => f c && all_char f s'
  end.

Definition hex_val (c : ascii) : option Z :=
  let n := Z.of_N (N_of_ascii c) in
  if (48 <=? n) && (n <=? 57) then Some (n - 48)
  else if (97 <=? n) && (n <=? 102) then Some (n - 87)
  else if (65 <=? n) && (n <=? 70) then Some (n - 55)
  else None.

Fixpoint hex_digits (acc : Z) (s : string) : option Z :=
  match s with
  | EmptyString => Some acc
  | String c s' =>
      match hex_val c with
      | Some d => hex_digits (16 * acc + d) s'
      | None => None
      end
  end.

(** [int(s, 16)] on a non-empty run of hexadecimal digits, the only form
    in which [cmd_rgb_effect] calls it (see [hex_slice_is_byte]). *)
Definition int16 (s : string) : option Z :=
  match s with
  | EmptyString => None
  | _ => hex_digits 0 s
  end.

(** *** Hexadecimal text of an integer: [f"{n:02x}"] *)

Definition hex_char (d : Z) : ascii :=
  if d <? 10 then ascii_of_N (Z.to_N (48 + d))
  else ascii_of_N (Z.to_N (87 + d)).

Fixpoint hex_go (fuel : nat) (n : Z) (acc : string) : string :=
  match fuel with
  | O => acc
  | S fuel' =>
      let acc' := String (hex_char (n mod 16)) acc in
      if n <? 16 then acc' else hex_go fuel' (n / 16) acc'
  end.

Definition hex_nonneg (n : Z) : string :=
  hex_go (S (Z.to_nat (Z.log2 n))) n EmptyString.

Fixpoint zeros (n : nat) : string :=
  match n with
  | O => EmptyString
  | S n' => String "0" (zeros n')
  end.

(** [s.rjust(width, "0")] *)
Definition zero_pad (width : nat) (s : string) : string :=
  zeros (width - String.length s) ++ s.

(** [format(n, "02x")]: lower-case hexadecimal digits, filled with zeros
    after the sign up to a width of two. *)
Definition format_02x (n : Z) : string :=
  if n <? 0 then String "-" (zero_pad 1 (hex_nonneg (- n)))
  else zero_pad 2 (hex_nonneg n).

End Py.

(** ** The command-line helper, [tools/nekroctl.py] *)

Module nekroctl.

(** *** Exceptions and results *)

(** The argument of [SystemExit]: nothing, an integer status or a message. *)
Inductive exit_arg : Type :=
| ExitNone
| ExitInt (code : Z)
| ExitStr (msg : string).

Inductive exn : Type :=
| SystemExit (arg : exit_arg)
| ValueError (msg : string)
| FileNotFoundError (msg : string)
| PermissionError
| OSError (msg : string).

Inductive result (A : Type) : Type :=
| Ok (a : A)
| Raise (e : exn).
Arguments Ok {A} a.
Arguments Raise {A} e.

(** *** The attribute files and the standard streams *)

(** What the kernel answers when an attribute is opened and read or
    written: it works, it is refused for lack of privilege, or it fails
    with another I/O error whose text is [msg]. *)
Inductive access : Type :=
| Granted
| Denied
| Failing (msg : string).

Record node : Type := {
  content : string;
  r_acc : access;
  w_acc : access
}.

(** One item written to standard output: a printed line, or the help text
    of the argument parser named [prog]. *)
Inductive out_item : Type :=
| Line (s : string)
| Help (prog : string).

(** The system calls a command makes, in order. *)
Inductive sys_event : Type :=
| SysExists (path : string) (found : bool)
| SysRead (path : string) (r : access)
| SysWrite (path : string) (text : string) (r : access).

Record world : Type := {
  fs : string -> option node;
  stdout : list out_item;
  stderr : list string;
  syslog : list sys_event
}.

Definition M (A : Type) : Type := world -> result A * world.

Definition ret {A} (a : A) : M A := fun w => (Ok a, w).

Definition raise {A} (e : exn) : M A := fun w => (Raise e, w).

Definition bind {A B} (m : M A) (k : A -> M B) : M B :=
  fun w =>
    match m w with
    | (Ok a, w') => k a w'
    | (Raise e, w') => (Raise e, w')
    end.

Notation "x <- m ;; k" := (bind m (fun x => k))
  (at level 61, m at next level, right associativity).
Notation "m ;;; k" := (bind m (fun _ => k))
  (at level 61, right associativity).

(** A pure computation that may raise, run inside a command. *)
Definition lift {A} (r : result A) : M A := fun w => (r, w).

Definition log (e : sys_event) : M unit :=
  fun w => (Ok tt, {| fs := fs w; stdout := stdout w; stderr := stderr w;
                      syslog := (syslog w ++ [e])%list |}).

(** [print(s)] *)
Definition print (s : string) : M unit :=
  fun w => (Ok tt, {| fs := fs w; stdout := (stdout w ++ [Line s])%list;
                      stderr := stderr w; syslog := syslog w |}).

(** [parser.print_help()] *)
Definition print_help (prog : string) : M unit :=
  fun w => (Ok tt, {| fs := fs w; stdout := (stdout w ++ [Help prog])%list;
                      stderr := stderr w; syslog := syslog w |}).

(** [sys.stderr.write(s)] *)
Definition stderr_write (s : string) : M unit :=
  fun w => (Ok tt, {| fs := fs w; stdout := stdout w;
                      stderr := (stderr w ++ [s])%list; syslog := syslog w |}).

Definition get_node (path : string) : M (option node) :=
  fun w => (Ok (fs w path), w).

Definition set_content (path text : string) : M unit :=
  fun w =>
    (Ok tt,
     {| fs := fun p =>
          if String.eqb p path then
            match fs w p with
            | Some n => Some {| content := text; r_acc := r_acc n;
                                w_acc := w_acc n |}
            | None => None
            end
          else fs w p;
        stdout := stdout w; stderr := stderr w; syslog := syslog w |}).

(** [sys.exit(code)] *)
Definition sys_exit {A} (code : Z) : M A := raise (SystemExit (ExitInt code)).

(** [raise SystemExit(msg)] *)
Definition exit_msg {A} (msg : string) : M A := raise (SystemExit (ExitStr msg)).

(** *** Paths *)

Definition ends_with_slash (s : string) : bool :=
  match String.get (String.length s - 1) s with
  | Some c => Ascii.eqb c "/"
  | None => false
  end.

(** [os.path.join(a, b)] *)
Definition os_path_join (a b : string) : string :=
  if Py.startswith "/" b then b
  else if negb (Py.truthy a) || ends_with_slash a then a ++ b
  else a ++ "/" ++ b.

Definition SYSFS_BASE : string :=
  "/sys/module/nekro_sense/drivers/platform:acer-wmi/acer-wmi".
Definition KB_PER_ZONE : string :=
  os_path_join SYSFS_BASE "four_zoned_kb/per_zone_mode".
Definition KB_FOUR_MODE : string :=
  os_path_join SYSFS_BASE "four_zoned_kb/four_zone_mode".
Definition LOGO_COLOR : string := os_path_join SYSFS_BASE "back_logo/color".
Definition SENSE_PRED : string := os_path_join SYSFS_BASE "predator_sense".
Definition SENSE_NITRO : string := os_path_join SYSFS_BASE "nitro_sense".
Definition PLATFORM_PROFILE : string := "/sys/firmware/acpi/platform_profile".
Definition PLATFORM_PROFILE_CHOICES : string :=
  "/sys/firmware/acpi/platform_profile_choices".

(** The dictionary [MODE_NAME_TO_ID], in insertion order. *)
Definition MODE_NAME_TO_ID : list (string * Z) :=
  [("static", 0); ("breathing", 1); ("neon", 2); ("wave", 3);
   ("shifting", 4); ("zoom", 5); ("meteor", 6); ("twinkling", 7)].

Fixpoint dict_get (d : list (string * Z)) (k : string) : option Z :=
  match d with
  | [] => None
  | (k', v) :: d' => if String.eqb k k' then Some v else dict_get d' k
  end.

Definition dict_keys (d : list (string * Z)) : list string := map fst d.

(** *** File access *)

Definition _path_exists (p : string) : M bool :=
  n <- get_node p ;;
  let found := match n with Some _ => true | None => false end in
  log (SysExists p found) ;;;
  ret found.

Definition _read_text (path : string) : M string :=
  n <- get_node path ;;
  match n with
  | None => raise (FileNotFoundError path)
  | Some nd =>
      log (SysRead path (r_acc nd)) ;;;
      match r_acc nd with
      | Granted => ret (Py.strip (Py.universal_newlines (content nd)))
      | Denied => raise PermissionError
      | Failing msg => raise (OSError msg)
      end
  end.

Definition _write_text (path text : string) : M unit :=
  n <- get_node path ;;
  match n with
  | None => raise (FileNotFoundError path)
  | Some nd =>
      log (SysWrite path text (w_acc nd)) ;;;
      match w_acc nd with
      | Granted => set_content path text
      | Denied =>
          stderr_write ("Permission denied writing to " ++ path
                        ++ ". Try running with sudo/root." ++ String "010" "") ;;;
          raise PermissionError
      | Failing msg => raise (OSError msg)
      end
  end.

Definition _detect_sense_dir : M (option string) :=
  p <- _path_exists SENSE_PRED ;;
  if p then ret (Some SENSE_PRED)
  else
    n <- _path_exists SENSE_NITRO ;;
    if n then ret (Some SENSE_NITRO) else ret None.

Definition _require_path (path desc : string) : M unit :=
  b <- _path_exists path ;;
  if negb b then
    stderr_write ("Missing " ++ desc ++ " at " ++ path
      ++ ". Ensure the Nekro-Sense module is loaded and your device supports this feature."
      ++ String "010" "") ;;;
    sys_exit 2
  else ret tt.

(** *** Validation *)

Definition not_hex (c : ascii) : bool :=
  negb (Py.char_in c "0123456789abcdefABCDEF").

Definition _parse_hex_color (s : string) : result string :=
  let s := Py.strip s in
  let s := if Py.startswith "#" s then Py.tail s else s in
  if negb (Nat.eqb (String.length s) 6) || Py.any_char not_hex s then
    Raise (ValueError ("Invalid color '" ++ s ++ "'. Use RRGGBB or #RRGGBB."))
  else Ok (Py.lower s).

Definition _parse_percent (v : string) (allow_zero_auto : bool) : result Z :=
  match Py.int v with
  | None => Raise (ValueError "Expected integer percentage")
  | Some i =>
      if allow_zero_auto && (i =? 0) then Ok 0
      else if negb ((1 <=? i) && (i <=? 100)) then
        Raise (ValueError "Percentage must be between 1 and 100 (or 0 for auto)")
      else Ok i
  end.

(** A value that is either a string or an integer, for the places where
    the source applies [str] or [isinstance] to either. *)
Inductive pyval : Type :=
| VStr (s : string)
| VInt (z : Z).

Definition str_of (v : pyval) : string :=
  match v with
  | VStr s => s
  | VInt z => Py.str z
  end.

(** [s in l] for a set literal of strings. *)
Definition in_set (s : string) (l : list string) : bool :=
  existsb (String.eqb s) l.

Definition _parse_percent_or_auto (v : pyval) : result Z :=
  let s := Py.lower (Py.strip (str_of v)) in
  if in_set s ["auto"; "a"] then Ok 0
  else _parse_percent s true.

Definition _parse_on_off (val : string) : result Z :=
  let s := Py.lower (Py.strip val) in
  let truthy := ["1"; "on"; "true"; "yes"; "y"; "enable"; "enabled"] in
  let falsy := ["0"; "off"; "false"; "no"; "n"; "disable"; "disabled"] in
  if in_set s truthy then Ok 1
  else if in_set s falsy then Ok 0
  else Raise (ValueError "Expected on/off (or 1/0, true/false, yes/no)").

(** [[f(x) for x in l]] where [f] may raise. *)
Fixpoint map_result {A B} (f : A -> result B) (l : list A) : result (list B) :=
  match l with
  | [] => Ok []
  | x :: l' =>
      match f x with
      | Raise e => Raise e
      | Ok y =>
          match map_result f l' with
          | Raise e => Raise e
          | Ok ys => Ok (y :: ys)
          end
      end
  end.

(** *** Parsed arguments

    [build_parser] and [parse_args] belong to [argparse] and are not
    modelled: a command is given by the leaf that was selected and the
    attributes of its [Namespace].  [_parser] is the parser attached with
    [set_defaults], when there is one. *)

Record per_zone_args : Type := {
  pz_colors : list string;
  pz_brightness : option Z;
  pz_parser : option string
}.

Record effect_args : Type := {
  ef_mode : option pyval;
  ef_speed : Z;
  ef_brightness : Z;
  ef_direction : Z;
  ef_color : option string;
  ef_parser : option string
}.

Record logo_args : Type := {
  lg_color : string;
  lg_brightness : option Z;
  lg_on : bool;
  lg_off : bool
}.

Record fan_args : Type := {
  fan_values : list string;
  fan_cpu : option string;
  fan_gpu : option string
}.

Definition newline : string := String "010" "".

(** *** Keyboard *)

Definition cmd_rgb_per_zone (args : per_zone_args) : M unit :=
  _require_path KB_PER_ZONE "four-zone keyboard per_zone_mode" ;;;
  colors <- lift (map_result _parse_hex_color (pz_colors args)) ;;
  match colors with
  | [] =>
      match pz_parser args with
      | Some parser => print_help parser
      | None => exit_msg "Provide at least one color (RRGGBB)."
      end
  | _ =>
      let colors :=
        if Nat.eqb (List.length colors) 1
        then (colors ++ colors ++ colors ++ colors)%list else colors in
      if negb (Nat.eqb (List.length colors) 4) then
        exit_msg "Provide exactly 1 or 4 colors (RRGGBB)."
      else
        let brightness :=
          match pz_brightness args with Some b => b | None => 100 end in
        if negb ((0 <=? brightness) && (brightness <=? 100)) then
          exit_msg "Brightness must be 0-100"
        else
          let payload := Py.join "," (colors ++ [Py.str brightness])%list in
          _write_text KB_PER_ZONE (payload ++ newline) ;;;
          print "OK: per-zone colors set"
  end.

Definition cmd_rgb_per_zone_get : M unit :=
  _require_path KB_PER_ZONE "four-zone keyboard per_zone_mode" ;;;
  t <- _read_text KB_PER_ZONE ;;
  print t.

(** Lines 161-177 of [cmd_rgb_effect]: the mode given as a name or as a
    number, and the range check on the resulting id. *)
Definition resolve_mode (mode : pyval) : result Z :=
  let r :=
    match mode with
    | VStr m =>
        let mode_key := Py.lower m in
        match dict_get MODE_NAME_TO_ID mode_key with
        | Some id => Ok id
        | None =>
            match Py.int m with
            | Some id => Ok id
            | None =>
                Raise (SystemExit (ExitStr
                  ("Unknown mode '" ++ m ++ "'. Use one of: "
                   ++ Py.join ", " (dict_keys MODE_NAME_TO_ID) ++ " or 0-7.")))
            end
        end
    | VInt z => Ok z
    end in
  match r with
  | Raise e => Raise e
  | Ok mode_id =>
      if negb ((0 <=? mode_id) && (mode_id <=? 7)) then
        Raise (SystemExit (ExitStr "Mode must be 0-7"))
      else Ok mode_id
  end.

Definition from_hex (s : string) : result Z :=
  match Py.int16 s with
  | Some z => Ok z
  | None => Raise (ValueError "invalid literal for int() with base 16")
  end.

Definition cmd_rgb_effect (args : effect_args) : M unit :=
  _require_path KB_FOUR_MODE "four-zone keyboard four_zone_mode" ;;;
  match ef_mode args with
  | None =>
      match ef_parser args with
      | Some parser => print_help parser
      | None => exit_msg "Mode is required"
      end
  | Some mode =>
      mode_id <- lift (resolve_mode mode) ;;
      let speed := ef_speed args in
      if negb ((0 <=? speed) && (speed <=? 9)) then
        exit_msg "Speed must be 0-9"
      else
      let brightness := ef_brightness args in
      if negb ((0 <=? brightness) && (brightness <=? 100)) then
        exit_msg "Brightness must be 0-100"
      else
      let direction := ef_direction args in
      if negb ((1 <=? direction) && (direction <=? 2)) then
        exit_msg "Direction must be 1 or 2"
      else
        rgb <- match ef_color args with
               | Some c =>
                   if Py.truthy c then
                     hexcol <- lift (_parse_hex_color c) ;;
                     r <- lift (from_hex (Py.slice 0 2 hexcol)) ;;
                     g <- lift (from_hex (Py.slice 2 4 hexcol)) ;;
                     b <- lift (from_hex (Py.slice 4 6 hexcol)) ;;
                     ret (r, g, b)
                   else ret (0, 0, 0)
               | None => ret (0, 0, 0)
               end ;;
        let '(r, g, b) := rgb in
        let payload :=
          Py.join "," [Py.str mode_id; Py.str speed; Py.str brightness;
                       Py.str direction; Py.str r; Py.str g; Py.str b] in
        _write_text KB_FOUR_MODE (payload ++ newline) ;;;
        print "OK: effect set"
  end.

Definition cmd_rgb_effect_get : M unit :=
  _require_path KB_FOUR_MODE "four-zone keyboard four_zone_mode" ;;;
  t <- _read_text KB_FOUR_MODE ;;
  print t.

(** *** Power profile *)

(** [sorted(allowed)] for a set of strings: increasing, without repeats. *)
Fixpoint insert_sorted (x : string) (l : list string) : list string :=
  match l with
  | [] => [x]
  | y :: l' =>
      match String.compare x y with
      | Lt => x :: l
      | Eq => l
      | Gt => y :: insert_sorted x l'
      end
  end.

Definition sorted_set (l : list string) : list string :=
  fold_right insert_sorted [] l.

Definition cmd_power_get : M unit :=
  _require_path PLATFORM_PROFILE "platform_profile" ;;;
  t <- _read_text PLATFORM_PROFILE ;;
  print t.

Definition cmd_power_list : M unit :=
  _require_path PLATFORM_PROFILE_CHOICES "platform_profile_choices" ;;;
  t <- _read_text PLATFORM_PROFILE_CHOICES ;;
  print t.

Definition cmd_power_set (mode : string) : M unit :=
  _require_path PLATFORM_PROFILE "platform_profile" ;;;
  has_choices <- _path_exists PLATFORM_PROFILE_CHOICES ;;
  (if has_choices then
     choices <- _read_text PLATFORM_PROFILE_CHOICES ;;
     let allowed :=
       filter Py.truthy (map Py.strip (Py.split " " choices)) in
     match allowed with
     | [] => ret tt
     | _ =>
         if negb (in_set mode allowed) then
           exit_msg ("Unsupported profile '" ++ mode ++ "'. Choices: "
                     ++ Py.join ", " (sorted_set allowed))
         else ret tt
     end
   else ret tt) ;;;
  _write_text PLATFORM_PROFILE (mode ++ newline) ;;;
  print "OK: power profile set".

(** *** Back logo *)

Definition cmd_logo_get : M unit :=
  _require_path LOGO_COLOR "back_logo/color" ;;;
  v <- _read_text LOGO_COLOR ;;
  print v.

Definition cmd_logo_set (args : logo_args) : M unit :=
  _require_path LOGO_COLOR "back_logo/color" ;;;
  color <- lift (_parse_hex_color (lg_color args)) ;;
  let b := match lg_brightness args with Some b => b | None => 100 end in
  if negb ((0 <=? b) && (b <=? 100)) then
    exit_msg "Brightness must be 0-100"
  else
    let en := 1 in
    let en := if lg_on args then 1 else en in
    let en := if lg_off args then 0 else en in
    _write_text LOGO_COLOR
      (color ++ "," ++ Py.str b ++ "," ++ Py.str en ++ newline) ;;;
    print "OK: back logo updated".

(** *** Fans and battery limiter *)

Definition _fan_path : M string :=
  sense <- _detect_sense_dir ;;
  match sense with
  | None =>
      stderr_write
        ("Could not find predator_sense or nitro_sense directory. Is the module loaded?"
         ++ newline) ;;;
      sys_exit 2
  | Some dir =>
      let p := os_path_join dir "fan_speed" in
      _require_path p "fan_speed" ;;;
      ret p
  end.

Definition _battery_limit_path : M string :=
  sense <- _detect_sense_dir ;;
  match sense with
  | None =>
      stderr_write
        ("Could not find predator_sense or nitro_sense directory. Is the module loaded?"
         ++ newline) ;;;
      sys_exit 2
  | Some dir =>
      let p := os_path_join dir "battery_limiter" in
      _require_path p "battery_limiter" ;;;
      ret p
  end.

Definition cmd_fan_auto : M unit :=
  p <- _fan_path ;;
  _write_text p ("0,0" ++ newline) ;;;
  print "OK: fan control set to auto".

Definition cmd_fan_get : M unit :=
  p <- _fan_path ;;
  t <- _read_text p ;;
  print t.

Definition cmd_fan_set (args : fan_args) : M unit :=
  p <- _fan_path ;;
  let cpu := option_map VStr (fan_cpu args) in
  let gpu := option_map VStr (fan_gpu args) in
  cg <- match fan_values args with
        | [] => ret (cpu, gpu)
        | [v] =>
            x <- lift (_parse_percent_or_auto (VStr v)) ;;
            ret (Some (VInt x), Some (VInt x))
        | [v1; v2] =>
            x <- lift (_parse_percent_or_auto (VStr v1)) ;;
            y <- lift (_parse_percent_or_auto (VStr v2)) ;;
            ret (Some (VInt x), Some (VInt y))
        | _ => exit_msg "Provide one or two percentage values"
        end ;;
  cg <- match cg with
        | (None, None) =>
            exit_msg "Specify fan percentages via values or --cpu/--gpu"
        | (None, Some g) =>
            x <- lift (_parse_percent_or_auto (VStr (str_of g))) ;;
            ret (VInt x, g)
        | (Some c, None) =>
            x <- lift (_parse_percent_or_auto (VStr (str_of c))) ;;
            ret (c, VInt x)
        | (Some c, Some g) => ret (c, g)
        end ;;
  cpu <- lift (_parse_percent_or_auto (VStr (str_of (fst cg)))) ;;
  gpu <- lift (_parse_percent_or_auto (VStr (str_of (snd cg)))) ;;
  _write_text p (Py.str cpu ++ "," ++ Py.str gpu ++ newline) ;;;
  print ("OK: fan set CPU=" ++ Py.str cpu ++ " GPU=" ++ Py.str gpu).

Definition cmd_battery_get : M unit :=
  p <- _battery_limit_path ;;
  t <- _read_text p ;;
  print t.

Definition cmd_battery_set (mode : string) : M unit :=
  p <- _battery_limit_path ;;
  v <- lift (match _parse_on_off mode with
             | Raise (ValueError msg) => Raise (SystemExit (ExitStr msg))
             | r => r
             end) ;;
  _write_text p (Py.str v ++ newline) ;;;
  print ("OK: battery limit set to "
         ++ (if v =? 1 then "ON (80%)" else "OFF (100%)")).

Definition cmd_battery_on : M unit :=
  p <- _battery_limit_path ;;
  _write_text p ("1" ++ newline) ;;;
  print "OK: battery limit ON (80%)".

Definition cmd_battery_off : M unit :=
  p <- _battery_limit_path ;;
  _write_text p ("0" ++ newline) ;;;
  print "OK: battery limit OFF (100%)".

(** *** The leaves of the command tree and [main] *)

(** What [args.func] is bound to: one of the leaves, or, for [nekroctl]
    and each of its groups called without a subcommand, the function that
    prints the help of that parser. *)
Inductive command : Type :=
| RgbPerZone (a : per_zone_args)
| RgbPerZoneGet
| RgbEffect (a : effect_args)
| RgbEffectGet
| PowerGet
| PowerList
| PowerSet (mode : option string)
| LogoGet
| LogoSet (a : logo_args)
| FanGet
| FanAuto
| FanSet (a : fan_args)
| BatteryGet
| BatteryOn
| BatteryOff
| BatterySet (mode : option string)
| GroupHelp (prog : string).

Definition _power_set_wrapper (mode : option string) : M unit :=
  match mode with
  | None => print_help "nekroctl power set"
  | Some m => cmd_power_set m
  end.

Definition _logo_set_wrapper (a : logo_args) : M unit :=
  if lg_on a && lg_off a then
    exit_msg "Choose either --on or --off, not both"
  else cmd_logo_set a.

Definition _fan_set_wrapper (a : fan_args) : M unit :=
  match fan_values a, fan_cpu a, fan_gpu a with
  | [], None, None => print_help "nekroctl fan set"
  | _, _, _ => cmd_fan_set a
  end.

Definition _battery_set_wrapper (mode : option string) : M unit :=
  match mode with
  | None => print_help "nekroctl battery set"
  | Some m => cmd_battery_set m
  end.

(** [args.func(args)] *)
Definition func (c : command) : M unit :=
  match c with
  | RgbPerZone a => cmd_rgb_per_zone a
  | RgbPerZoneGet => cmd_rgb_per_zone_get
  | RgbEffect a => cmd_rgb_effect a
  | RgbEffectGet => cmd_rgb_effect_get
  | PowerGet => cmd_power_get
  | PowerList => cmd_power_list
  | PowerSet m => _power_set_wrapper m
  | LogoGet => cmd_logo_get
  | LogoSet a => _logo_set_wrapper a
  | FanGet => cmd_fan_get
  | FanAuto => cmd_fan_auto
  | FanSet a => _fan_set_wrapper a
  | BatteryGet => cmd_battery_get
  | BatteryOn => cmd_battery_on
  | BatteryOff => cmd_battery_off
  | BatterySet m => _battery_set_wrapper m
  | GroupHelp prog => print_help prog
  end.

(** [int(e.code)] inside [try], with [except Exception: return 1]. *)
Definition exit_status (a : exit_arg) : Z :=
  match a with
  | ExitNone => 0
  | ExitInt z => z
  | ExitStr s => match Py.int s with Some z => z | None => 1 end
  end.

(** What [parser.parse_args(argv)] does.  Which command line is accepted is
    decided by argparse and is not modelled; its three outcomes are: the
    namespace of a command; [parser.error], which writes the usage and the
    message to standard error and calls [sys.exit(2)], for a command line
    that it rejects (an unknown command or option, a missing argument, a
    value that [type=int] does not read); and the help action of [-h],
    which prints the help and calls [sys.exit(0)]. *)
Inductive parse_result : Type :=
| Parsed (c : command)
| Rejected (usage message : string)
| HelpShown (prog : string).

Definition parse_args (argv : parse_result) : M command :=
  match argv with
  | Parsed c => ret c
  | Rejected usage message =>
      stderr_write usage ;;; stderr_write message ;;; sys_exit 2
  | HelpShown prog => print_help prog ;;; sys_exit 0
  end.

Definition main (argv : parse_result) (w : world) : Z * world :=
  match (args <- parse_args argv ;; func args) w with
  | (Ok _, w') => (0, w')
  | (Raise (SystemExit a), w') => (exit_status a, w')
  | (Raise (FileNotFoundError msg), w') =>
      (2, snd (stderr_write ("File not found: " ++ msg ++ newline) w'))
  | (Raise PermissionError, w') => (3, w')
  | (Raise (ValueError msg), w') =>
      (1, snd (stderr_write ("Error: " ++ msg ++ newline) w'))
  | (Raise (OSError msg), w') =>
      (1, snd (stderr_write ("Error: " ++ msg ++ newline) w'))
  end.

End nekroctl.

(** ** The privileged execution layer, [tools/nekroctl_gui.py] *)

Module nekroctl_gui.

(** *** External processes

    The three runners differ only in the command line they spawn.  What a
    process answers is not decided by this code: [subprocess_run] is given
    by the host and may depend on everything that was run before. *)

Inductive tier : Type :=
| Unprivileged
| Sudo
| Pkexec.

(** What the escalator does, in order: a runner is entered, a process is
    spawned. *)
Inductive event : Type :=
| Call (t : tier)
| Exec (argv : list string).

Record host : Type := {
  which : string -> bool;
  executable : string;
  NEKROCTL_PATH : string;
  subprocess_run : list event -> list string -> Z * string * string
}.

Definition P (A : Type) : Type := host -> list event -> A * list event.

Definition ret {A} (a : A) : P A := fun _ tr => (a, tr).

Definition bind {A B} (m : P A) (k : A -> P B) : P B :=
  fun h tr => let '(a, tr') := m h tr in k a h tr'.

Notation "x <- m ;; k" := (bind m (fun x => k))
  (at level 61, m at next level, right associativity).
Notation "m ;;; k" := (bind m (fun _ => k))
  (at level 61, right associativity).

Definition enter (t : tier) : P unit :=
  fun _ tr => (tt, (tr ++ [Call t])%list).

(** [subprocess.run(cmd, stdout=PIPE, stderr=PIPE, text=True)] followed by
    [proc.returncode, proc.stdout.strip(), proc.stderr.strip()]. *)
Definition spawn (cmd : list string) : P (Z * string * string) :=
  fun h tr =>
    let '(code, out, err) := subprocess_run h tr cmd in
    ((code, Py.strip out, Py.strip err), (tr ++ [Exec cmd])%list).

Definition ask {A} (f : host -> A) : P A := fun h tr => (f h, tr).

Definition _have_pkexec : P bool := ask (fun h => which h "pkexec").

Definition _have_sudo : P bool := ask (fun h => which h "sudo").

Definition _run_nekroctl (args : list string) : P (Z * string * string) :=
  enter Unprivileged ;;;
  exe <- ask executable ;;
  path <- ask NEKROCTL_PATH ;;
  spawn ([exe; path] ++ args)%list.

Definition _run_with_sudo (args : list string) : P (Z * string * string) :=
  enter Sudo ;;;
  have <- _have_sudo ;;
  if negb have then ret (127, "", "sudo not found")
  else
    exe <- ask executable ;;
    path <- ask NEKROCTL_PATH ;;
    spawn (["sudo"; "-n"; exe; path] ++ args)%list.

Definition _run_with_pkexec (args : list string) : P (Z * string * string) :=
  enter Pkexec ;;;
  have <- _have_pkexec ;;
  if negb have then ret (127, "", "pkexec not found; install policykit-1")
  else
    exe <- ask executable ;;
    path <- ask NEKROCTL_PATH ;;
    spawn (["pkexec"; exe; path] ++ args)%list.

Definition failed_with (code : Z) : string :=
  "Failed with code " ++ Py.str code.

(** The test [perm_denied] of [run_privileged]. *)
Definition perm_denied (code : Z) (err : string) : bool :=
  let err_l := Py.lower err in
  (code =? 3)
  || Py.contains "permission denied" err_l
  || Py.contains "operation not permitted" err_l
  || Py.contains "not authorized" err_l
  || Py.contains "authentication is required" err_l
  || Py.contains "must be root" err_l.

(** The test [sudo_requires_password] of [run_privileged]; [and] binds
    tighter than [or]. *)
Definition sudo_requires_password (code2 : Z) (err2 : string) : bool :=
  let err2_l := Py.lower err2 in
  (code2 =? 127)
  || Py.contains "a password is required" err2_l
  || (Py.contains "password" err2_l
      && (Py.contains "authentication" err2_l
          || Py.contains "is required" err2_l))
  || Py.contains "no tty present" err2_l
  || Py.contains "unable to authenticate" err2_l
  || Py.contains "sorry, you must have a tty to run sudo" err2_l.

Definition run_privileged (args : list string) : P (bool * string) :=
  r <- _run_nekroctl args ;;
  let '(code, out, err) := r in
  if code =? 0 then ret (true, Py.or_else out "OK")
  else if negb (perm_denied code err) then
    ret (false, Py.or_else err (Py.or_else out (failed_with code)))
  else
    r2 <- _run_with_sudo args ;;
    let '(code2, out2, err2) := r2 in
    if code2 =? 0 then ret (true, Py.or_else out2 "OK")
    else if sudo_requires_password code2 err2 then
      r3 <- _run_with_pkexec args ;;
      let '(code3, out3, err3) := r3 in
      if code3 =? 0 then ret (true, Py.or_else out3 "OK")
      else
        ret (false,
             Py.or_else err3 (Py.or_else out3 (Py.or_else err2
               (Py.or_else out2 (Py.or_else err (Py.or_else out
                 (failed_with code3)))))))
    else
      ret (false,
           Py.or_else err2 (Py.or_else out2 (Py.or_else err
             (Py.or_else out (failed_with code2))))).

(** *** The change coalescer

    [_build_rgb_page] and [_build_logo_group] repeat one pattern three
    times, for the per-zone colours, the effect and the back logo: a
    [_touch] function called on every change of a widget, a [_tick]
    callback polled by [GLib.timeout_add(100, _tick)], an [_apply_now]
    function and its completion callback [_done].  The pattern is written
    once, over the arguments that the three copies compute, and is
    instantiated below. *)

Definition parse_hex_color (s : string) : nekroctl.result string :=
  let s := Py.strip s in
  let s := if Py.startswith "#" s then Py.tail s else s in
  if negb (Nat.eqb (String.length s) 6) || Py.any_char nekroctl.not_hex s then
    nekroctl.Raise (nekroctl.ValueError "Use RRGGBB or #RRGGBB")
  else nekroctl.Ok (Py.lower s).

(** [PER_ZONE_DELAY_US], [EFFECT_DELAY_US] and [LOGO_DELAY_US]. *)
Definition DELAY_US : Z := 400000.

(** The closure variables of one coalescer. *)
Record coalescer : Type := {
  timer_id : option Z;
  last_change : Z;
  last_args : option string
}.

(** The status line written by [StatusNotifier]: its text and whether it
    carries the [error] class. *)
Record status_line : Type := {
  status_text : string;
  status_error : bool
}.

Section Coalescer.

(** What [_compute_*_args] reads when it is called: the widgets and the
    presence of the attribute. *)
Variable view : Type.
Variable compute_args : view -> option (list string).
Variable applied_text : string.

Record gui : Type := {
  widgets : view;
  co : coalescer;
  next_source : Z;
  started : list (list string * string);
  status : option status_line
}.

(** What the main loop delivers: a widget changed at monotonic time [now]
    and now shows [v]; the polling timer fired at time [now]; the worker
    of the [k]-th started invocation reported [(ok, msg)]. *)
Inductive ui_event : Type :=
| Intent (now : Z) (v : view)
| Tick (now : Z)
| Finished (k : nat) (ok : bool) (msg : string).

Definition set_co (c : coalescer) (g : gui) : gui :=
  {| widgets := widgets g; co := c; next_source := next_source g;
     started := started g; status := status g |}.

(** [run_privileged_async(args, _done)] with the [sig] that [_done]
    captured: a worker thread is started. *)
Definition run_privileged_async (args : list string) (sig : string) (g : gui)
  : gui :=
  {| widgets := widgets g; co := co g; next_source := next_source g;
     started := (started g ++ [(args, sig)])%list; status := status g |}.

Definition _apply_now (g : gui) : gui :=
  match compute_args (widgets g) with
  | None => g
  | Some [] => g
  | Some args =>
      let sig := Py.join " " args in
      match last_args (co g) with
      | Some l => if String.eqb sig l then g
                  else run_privileged_async args sig g
      | None => run_privileged_async args sig g
      end
  end.

Definition _done (sig : string) (ok : bool) (msg : string) (g : gui) : gui :=
  if ok then
    {| widgets := widgets g;
       co := {| timer_id := timer_id (co g);
                last_change := last_change (co g);
                last_args := Some sig |};
       next_source := next_source g; started := started g;
       status := Some {| status_text := applied_text; status_error := false |} |}
  else
    {| widgets := widgets g; co := co g; next_source := next_source g;
       started := started g;
       status := Some {| status_text := msg; status_error := true |} |}.

Definition _touch (now : Z) (g : gui) : gui :=
  let c := {| timer_id := timer_id (co g); last_change := now;
              last_args := last_args (co g) |} in
  match timer_id c with
  | Some _ => set_co c g
  | None =>
      {| widgets := widgets g;
         co := {| timer_id := Some (next_source g); last_change := now;
                  last_args := last_args c |};
         next_source := next_source g + 1;
         started := started g; status := status g |}
  end.

(** [_tick] returns [False] exactly when it clears the timer, which
    removes the source. *)
Definition _tick (now : Z) (g : gui) : gui :=
  if DELAY_US <=? now - last_change (co g) then
    let g := _apply_now g in
    set_co {| timer_id := None; last_change := last_change (co g);
              last_args := last_args (co g) |} g
  else g.

Definition set_widgets (v : view) (g : gui) : gui :=
  {| widgets := v; co := co g; next_source := next_source g;
     started := started g; status := status g |}.

(** One turn of the main loop.  A timer that is not registered does not
    fire; a completion is delivered to the closure of the invocation it
    belongs to. *)
Definition step (g : gui) (e : ui_event) : gui :=
  match e with
  | Intent now v => _touch now (set_widgets v g)
  | Tick now =>
      match timer_id (co g) with
      | Some _ => _tick now g
      | None => g
      end
  | Finished k ok msg =>
      match nth_error (started g) k with
      | Some (_, sig) => _done sig ok msg g
      | None => g
      end
  end.

Definition run (g : gui) (es : list ui_event) : gui := fold_left step es g.

(** The state in which the page is built. *)
Definition init (v : view) : gui :=
  {| widgets := v;
     co := {| timer_id := None; last_change := 0; last_args := None |};
     next_source := 1; started := []; status := None |}.

(** The invocations started while [es] was processed. *)
Definition started_by (g : gui) (es : list ui_event)
  : list (list string * string) :=
  skipn (List.length (started g)) (started (run g es)).

End Coalescer.

Arguments widgets {view} g.
Arguments co {view} g.
Arguments next_source {view} g.
Arguments started {view} g.
Arguments status {view} g.
Arguments Intent {view} now v.
Arguments Tick {view} now.
Arguments Finished {view} k ok msg.

(** The widgets of the per-zone section, and whether [ctl.KB_PER_ZONE]
    exists. *)
Record per_zone_view : Type := {
  kb_per_zone_exists : bool;
  single_row_active : bool;
  single_color_text : string;
  z_entries_text : list string;
  bright_row_value : Z
}.

Definition _compute_per_zone_args (v : per_zone_view) : option (list string) :=
  if negb (kb_per_zone_exists v) then None
  else
    let brightness := bright_row_value v in
    let colors :=
      if single_row_active v then
        match parse_hex_color (single_color_text v) with
        | nekroctl.Ok c => Some [c]
        | nekroctl.Raise _ => None
        end
      else
        match nekroctl.map_result parse_hex_color (z_entries_text v) with
        | nekroctl.Ok cs =>
            if negb (Nat.eqb (List.length cs) 4) then None else Some cs
        | nekroctl.Raise _ => None
        end in
    match colors with
    | None => None
    | Some colors =>
        let colors :=
          if Nat.eqb (List.length colors) 1
          then (colors ++ colors ++ colors ++ colors)%list else colors in
        Some (["rgb"; "per-zone"] ++ colors ++ ["-b"; Py.str brightness])%list
    end.

Definition per_zone_gui : Type := gui per_zone_view.

Definition _apply_per_zone_now : per_zone_gui -> per_zone_gui :=
  _apply_now per_zone_view _compute_per_zone_args.

Definition _per_zone_touch : Z -> per_zone_gui -> per_zone_gui :=
  _touch per_zone_view.

Definition per_zone_step : per_zone_gui -> ui_event per_zone_view -> per_zone_gui :=
  step per_zone_view _compute_per_zone_args "Keyboard static colors applied".

Definition per_zone_run : per_zone_gui -> list (ui_event per_zone_view) -> per_zone_gui :=
  run per_zone_view _compute_per_zone_args "Keyboard static colors applied".

Definition per_zone_started_by
  : per_zone_gui -> list (ui_event per_zone_view)
    -> list (list string * string) :=
  started_by per_zone_view _compute_per_zone_args
    "Keyboard static colors applied".

(** The widgets of the effect section, and whether [ctl.KB_FOUR_MODE]
    exists.  [mode_row.get_selected()] is an unsigned row number. *)
Record effect_view : Type := {
  kb_four_mode_exists : bool;
  mode_row_selected : nat;
  speed_row_value : Z;
  bright2_row_value : Z;
  dir_row_value : Z;
  color_row_text : string
}.

(** [list(ctl.MODE_NAME_TO_ID.keys())] *)
Definition mode_names : list string := map fst nekroctl.MODE_NAME_TO_ID.

(** [mode_names[...]] raises for a row that the list does not have, and
    [parse_hex_color] for a colour that is not one; both are caught. *)
Definition _compute_effect_args (v : effect_view) : option (list string) :=
  if negb (kb_four_mode_exists v) then None
  else
    match nth_error mode_names (mode_row_selected v) with
    | None => None
    | Some mode_name =>
        let ctext := Py.strip (color_row_text v) in
        let args := ["rgb"; "effect"; mode_name;
                     "-s"; Py.str (speed_row_value v);
                     "-b"; Py.str (bright2_row_value v);
                     "-d"; Py.str (dir_row_value v)] in
        if Py.truthy ctext then
          match parse_hex_color ctext with
          | nekroctl.Ok _ => Some (args ++ ["-c"; ctext])%list
          | nekroctl.Raise _ => None
          end
        else Some args
    end.

Definition effect_started_by
  : gui effect_view -> list (ui_event effect_view)
    -> list (list string * string) :=
  started_by effect_view _compute_effect_args "Keyboard effect applied".

(** *** Reading the attributes back

    [path_exists] and [read_text] look at the same attribute files as the
    helper; here they are functions of the file table.  A read that raises
    is [None]: every caller catches the exception and leaves the widgets
    as they are. *)

Definition path_exists (fs : string -> option nekroctl.node) (p : string)
  : bool :=
  match fs p with Some _ => true | None => false end.

Definition read_text (fs : string -> option nekroctl.node) (path : string)
  : option string :=
  match fs path with
  | Some nd =>
      match nekroctl.r_acc nd with
      | nekroctl.Granted => Some (Py.strip (Py.universal_newlines (nekroctl.content nd)))
      | _ => None
      end
  | None => None
  end.

Definition detect_sense_fan_path (fs : string -> option nekroctl.node)
  : option string :=
  let base :=
    if path_exists fs nekroctl.SYSFS_BASE then
      if path_exists fs nekroctl.SENSE_PRED then Some nekroctl.SENSE_PRED
      else if path_exists fs nekroctl.SENSE_NITRO
           then Some nekroctl.SENSE_NITRO
           else None
    else None in
  match base with
  | None => None
  | Some b =>
      let p := nekroctl.os_path_join b "fan_speed" in
      if path_exists fs p then Some p else None
  end.

(** [[p.strip() for p in raw.split(",") if p.strip()]] *)
Definition comma_parts (raw : string) : list string :=
  filter Py.truthy (map Py.strip (Py.split "," raw)).

(** The loop of [_refresh_keyboard] that normalises the four colours it
    read: white space and one [#] are removed, a text of six characters
    is kept in lower case, any other is dropped. *)
Fixpoint normalise_cols (cs : list string) : list string :=
  match cs with
  | [] => []
  | c :: cs' =>
      let c := Py.strip c in
      let c := if Py.startswith "#" c then Py.tail c else c in
      if Nat.eqb (String.length c) 6
      then Py.lower c :: normalise_cols cs'
      else normalise_cols cs'
  end.

(** [len(set(cols))] *)
Definition set_size (cols : list string) : nat :=
  List.length (nodup string_dec cols).

(** The first block of [_refresh_keyboard]: the per-zone attribute is read
    and the widgets are set from it.  [er.set_text(cols[i])] runs over the
    zone entries; an entry beyond the fourth raises, after the first four
    were set and before the brightness is. *)
Definition _refresh_keyboard_per_zone
  (fs : string -> option nekroctl.node) (v : per_zone_view) : per_zone_view :=
  if negb (path_exists fs nekroctl.KB_PER_ZONE) then v
  else
    match read_text fs nekroctl.KB_PER_ZONE with
    | None => v
    | Some raw =>
        match comma_parts raw with
        | c1 :: c2 :: c3 :: c4 :: p5 :: _ =>
            let b := match Py.int p5 with
                     | Some b => b
                     | None => bright_row_value v
                     end in
            let cols := normalise_cols [c1; c2; c3; c4] in
            if Nat.eqb (List.length cols) 4 then
              let all_eq := Nat.eqb (set_size cols) 1 in
              let single := if all_eq then hd "" cols
                            else single_color_text v in
              let entries :=
                if all_eq then z_entries_text v
                else (firstn (List.length (z_entries_text v)) cols
                      ++ skipn 4 (z_entries_text v))%list in
              let raised :=
                negb all_eq && Nat.ltb 4 (List.length (z_entries_text v)) in
              {| kb_per_zone_exists := kb_per_zone_exists v;
                 single_row_active := all_eq;
                 single_color_text := single;
                 z_entries_text := entries;
                 bright_row_value :=
                   if raised then bright_row_value v
                   else if (0 <=? b) && (b <=? 100) then b
                        else bright_row_value v |}
            else v
        | _ => v
        end
    end.

(** The widgets of the back-logo group. *)
Record logo_view : Type := {
  logo_power_active : bool;
  logo_color_text : string;
  logo_brightness_value : Z
}.

Definition _compute_logo_args (v : logo_view) : option (list string) :=
  match parse_hex_color (logo_color_text v) with
  | nekroctl.Raise _ => None
  | nekroctl.Ok c =>
      let b := logo_brightness_value v in
      Some (["logo"; "set"; c; "-b"; Py.str b]
            ++ [if logo_power_active v then "--on" else "--off"])%list
  end.

Definition logo_started_by
  : gui logo_view -> list (ui_event logo_view)
    -> list (list string * string) :=
  started_by logo_view _compute_logo_args "Back logo updated".

(** [_refresh_logo], given what [run_privileged(["logo", "get"])]
    returned.  Unpacking needs exactly three fields. *)
Definition _refresh_logo (ok : bool) (out : string) (v : logo_view)
  : logo_view :=
  if negb ok || negb (Py.truthy out) then v
  else
    match map Py.strip (firstn 3 (Py.split "," out)) with
    | [hexcol; brt; en] =>
        let color :=
          if Py.truthy hexcol && Nat.eqb (String.length hexcol) 6
          then hexcol else logo_color_text v in
        let brightness :=
          match Py.int brt with
          | Some b => if (0 <=? b) && (b <=? 100) then b
                      else logo_brightness_value v
          | None => logo_brightness_value v
          end in
        {| logo_power_active := String.eqb (Py.strip en) "1";
           logo_color_text := color;
           logo_brightness_value := brightness |}
    | _ => v
    end.

(** The widgets of the fans page that [_compute_fans_args] reads. *)
Record fans_view : Type := {
  cpu_auto_active : bool;
  cpu_row_value : Z;
  gpu_auto_active : bool;
  gpu_row_value : Z
}.

Definition _compute_fans_args (v : fans_view) : option (list string) :=
  if cpu_auto_active v && gpu_auto_active v then Some ["fan"; "auto"]
  else
    let cpuv := if cpu_auto_active v then "auto"
                else Py.str (cpu_row_value v) in
    let gpuv := if gpu_auto_active v then "auto"
                else Py.str (gpu_row_value v) in
    Some ["fan"; "set"; "--cpu"; cpuv; "--gpu"; gpuv].

(** *** The fans page: a one-shot timeout that every change replaces

    [_schedule_apply_fans], [_apply_fans_now] and [refresh] of
    [_build_fans_page].  The main loop holds the one-shot sources that
    [GLib.timeout_add(400, _timeout)] registered, each with the time of its
    registration; a source is due 400 ms later, runs [_timeout] once and
    is removed, [_timeout] returning [False]. *)

Definition FANS_DELAY_MS : Z := 400.

Record fans_gui : Type := {
  fans_widgets : fans_view;
  fans_debounce_id : option Z;
  fans_refreshing : bool;
  fans_sources : list (Z * Z);
  fans_next_source : Z;
  fans_started : list (list string);
  fans_status : option status_line
}.

(** What the main loop delivers to the fans page: one of the four widgets
    changed at time [now] and the page now shows [v]; the main loop ran
    the sources that are due at time [now]; the worker of an invocation
    reported [(ok, msg)] at time [now], and the attribute read by
    [refresh] leaves the widgets showing [shown]; the Refresh button of
    the window ran [refresh]. *)
Inductive fans_event : Type :=
| FansIntent (now : Z) (v : fans_view)
| FansTimeout (now : Z)
| FansFinished (now : Z) (ok : bool) (msg : string) (shown : fans_view)
| FansRefresh (now : Z) (shown : fans_view).

Definition fans_set_widgets (v : fans_view) (g : fans_gui) : fans_gui :=
  {| fans_widgets := v; fans_debounce_id := fans_debounce_id g;
     fans_refreshing := fans_refreshing g; fans_sources := fans_sources g;
     fans_next_source := fans_next_source g; fans_started := fans_started g;
     fans_status := fans_status g |}.

Definition fans_set_refreshing (b : bool) (g : fans_gui) : fans_gui :=
  {| fans_widgets := fans_widgets g; fans_debounce_id := fans_debounce_id g;
     fans_refreshing := b; fans_sources := fans_sources g;
     fans_next_source := fans_next_source g; fans_started := fans_started g;
     fans_status := fans_status g |}.

Definition fans_set_status (l : status_line) (g : fans_gui) : fans_gui :=
  {| fans_widgets := fans_widgets g; fans_debounce_id := fans_debounce_id g;
     fans_refreshing := fans_refreshing g; fans_sources := fans_sources g;
     fans_next_source := fans_next_source g; fans_started := fans_started g;
     fans_status := Some l |}.

(** [GLib.source_remove(id)] followed by [fans_debounce_id = None]: the
    source leaves the main loop; for an id that is not registered the call
    raises, and the exception is passed over. *)
Definition fans_source_remove (id : Z) (g : fans_gui) : fans_gui :=
  {| fans_widgets := fans_widgets g; fans_debounce_id := None;
     fans_refreshing := fans_refreshing g;
     fans_sources := filter (fun s => negb (fst s =? id)) (fans_sources g);
     fans_next_source := fans_next_source g; fans_started := fans_started g;
     fans_status := fans_status g |}.

Definition _schedule_apply_fans (now : Z) (g : fans_gui) : fans_gui :=
  if fans_refreshing g then g
  else
    let g := match fans_debounce_id g with
             | Some id => fans_source_remove id g
             | None => g
             end in
    {| fans_widgets := fans_widgets g;
       fans_debounce_id := Some (fans_next_source g);
       fans_refreshing := fans_refreshing g;
       fans_sources := (fans_sources g ++ [(fans_next_source g, now)])%list;
       fans_next_source := fans_next_source g + 1;
       fans_started := fans_started g; fans_status := fans_status g |}.

Definition _apply_fans_now (g : fans_gui) : fans_gui :=
  if fans_refreshing g then g
  else
    match _compute_fans_args (fans_widgets g) with
    | None => g
    | Some [] => g
    | Some args =>
        {| fans_widgets := fans_widgets g;
           fans_debounce_id := fans_debounce_id g;
           fans_refreshing := fans_refreshing g;
           fans_sources := fans_sources g;
           fans_next_source := fans_next_source g;
           fans_started := (fans_started g ++ [args])%list;
           fans_status := fans_status g |}
    end.

(** [refresh()] of the fans page: the widgets are set with
    [fans_refreshing] raised, so that the handler which the changes call
    returns at once; the flag is lowered in the [finally] clause. *)
Definition fans_refresh (now : Z) (shown : fans_view) (g : fans_gui)
  : fans_gui :=
  let g := fans_set_refreshing true g in
  let g := _schedule_apply_fans now (fans_set_widgets shown g) in
  fans_set_refreshing false g.

(** [_done] of [_apply_fans_now]. *)
Definition _fans_done (now : Z) (ok : bool) (msg : string)
  (shown : fans_view) (g : fans_gui) : fans_gui :=
  if ok then
    fans_refresh now shown
      (fans_set_status {| status_text := "Fan settings applied";
                          status_error := false |} g)
  else fans_set_status {| status_text := msg; status_error := true |} g.

Definition fans_due (now : Z) (s : Z * Z) : bool :=
  FANS_DELAY_MS * 1000 <=? now - snd s.

(** The main loop at time [now]: every source that is due runs
    [_timeout], which calls [_apply_fans_now], and is removed. *)
Definition fans_dispatch (now : Z) (g : fans_gui) : fans_gui :=
  let due := filter (fans_due now) (fans_sources g) in
  let g :=
    {| fans_widgets := fans_widgets g;
       fans_debounce_id := fans_debounce_id g;
       fans_refreshing := fans_refreshing g;
       fans_sources :=
         filter (fun s => negb (fans_due now s)) (fans_sources g);
       fans_next_source := fans_next_source g;
       fans_started := fans_started g; fans_status := fans_status g |} in
  fold_left (fun g _ => _apply_fans_now g) due g.

Definition fans_step (g : fans_gui) (e : fans_event) : fans_gui :=
  match e with
  | FansIntent now v => _schedule_apply_fans now (fans_set_widgets v g)
  | FansTimeout now => fans_dispatch now g
  | FansFinished now ok msg shown => _fans_done now ok msg shown g
  | FansRefresh now shown => fans_refresh now shown g
  end.

Definition fans_run (g : fans_gui) (es : list fans_event) : fans_gui :=
  fold_left fans_step es g.

(** The state in which the page is built, before its first [refresh]. *)
Definition fans_init (v : fans_view) : fans_gui :=
  {| fans_widgets := v; fans_debounce_id := None; fans_refreshing := false;
     fans_sources := []; fans_next_source := 1; fans_started := [];
     fans_status := None |}.

Definition fans_started_by (g : fans_gui) (es : list fans_event)
  : list (list string) :=
  skipn (List.length (fans_started g)) (fans_started (fans_run g es)).

(** *** The power page: every change is sent at once

    [_apply_power_from_combo] and [_on_battery_toggle] of
    [_build_power_page] start an invocation from the handler of the change
    itself, unless [power_refreshing] is raised. *)

Record power_gui : Type := {
  choices : list string;
  combo_selected : nat;
  battery_row_active : bool;
  power_refreshing : bool;
  power_started : list (list string);
  power_status : option status_line
}.

(** What the main loop delivers to the power page: the selector now shows
    row [i]; the battery switch now shows [b]; the worker of a profile
    invocation reported [(ok, msg)]; the worker of the battery invocation
    that was started for the value [val] reported [(ok, msg)]; [refresh]
    ran and left the profiles [cs], row [i] and the switch at [b]. *)
Inductive power_event : Type :=
| ProfileSelected (i : nat)
| BatteryToggled (b : bool)
| ProfileFinished (sel : string) (ok : bool) (msg : string)
| BatteryFinished (val : bool) (ok : bool) (msg : string)
| PowerRefreshed (cs : list string) (i : nat) (b : bool).

Definition power_run_privileged_async (args : list string) (g : power_gui)
  : power_gui :=
  {| choices := choices g; combo_selected := combo_selected g;
     battery_row_active := battery_row_active g;
     power_refreshing := power_refreshing g;
     power_started := (power_started g ++ [args])%list;
     power_status := power_status g |}.

Definition power_set_status (l : status_line) (g : power_gui) : power_gui :=
  {| choices := choices g; combo_selected := combo_selected g;
     battery_row_active := battery_row_active g;
     power_refreshing := power_refreshing g;
     power_started := power_started g; power_status := Some l |}.

Definition power_set_refreshing (b : bool) (g : power_gui) : power_gui :=
  {| choices := choices g; combo_selected := combo_selected g;
     battery_row_active := battery_row_active g;
     power_refreshing := b;
     power_started := power_started g; power_status := power_status g |}.

Definition power_set_battery (b : bool) (g : power_gui) : power_gui :=
  {| choices := choices g; combo_selected := combo_selected g;
     battery_row_active := b;
     power_refreshing := power_refreshing g;
     power_started := power_started g; power_status := power_status g |}.

Definition power_set_selected (i : nat) (g : power_gui) : power_gui :=
  {| choices := choices g; combo_selected := i;
     battery_row_active := battery_row_active g;
     power_refreshing := power_refreshing g;
     power_started := power_started g; power_status := power_status g |}.

(** [choices[combo.get_selected()]] raises [IndexError] for a row that
    [choices] does not have; the handler shows the error. *)
Definition _apply_power_from_combo (g : power_gui) : power_gui :=
  if power_refreshing g then g
  else
    match choices g with
    | [] => g
    | _ =>
        match nth_error (choices g) (combo_selected g) with
        | None =>
            power_set_status
              {| status_text := "Error: list index out of range";
                 status_error := true |} g
        | Some sel =>
            if Py.truthy sel
            then power_run_privileged_async ["power"; "set"; sel] g
            else g
        end
    end.

Definition _on_battery_toggle (g : power_gui) : power_gui :=
  if power_refreshing g then g
  else
    let val := battery_row_active g in
    power_run_privileged_async ["battery"; if val then "on" else "off"] g.

(** [_done] of [_on_battery_toggle]: after a failure the switch is put
    back with [power_refreshing] raised, and the handler of that change
    returns at once. *)
Definition _battery_done (val ok : bool) (msg : string) (g : power_gui)
  : power_gui :=
  if ok then
    power_set_status
      {| status_text := if val then "Battery limit enabled"
                        else "Battery limit disabled";
         status_error := false |} g
  else
    let g := power_set_status {| status_text := msg; status_error := true |} g in
    let prev := power_refreshing g in
    let g := power_set_refreshing true g in
    let g := _on_battery_toggle (power_set_battery (negb val) g) in
    power_set_refreshing prev g.

Definition _power_done (sel : string) (ok : bool) (msg : string)
  (g : power_gui) : power_gui :=
  if ok then
    power_set_status
      {| status_text := "Power profile set to " ++ sel;
         status_error := false |} g
  else power_set_status {| status_text := msg; status_error := true |} g.

(** [_wrapped_refresh]: the profiles, the selected row and the switch
    are set with [power_refreshing] raised. *)
Definition power_refresh (cs : list string) (i : nat) (b : bool)
  (g : power_gui) : power_gui :=
  let g := power_set_refreshing true g in
  let g :=
    {| choices := cs; combo_selected := combo_selected g;
       battery_row_active := battery_row_active g;
       power_refreshing := power_refreshing g;
       power_started := power_started g; power_status := power_status g |} in
  let g := _apply_power_from_combo (power_set_selected i g) in
  let g := _on_battery_toggle (power_set_battery b g) in
  power_set_refreshing false g.

Definition power_step (g : power_gui) (e : power_event) : power_gui :=
  match e with
  | ProfileSelected i => _apply_power_from_combo (power_set_selected i g)
  | BatteryToggled b => _on_battery_toggle (power_set_battery b g)
  | ProfileFinished sel ok msg => _power_done sel ok msg g
  | BatteryFinished val ok msg => _battery_done val ok msg g
  | PowerRefreshed cs i b => power_refresh cs i b g
  end.

Definition power_run (g : power_gui) (es : list power_event) : power_gui :=
  fold_left power_step es g.

(** The page as it is built, with the widgets it shows. *)
Definition power_init (cs : list string) (i : nat) (b : bool) : power_gui :=
  {| choices := cs; combo_selected := i; battery_row_active := b;
     power_refreshing := false; power_started := []; power_status := None |}.

Definition power_started_by (g : power_gui) (es : list power_event)
  : list (list string) :=
  skipn (List.length (power_started g)) (power_started (power_run g es)).

(** The profiles that the power page offers, given what
    [run_privileged(["power", "list"])] returned. *)
Definition power_choices (ok_list : bool) (list_out : string) : list string :=
  if ok_list && Py.truthy list_out
  then filter Py.truthy (Py.split_ws list_out)
  else ["balanced"; "performance"; "power-saver"].

(** The colour text that [_refresh_keyboard] shows for the effect:
    empty for black, [f"{r:02x}{g:02x}{b:02x}"] otherwise. *)
Definition effect_color_text (r g b : Z) : string :=
  if (r =? 0) && (g =? 0) && (b =? 0) then ""
  else Py.format_02x r ++ Py.format_02x g ++ Py.format_02x b.

End nekroctl_gui.

(** ** The string scanner, [analysis/extract_strings.py] *)

Module extract_strings.

Definition allowed : string :=
  "abcdefghijklmnopqrstuvwxyzABCDEFGHIJKLMNOPQRSTUVWXYZ0123456789_- ".

(** The loop of the generator [strings]: [result] is the run read so far,
    [data] the bytes still to read, each taken as the character [chr(c)]. *)
Fixpoint strings_go (min : nat) (result : string) (data : list ascii)
  : list string :=
  match data with
  | [] => []
  | c :: data' =>
      if Py.char_in c allowed then
        strings_go min (result ++ String c EmptyString) data'
      else
        ((if Nat.leb min (String.length result) then [result] else [])
         ++ strings_go min EmptyString data')%list
  end.

(** [list(strings(filename, min))] for a file whose bytes are [data]. *)
Definition strings (data : list ascii) (min : nat) : list string :=
  strings_go min EmptyString data.

Definition wmi_keywords : list string :=
  ["Init"; "Reset"; "Gaming"; "Zone"; "Profile"; "Color";
   "Set"; "Get"; "Method"; "WMI"; "Acer"; "Predator";
   "6AF4F258"; "95764E09"; "61EF69EA"; "7A4DDFE7"; "79772EC5"].

Definition has_keyword (s : string) : bool :=
  existsb (fun k => Py.contains k s) wmi_keywords.

(** The loop of [analyze_binary] over the strings found: the lines it
    prints, [count] matches having been printed before. *)
Fixpoint analyze_go (count : nat) (found : list string) : list string :=
  match found with
  | [] => []
  | s :: found' =>
      if has_keyword s then
        if Nat.ltb 100 (S count) then [s; "... (truncated)"]
        else s :: analyze_go (S count) found'
      else analyze_go count found'
  end.

Definition analyze_binary (path : string) (data : list ascii) : list string :=
  ("--- Strings in " ++ path ++ " ---") :: analyze_go 0 (strings data 4).

End extract_strings.

(** ** The statements of the specification

    The predicates below follow the words of the specification; the
    theorems compare them with the functions above. *)

Module Spec.

(** [text] contains [needle] when case is ignored: some segment of [text]
    has the same lower-case form as [needle]. *)
Definition ci_contains (needle text : string) : Prop :=
  exists pre mid post,
    text = pre ++ mid ++ post /\ Py.lower mid = Py.lower needle.

(** [text] contains [needle] as it is written. *)
Definition has (needle text : string) : Prop :=
  exists pre post, text = pre ++ needle ++ post.

Definition permission_markers : list string :=
  ["permission denied"; "operation not permitted"; "not authorized";
   "authentication is required"; "must be root"].

(** Step 2 of the decision procedure: the designated permission code is 3. *)
Definition permission_related (code : Z) (err : string) : Prop :=
  code = 3 \/ exists m, In m permission_markers /\ ci_contains m err.

(** Step 4 of the decision procedure, over a notion [holds] of a text
    containing a marker; the designated tool-not-found code is 127. *)
Definition requires_interactive_auth
  (holds : string -> string -> Prop) (code : Z) (err : string) : Prop :=
  code = 127
  \/ holds "a password is required" err
  \/ (holds "password" err
      /\ (holds "authentication" err \/ holds "is required" err))
  \/ holds "no tty present" err
  \/ holds "unable to authenticate" err
  \/ holds "sorry, you must have a tty to run sudo" err.

(** The message of a run that ended with status [code]: what it wrote to
    standard error, else what it wrote to standard output, else
    "Failed with code N". *)
Definition message_of (code : Z) (out err : string) : string :=
  Py.or_else err (Py.or_else out (nekroctl_gui.failed_with code)).

(** A run has written something: standard error or standard output is
    not empty. *)
Definition wrote (out err : string) : bool :=
  Py.truthy err || Py.truthy out.

(** A hexadecimal digit: 0-9, a-f or A-F. *)
Definition is_hex_digit (c : ascii) : bool :=
  let n := Z.of_N (N_of_ascii c) in
  ((48 <=? n) && (n <=? 57)) || ((97 <=? n) && (n <=? 102))
  || ((65 <=? n) && (n <=? 70)).

(** A lower-case hexadecimal digit: 0-9 or a-f. *)
Definition is_lower_hex_digit (c : ascii) : bool :=
  let n := Z.of_N (N_of_ascii c) in
  ((48 <=? n) && (n <=? 57)) || ((97 <=? n) && (n <=? 102)).

(** Exactly six hexadecimal digits. *)
Definition is_hex6 (s : string) : Prop :=
  String.length s = 6%nat /\ Py.all_char is_hex_digit s = true.

(** The canonical text of a colour: six lower-case hexadecimal digits. *)
Definition is_color (s : string) : Prop :=
  String.length s = 6%nat /\ Py.all_char is_lower_hex_digit s = true.

(** The text without one leading [#], if it has one. *)
Definition strip_hash (s : string) : string :=
  match s with
  | String "#" s' => s'
  | _ => s
  end.

(** The names of the eight modes. *)
Definition mode_names : list string :=
  ["static"; "breathing"; "neon"; "wave"; "shifting"; "zoom"; "meteor";
   "twinkling"].


Definition per_zone_desc : string := "four-zone keyboard per_zone_mode".

Definition effect_desc : string := "four-zone keyboard four_zone_mode".

(** What a leaf that sets an attribute does when its input is valid:
    it checks that the attribute is there, writes one line and reports. *)
Definition checked_write (path desc payload report : string)
  : nekroctl.M unit :=
  nekroctl.bind (nekroctl._require_path path desc) (fun _ =>
  nekroctl.bind (nekroctl._write_text path (payload ++ nekroctl.newline))
    (fun _ => nekroctl.print report)).

(** What a leaf does when its input is refused after the attribute was
    found: it checks that the attribute is there and exits with [msg]. *)
Definition checked_refusal (path desc msg : string) : nekroctl.M unit :=
  nekroctl.bind (nekroctl._require_path path desc) (fun _ =>
  nekroctl.exit_msg msg).

(** What [fan set] does with one value [s] for both fans: it finds the
    attribute, normalises [s] and writes the result twice. *)
Definition set_both_fans (s : string) : nekroctl.M unit :=
  nekroctl.bind nekroctl._fan_path (fun p =>
  nekroctl.bind
    (nekroctl.lift (nekroctl._parse_percent_or_auto (nekroctl.VStr s)))
    (fun n =>
  nekroctl.bind
    (nekroctl._write_text p
       (Py.str n ++ "," ++ Py.str n ++ nekroctl.newline))
    (fun _ =>
  nekroctl.print ("OK: fan set CPU=" ++ Py.str n ++ " GPU=" ++ Py.str n)))).

(** What [fan set] does with the normalised values [c] and [g]: it finds
    the attribute, writes the two numbers and reports them. *)
Definition set_fans (c g : Z) : nekroctl.M unit :=
  nekroctl.bind nekroctl._fan_path (fun p =>
  nekroctl.bind
    (nekroctl._write_text p
       (Py.str c ++ "," ++ Py.str g ++ nekroctl.newline))
    (fun _ =>
  nekroctl.print ("OK: fan set CPU=" ++ Py.str c ++ " GPU=" ++ Py.str g))).

(** The only white space in [s] is the space character. *)
Definition spaces_only (s : string) : bool :=
  Py.all_char (fun c => negb (Py.isspace c) || Ascii.eqb c " ") s.

(** The text that a process leaves on its standard output after it
    printed [items], every line ending with a line feed; the text of a
    help page is not modelled. *)
Fixpoint printed (items : list nekroctl.out_item) : option string :=
  match items with
  | [] => Some ""
  | nekroctl.Line s :: items' =>
      match printed items' with
      | Some t => Some (s ++ nekroctl.newline ++ t)
      | None => None
      end
  | nekroctl.Help _ :: _ => None
  end.

(** The process that the host starts for [cmd] after the events [tr] is
    the helper that ended as [run]: it answers with the status of [run],
    the text it printed and the text it wrote to standard error. *)
Definition answers (h : nekroctl_gui.host) (tr : list nekroctl_gui.event)
  (cmd : list string) (run : Z * nekroctl.world) : Prop :=
  exists text,
    printed (nekroctl.stdout (snd run)) = Some text
    /\ nekroctl_gui.subprocess_run h tr cmd
       = (fst run, text, Py.join "" (nekroctl.stderr (snd run))).

(** The last of the system calls [evs]. *)
Definition last_call (evs : list nekroctl.sys_event)
  : option nekroctl.sys_event :=
  match rev evs with
  | e :: _ => Some e
  | [] => None
  end.

(** The command stopped at an attribute path that does not exist. *)
Definition stopped_missing (evs : list nekroctl.sys_event) : bool :=
  match last_call evs with
  | Some (nekroctl.SysExists _ false) => true
  | _ => false
  end.

(** The command stopped at an attribute that it may not read or write. *)
Definition stopped_denied (evs : list nekroctl.sys_event) : bool :=
  match last_call evs with
  | Some (nekroctl.SysRead _ nekroctl.Denied) => true
  | Some (nekroctl.SysWrite _ _ nekroctl.Denied) => true
  | _ => false
  end.

Definition only_lookups (evs : list nekroctl.sys_event) : Prop :=
  forall e, In e evs -> exists p b, e = nekroctl.SysExists p b.

(** What a command that ends with status 0 has printed, given the world
    [w] it started in, the world [w'] it ended in and the system calls
    [evs] it made: a report after a write that was granted, the text of
    the attribute it has just read, or the help of its parser when it was
    called without what it needs. *)
Definition success_output (w w' : nekroctl.world)
  (evs : list nekroctl.sys_event) (item : nekroctl.out_item) : Prop :=
  match item with
  | nekroctl.Line s =>
      (Py.startswith "OK: " s = true
       /\ exists p t n, last_call evs = Some (nekroctl.SysWrite p t nekroctl.Granted)
                        /\ nekroctl.fs w' p = Some n
                        /\ nekroctl.content n = t)
      \/ (exists p n, last_call evs = Some (nekroctl.SysRead p nekroctl.Granted)
                      /\ nekroctl.fs w p = Some n
                      /\ s = Py.strip (Py.universal_newlines (nekroctl.content n)))
  | nekroctl.Help _ => only_lookups evs
  end.

(** A capital letter A-Z. *)
Definition is_capital (c : ascii) : bool :=
  let n := Z.of_N (N_of_ascii c) in (65 <=? n) && (n <=? 90).

(** The errors other than a missing attribute and a refused access: a
    value that is not valid, an exit with a message, another I/O error. *)
Definition plain_error (e : nekroctl.exn) : Prop :=
  match e with
  | nekroctl.ValueError _ => True
  | nekroctl.OSError _ => True
  | nekroctl.SystemExit (nekroctl.ExitStr (String c _)) => is_capital c = true
  | _ => False
  end.

(** How a leaf ends, read off the world [w] it started in, its result and
    the world it ended in. *)
Definition classified (w : nekroctl.world)
  (rw : nekroctl.result unit * nekroctl.world) : Prop :=
  exists evs outs,
    nekroctl.syslog (snd rw) = (nekroctl.syslog w ++ evs)%list
    /\ nekroctl.stdout (snd rw) = (nekroctl.stdout w ++ outs)%list
    /\ match fst rw with
       | nekroctl.Ok _ =>
           stopped_missing evs = false /\ stopped_denied evs = false
           /\ exists item, outs = [item] /\ success_output w (snd rw) evs item
       | nekroctl.Raise e =>
           outs = []
           /\ ((e = nekroctl.SystemExit (nekroctl.ExitInt 2)
                /\ stopped_missing evs = true /\ stopped_denied evs = false)
               \/ (e = nekroctl.PermissionError
                   /\ stopped_missing evs = false /\ stopped_denied evs = true)
               \/ (plain_error e
                   /\ stopped_missing evs = false
                   /\ stopped_denied evs = false))
       end.

(** The file table [f] with the text of the attribute [p] replaced by
    [t]; the access rights stay. *)
Definition with_content (f : string -> option nekroctl.node) (p t : string)
  : string -> option nekroctl.node :=
  fun q =>
    if String.eqb q p then
      match f q with
      | Some n => Some {| nekroctl.content := t;
                          nekroctl.r_acc := nekroctl.r_acc n;
                          nekroctl.w_acc := nekroctl.w_acc n |}
      | None => None
      end
    else f q.

(** What a leaf does to the attribute files: nothing when it raises, and
    otherwise nothing or one write that was granted. *)
Definition file_effect (w : nekroctl.world)
  (rw : nekroctl.result unit * nekroctl.world) : Prop :=
  match fst rw with
  | nekroctl.Raise _ => nekroctl.fs (snd rw) = nekroctl.fs w
  | nekroctl.Ok _ =>
      nekroctl.fs (snd rw) = nekroctl.fs w
      \/ exists p t n,
           nekroctl.fs w p = Some n
           /\ nekroctl.w_acc n = nekroctl.Granted
           /\ nekroctl.fs (snd rw) = with_content (nekroctl.fs w) p t
  end.

(** What a leaf writes to standard error: one line when it exits with a
    status, the line of [_write_text] or nothing when it is refused an
    access, nothing otherwise. *)
Definition stderr_effect (w : nekroctl.world)
  (rw : nekroctl.result unit * nekroctl.world) : Prop :=
  match fst rw with
  | nekroctl.Raise (nekroctl.SystemExit (nekroctl.ExitInt _)) =>
      exists line,
        nekroctl.stderr (snd rw) = (nekroctl.stderr w ++ [line])%list
  | nekroctl.Raise nekroctl.PermissionError =>
      nekroctl.stderr (snd rw) = nekroctl.stderr w
      \/ exists path,
           nekroctl.stderr (snd rw)
           = (nekroctl.stderr w
              ++ [("Permission denied writing to " ++ path
                   ++ ". Try running with sudo/root."
                   ++ nekroctl.newline)%string])%list
  | _ => nekroctl.stderr (snd rw) = nekroctl.stderr w
  end.

(** The profiles that the text of [platform_profile_choices] advertises. *)
Definition advertised (choices : string) : list string :=
  filter Py.truthy (map Py.strip (Py.split " " choices)).

(** The leaves that only read: the [get] and [list] commands. *)
Definition is_query (c : nekroctl.command) : bool :=
  match c with
  | nekroctl.RgbPerZoneGet | nekroctl.RgbEffectGet | nekroctl.PowerGet
  | nekroctl.PowerList | nekroctl.LogoGet | nekroctl.FanGet
  | nekroctl.BatteryGet => true
  | _ => false
  end.

(** A character of a field of an attribute: no white space, no comma. *)
Definition field_char (c : ascii) : bool :=
  negb (Py.isspace c) && negb (Ascii.eqb c ",").

(** A field of an attribute: a text that is not empty, without white
    space and without a comma. *)
Definition field (t : string) : Prop :=
  t <> "" /\ Py.all_char field_char t = true.

(** The command line of the helper for the arguments [args]. *)
Definition helper_cmd (h : nekroctl_gui.host) (args : list string)
  : list string :=
  ([nekroctl_gui.executable h; nekroctl_gui.NEKROCTL_PATH h] ++ args)%list.

(** What a tier leaves in the trace: its runner is entered, and its
    process is spawned when the tool that it needs is installed. *)
Definition tier_events (h : nekroctl_gui.host) (args : list string)
  (t : nekroctl_gui.tier) : list nekroctl_gui.event :=
  match t with
  | nekroctl_gui.Unprivileged =>
      [nekroctl_gui.Call t; nekroctl_gui.Exec (helper_cmd h args)]
  | nekroctl_gui.Sudo =>
      nekroctl_gui.Call t
      :: (if nekroctl_gui.which h "sudo"
          then [nekroctl_gui.Exec ("sudo" :: "-n" :: helper_cmd h args)]
          else [])
  | nekroctl_gui.Pkexec =>
      nekroctl_gui.Call t
      :: (if nekroctl_gui.which h "pkexec"
          then [nekroctl_gui.Exec ("pkexec" :: helper_cmd h args)]
          else [])
  end.

(** *** Bursts of intents

    A burst is a stretch of the main loop that begins and ends with an
    intent; between them widgets change, the timer is polled and
    completions of earlier invocations arrive, the changes and the polls
    in the order of the clock; every intent but the first comes less than
    the settle period after the intent before it. *)

Section Bursts.

Variable view : Type.

(** [burst_ok prev now es]: the events [es] come at or after [now], in
    order, and every intent comes less than [DELAY_US] after the previous
    intent, [prev] being the last intent before [es]. *)
Fixpoint burst_ok (prev : option Z) (now : Z)
  (es : list (nekroctl_gui.ui_event view)) : bool :=
  match es with
  | [] => true
  | nekroctl_gui.Intent t _ :: es' =>
      (now <=? t)
      && match prev with
         | Some p => t - p <? nekroctl_gui.DELAY_US
         | None => true
         end
      && burst_ok (Some t) t es'
  | nekroctl_gui.Tick t :: es' => (now <=? t) && burst_ok prev t es'
  | nekroctl_gui.Finished _ _ _ :: es' => burst_ok prev now es'
  end.

(** The intent that ends the burst: its time and what the widgets show. *)
Fixpoint last_intent (es : list (nekroctl_gui.ui_event view))
  : option (Z * view) :=
  match es with
  | [] => None
  | e :: es' =>
      match es' with
      | [] => match e with
              | nekroctl_gui.Intent t v => Some (t, v)
              | _ => None
              end
      | _ => last_intent es'
      end
  end.

(** The number of intents in a burst. *)
Fixpoint intents (es : list (nekroctl_gui.ui_event view)) : nat :=
  match es with
  | [] => 0
  | nekroctl_gui.Intent _ _ :: es' => S (intents es')
  | _ :: es' => intents es'
  end.

(** After the last intent at [t_last] and before the settle period has
    passed: no widget changes, completions may arrive, and every poll of
    the timer comes less than [DELAY_US] after [t_last]. *)
Definition waits (t_last : Z) (es : list (nekroctl_gui.ui_event view))
  : bool :=
  forallb (fun e => match e with
                    | nekroctl_gui.Intent _ _ => false
                    | nekroctl_gui.Tick t => t - t_last <? nekroctl_gui.DELAY_US
                    | nekroctl_gui.Finished _ _ _ => true
                    end) es.

(** No widget changes among [es]. *)
Definition no_intent (es : list (nekroctl_gui.ui_event view)) : bool :=
  forallb (fun e => match e with
                    | nekroctl_gui.Intent _ _ => false
                    | _ => true
                    end) es.

(** No completion arrives among [es]. *)
Definition no_completion (es : list (nekroctl_gui.ui_event view)) : bool :=
  forallb (fun e => match e with
                    | nekroctl_gui.Finished _ _ _ => false
                    | _ => true
                    end) es.

(** What is sent for the widgets [v] when [baseline] was applied last:
    the arguments computed from [v], unless there are none or their
    signature is the baseline. *)
Definition expected_dispatch (compute_args : view -> option (list string))
  (baseline : option string) (v : view) : list (list string * string) :=
  match compute_args v with
  | Some (a :: args) =>
      let sig := Py.join " " (a :: args) in
      match baseline with
      | Some l => if String.eqb sig l then [] else [(a :: args, sig)]
      | None => [(a :: args, sig)]
      end
  | _ => []
  end.

(** The number of polling timers that are registered: one or none. *)
Definition timers (g : nekroctl_gui.gui view) : nat :=
  match nekroctl_gui.timer_id (nekroctl_gui.co g) with
  | Some _ => 1
  | None => 0
  end.

(** An invocation as the coalescer records it: arguments that are not
    empty, with the text that joins them. *)
Definition well_formed (inv : list string * string) : Prop :=
  fst inv <> [] /\ snd inv = Py.join " " (fst inv).

(** The state of the timer after the intent [prev], or before any. *)
Definition pending (prev : option Z) (g : nekroctl_gui.gui view) : Prop :=
  match prev with
  | None => nekroctl_gui.timer_id (nekroctl_gui.co g) = None
  | Some p =>
      nekroctl_gui.timer_id (nekroctl_gui.co g) <> None
      /\ nekroctl_gui.last_change (nekroctl_gui.co g) = p
  end.

End Bursts.

Arguments timers {view} g.
Arguments waits {view} t_last es.
Arguments no_intent {view} es.
Arguments no_completion {view} es.
Arguments burst_ok {view} prev now es.
Arguments last_intent {view} es.
Arguments intents {view} es.
Arguments expected_dispatch {view} compute_args baseline v.

(** *** Bursts on the fans page

    The same stretches of the main loop, over the events of the fans
    page; a refresh or a completion may come at any place. *)

Fixpoint fans_burst_ok (prev : option Z) (now : Z)
  (es : list nekroctl_gui.fans_event) : bool :=
  match es with
  | [] => true
  | nekroctl_gui.FansIntent t _ :: es' =>
      (now <=? t)
      && match prev with
         | Some p => t - p <? nekroctl_gui.FANS_DELAY_MS * 1000
         | None => true
         end
      && fans_burst_ok (Some t) t es'
  | nekroctl_gui.FansTimeout t :: es' => (now <=? t) && fans_burst_ok prev t es'
  | _ :: es' => fans_burst_ok prev now es'
  end.

Fixpoint fans_last_intent (es : list nekroctl_gui.fans_event)
  : option (Z * nekroctl_gui.fans_view) :=
  match es with
  | [] => None
  | e :: es' =>
      match es' with
      | [] => match e with
              | nekroctl_gui.FansIntent t v => Some (t, v)
              | _ => None
              end
      | _ => fans_last_intent es'
      end
  end.

(** After the last intent at [t_last] and before its timeout is due. *)
Definition fans_waits (t_last : Z) (es : list nekroctl_gui.fans_event)
  : bool :=
  forallb (fun e => match e with
                    | nekroctl_gui.FansIntent _ _ => false
                    | nekroctl_gui.FansTimeout t =>
                        t - t_last <? nekroctl_gui.FANS_DELAY_MS * 1000
                    | _ => true
                    end) es.

Definition fans_no_intent (es : list nekroctl_gui.fans_event) : bool :=
  forallb (fun e => match e with
                    | nekroctl_gui.FansIntent _ _ => false
                    | _ => true
                    end) es.

(** No [refresh] runs among [es]: neither the Refresh button nor a
    completion that reports success. *)
Definition fans_no_refresh (es : list nekroctl_gui.fans_event) : bool :=
  forallb (fun e => match e with
                    | nekroctl_gui.FansFinished _ ok _ _ => negb ok
                    | nekroctl_gui.FansRefresh _ _ => false
                    | _ => true
                    end) es.

(** The one timeout that the fans page has registered, with the time of
    its registration, or none. *)
Definition fans_armed (prev : option Z) (g : nekroctl_gui.fans_gui) : Prop :=
  nekroctl_gui.fans_refreshing g = false
  /\ match prev with
     | None => nekroctl_gui.fans_sources g = []
     | Some p =>
         exists id,
           nekroctl_gui.fans_sources g = [(id, p)]
           /\ nekroctl_gui.fans_debounce_id g = Some id
     end.

(** The fans page between two turns of the main loop: no refresh is
    running, and the only source it may have is the one that
    [fans_debounce_id] names. *)
Definition fans_settled (g : nekroctl_gui.fans_gui) : Prop :=
  exists prev, fans_armed prev g.

(** What the battery switch and the profile selector send. *)
Definition battery_args (b : bool) : list string :=
  ["battery"; if b then "on" else "off"].

Definition profile_args (cs : list string) (i : nat) : list string :=
  ["power"; "set"; nth i cs ""].

(** Row [i] of the selector holds a profile. *)
Definition offered (cs : list string) (i : nat) : Prop :=
  exists sel, nth_error cs i = Some sel /\ sel <> "".

End Spec.

(** ** Sample hosts and worlds, for the concrete runs *)

Module Sample.

Import nekroctl_gui.

(** A host on which the helper fails for a reason other than privilege:
    the attribute does not exist. *)
Definition host_missing : host :=
  {| which := fun _ => true;
     executable := "/usr/bin/python3";
     NEKROCTL_PATH := "/opt/nekro/tools/nekroctl.py";
     subprocess_run := fun _ _ =>
       (2, "", "Missing fan_speed at /sys/x. Ensure the module is loaded.") |}.

(** A host on which the helper needs root, and [sudo -n] answers
    [sudo_err] with status 1; [pkexec] then succeeds. *)
Definition host_sudo (sudo_err : string) : host :=
  {| which := fun _ => true;
     executable := "/usr/bin/python3";
     NEKROCTL_PATH := "/opt/nekro/tools/nekroctl.py";
     subprocess_run := fun _ cmd =>
       match cmd with
       | "sudo" :: _ => (1, "", sudo_err)
       | "pkexec" :: _ => (0, "OK: fan control set to auto", "")
       | _ => (3, "", "Permission denied writing to /sys/x. Try running with sudo/root.")
       end |}.

(** A host with neither [sudo] nor [pkexec], on which the helper needs
    root. *)
Definition host_bare : host :=
  {| which := fun _ => false;
     executable := "/usr/bin/python3";
     NEKROCTL_PATH := "/opt/nekro/tools/nekroctl.py";
     subprocess_run := fun _ _ =>
       (3, "",
        "Permission denied writing to /sys/x. Try running with sudo/root.") |}.

(** A machine on which every attribute exists with the given text and
    write permission [wr], the [predator_sense] variant. *)
Definition machine (text : string) (wr : nekroctl.access)
  : string -> option nekroctl.node :=
  fun p =>
    if nekroctl.in_set p
         [nekroctl.KB_PER_ZONE; nekroctl.KB_FOUR_MODE; nekroctl.LOGO_COLOR;
          nekroctl.SENSE_PRED;
          nekroctl.os_path_join nekroctl.SENSE_PRED "fan_speed";
          nekroctl.os_path_join nekroctl.SENSE_PRED "battery_limiter";
          nekroctl.PLATFORM_PROFILE]
    then Some {| nekroctl.content := text; nekroctl.r_acc := nekroctl.Granted;
                 nekroctl.w_acc := wr |}
    else None.

(** The per-zone widgets showing one colour for all zones. *)
Definition single_color (color : string) (brightness : Z)
  : nekroctl_gui.per_zone_view :=
  {| nekroctl_gui.kb_per_zone_exists := true;
     nekroctl_gui.single_row_active := true;
     nekroctl_gui.single_color_text := color;
     nekroctl_gui.z_entries_text := ["00aaff"; "00aaff"; "00aaff"; "00aaff"];
     nekroctl_gui.bright_row_value := brightness |}.

Definition world_of (f : string -> option nekroctl.node) : nekroctl.world :=
  {| nekroctl.fs := f; nekroctl.stdout := []; nekroctl.stderr := [];
     nekroctl.syslog := [] |}.

(** Run as root: every attribute can be written. *)
Definition world_root : nekroctl.world :=
  world_of (machine "0,0" nekroctl.Granted).

(** Run as a user: the attributes can be read and not written. *)
Definition world_user : nekroctl.world :=
  world_of (machine "0,0" nekroctl.Denied).

(** Run as a user who may neither read nor write the attributes. *)
Definition world_locked : nekroctl.world :=
  world_of (fun p =>
    match machine "0,0" nekroctl.Denied p with
    | Some nd => Some {| nekroctl.content := nekroctl.content nd;
                         nekroctl.r_acc := nekroctl.Denied;
                         nekroctl.w_acc := nekroctl.Denied |}
    | None => None
    end).

(** The same machine with the directory of the module itself, run as
    root. *)
Definition world_module : nekroctl.world :=
  world_of (fun p =>
    if String.eqb p nekroctl.SYSFS_BASE
    then Some {| nekroctl.content := ""; nekroctl.r_acc := nekroctl.Denied;
                 nekroctl.w_acc := nekroctl.Denied |}
    else machine "0,0" nekroctl.Granted p).

(** The module is not loaded: no attribute exists. *)
Definition world_bare : nekroctl.world := world_of (fun _ => None).

(** A host on which every process ends with status 0 and the output
    [out]. *)
Definition host_answering (out : string) : nekroctl_gui.host :=
  {| nekroctl_gui.which := fun _ => false;
     nekroctl_gui.executable := "/usr/bin/python3";
     nekroctl_gui.NEKROCTL_PATH := "/opt/nekro-sense/tools/nekroctl.py";
     nekroctl_gui.subprocess_run := fun _ _ => (0, out, "") |}.

(** A machine whose [platform_profile_choices] holds [choices]. *)
Definition world_profiles (choices : string) : nekroctl.world :=
  world_of (fun p =>
    if String.eqb p nekroctl.PLATFORM_PROFILE_CHOICES then
      Some {| nekroctl.content := choices; nekroctl.r_acc := nekroctl.Granted;
              nekroctl.w_acc := nekroctl.Denied |}
    else machine "balanced" nekroctl.Granted p).

(** The effect section with the mode of row [row] and the widgets as
    the page builds them. *)
Definition effect_mode (row : nat) : nekroctl_gui.effect_view :=
  {| nekroctl_gui.kb_four_mode_exists := true;
     nekroctl_gui.mode_row_selected := row;
     nekroctl_gui.speed_row_value := 1;
     nekroctl_gui.bright2_row_value := 100;
     nekroctl_gui.dir_row_value := 2;
     nekroctl_gui.color_row_text := "" |}.

(** The back-logo group switched on, with a colour and a brightness. *)
Definition logo_on (color : string) (brightness : Z)
  : nekroctl_gui.logo_view :=
  {| nekroctl_gui.logo_power_active := true;
     nekroctl_gui.logo_color_text := color;
     nekroctl_gui.logo_brightness_value := brightness |}.

(** The fans page with both fans set by hand to [percent]. *)
Definition both_fans (percent : Z) : nekroctl_gui.fans_view :=
  {| nekroctl_gui.cpu_auto_active := false;
     nekroctl_gui.cpu_row_value := percent;
     nekroctl_gui.gpu_auto_active := false;
     nekroctl_gui.gpu_row_value := percent |}.

End Sample.

(** * Properties *)

Example str_50 : Py.str 50 = "50".
Proof. reflexivity. Qed.

Example int_padded : Py.int "  +1_0 " = Some 10.
Proof. reflexivity. Qed.

Example lower_NEON : Py.lower "NEON" = "neon".
Proof. reflexivity. Qed.

(** [int] does not skip the separators U+001C to U+001F, which
    [str.strip] removes: such a mode is not the text of an integer. *)
Example int_unit_separator :
  Py.int (String "031" "9") = None
  /\ Py.strip (String "031" "9") = "9"
  /\ nekroctl.resolve_mode (nekroctl.VStr (String "031" "3"))
     = nekroctl.Raise
         (nekroctl.SystemExit
            (nekroctl.ExitStr
               ("Unknown mode '" ++ String "031" "3"
                ++ "'. Use one of: static, breathing, neon, wave, "
                ++ "shifting, zoom, meteor, twinkling or 0-7."))).
Proof. repeat split; reflexivity. Qed.

(** ** Text *)

Lemma append_nil_r (s : string) : s ++ "" = s.
Proof. induction s as [|c s IH]; simpl; [reflexivity | now rewrite IH]. Qed.

Lemma append_assoc (a b c : string) : (a ++ b) ++ c = a ++ (b ++ c).
Proof. induction a as [|x a IH]; simpl; [reflexivity | now rewrite IH]. Qed.

Lemma prefix_iff (p s : string) :
  String.prefix p s = true <-> exists post, s = p ++ post.
Proof.
  revert s. induction p as [|c p IH]; intros s.
  - destruct s; simpl; split; eauto.
  - destruct s as [|d s]; simpl.
    + split; [discriminate | intros [post H]; discriminate].
    + destruct (ascii_dec c d) as [->|Hne].
      * rewrite IH. split; intros [post H]; exists post.
        -- now subst.
        -- now inversion H.
      * split; [discriminate | intros [post H]; inversion H; congruence].
Qed.

Lemma contains_iff (n s : string) :
  Py.contains n s = true <-> Spec.has n s.
Proof.
  unfold Spec.has. induction s as [|c s IH].
  - cbn [Py.contains]. rewrite orb_false_r, prefix_iff. split.
    + intros [post H]. now exists "", post.
    + intros (pre & post & H). destruct pre; simpl in H; [eauto | discriminate].
  - cbn [Py.contains]. rewrite orb_true_iff, prefix_iff, IH. split.
    + intros [[post H] | (pre & post & H)].
      * now exists "", post.
      * exists (String c pre), post. simpl. now rewrite H.
    + intros (pre & post & H). destruct pre as [|d pre]; simpl in H.
      * left; eauto.
      * right. inversion H; subst. eauto.
Qed.

Lemma lower_append (a b : string) :
  Py.lower (a ++ b) = Py.lower a ++ Py.lower b.
Proof. induction a as [|c a IH]; simpl; [reflexivity | now rewrite IH]. Qed.

(** A splitting of the lower-case form of a text comes from a splitting of
    the text. *)
Lemma lower_split (s a b : string) :
  Py.lower s = a ++ b ->
  exists a0 b0, s = a0 ++ b0 /\ Py.lower a0 = a /\ Py.lower b0 = b.
Proof.
  revert s. induction a as [|c a IH]; intros s H.
  - exists "", s. auto.
  - destruct s as [|d s]; simpl in H; [discriminate |].
    inversion H as [[Hc Hs]]. destruct (IH _ Hs) as (a0 & b0 & -> & Ha & Hb).
    exists (String d a0), b0. simpl. now rewrite Ha.
Qed.

(** Searching the lower-case form of a text for a marker is searching the
    text with case ignored. *)
Lemma contains_lower_iff (n s : string) :
  Py.lower n = n ->
  Py.contains n (Py.lower s) = true <-> Spec.ci_contains n s.
Proof.
  intros Hn. rewrite contains_iff. unfold Spec.has, Spec.ci_contains. split.
  - intros (pre & post & H).
    destruct (lower_split _ _ _ H) as (a0 & r & -> & Ha & Hr).
    destruct (lower_split _ _ _ Hr) as (m0 & b0 & -> & Hm & Hb).
    exists a0, m0, b0. split; [reflexivity | congruence].
  - intros (pre & mid & post & -> & Hm).
    exists (Py.lower pre), (Py.lower post).
    now rewrite !lower_append, Hm, Hn.
Qed.

(** ** The privilege escalator *)

Section Escalator.

Import nekroctl_gui.

Lemma perm_denied_iff (code : Z) (err : string) :
  perm_denied code err = true <-> Spec.permission_related code err.
Proof.
  unfold perm_denied, Spec.permission_related, Spec.permission_markers.
  rewrite !orb_true_iff, Z.eqb_eq.
  rewrite !contains_lower_iff by reflexivity.
  split.
  - intros [[[[[H|H]|H]|H]|H]|H]; [now left | right; eexists; split;
      [| exact H]; simpl; tauto ..].
  - intros [H | (m & Hin & H)]; [tauto |].
    simpl in Hin.
    destruct Hin as [<-|[<-|[<-|[<-|[<-|[]]]]]]; tauto.
Qed.

Lemma _run_nekroctl_trace (args : list string) (h : host) (tr : list event) :
  snd (_run_nekroctl args h tr)
  = (tr ++ [Call Unprivileged;
            Exec ([executable h; NEKROCTL_PATH h] ++ args)])%list.
Proof.
  unfold _run_nekroctl, bind, enter, ask, spawn. cbn.
  destruct (subprocess_run h _ _) as [[c o] e]. cbn.
  now rewrite <- app_assoc.
Qed.

(** C1.  When the unprivileged run fails, the failure is classified as
    permission-related exactly when its status is 3 or its standard-error
    text contains, with case ignored, one of the five markers; and when it
    is not so classified, nothing but the unprivileged command is run and
    the outcome is a failure with the message of that run. *)
Theorem escalation_only_for_permission_failures
  (h : host) (args : list string) (tr tr1 : list event)
  (code : Z) (out err : string) :
  _run_nekroctl args h tr = ((code, out, err), tr1) ->
  code <> 0 ->
  (perm_denied code err = true <-> Spec.permission_related code err)
  /\ (~ Spec.permission_related code err ->
      run_privileged args h tr
      = ((false, Spec.message_of code out err),
         (tr ++ [Call Unprivileged;
                 Exec ([executable h; NEKROCTL_PATH h] ++ args)])%list))
  /\ (Spec.permission_related code err ->
      exists evs, snd (run_privileged args h tr)
                  = (tr1 ++ Call Sudo :: evs)%list).
Proof.
  intros Hrun Hcode.
  assert (Htr : tr1 = (tr ++ [Call Unprivileged;
                 Exec ([executable h; NEKROCTL_PATH h] ++ args)])%list).
  { rewrite <- _run_nekroctl_trace, Hrun. reflexivity. }
  split; [apply perm_denied_iff |].
  apply Z.eqb_neq in Hcode.
  split.
  - intros Hnot. rewrite <- perm_denied_iff in Hnot.
    apply not_true_is_false in Hnot.
    unfold run_privileged, bind at 1. rewrite Hrun, Hcode, Hnot. cbn.
    now rewrite Htr.
  - intros Hperm. rewrite <- perm_denied_iff in Hperm.
    unfold run_privileged, bind at 1. rewrite Hrun, Hcode, Hperm. cbn.
    unfold bind at 1.
    destruct (_run_with_sudo args h tr1) as [[[c2 o2] e2] tr2] eqn:Hsudo.
    assert (Htr2 : exists evs, tr2 = (tr1 ++ Call Sudo :: evs)%list).
    { revert Hsudo. unfold _run_with_sudo, bind, enter, _have_sudo, ask, spawn, ret.
      cbn. destruct (which h "sudo"); cbn.
      - destruct (subprocess_run h _ _) as [[c o] e]. intros [= _ _ _ <-].
        rewrite <- app_assoc. eexists; reflexivity.
      - intros [= _ _ _ <-]. eexists; reflexivity. }
    destruct Htr2 as [evs ->].
    destruct (c2 =? 0); [cbn; eauto |].
    destruct (sudo_requires_password c2 e2); [| cbn; eauto].
    unfold bind.
    destruct (_run_with_pkexec args h _) as [[[c3 o3] e3] tr3] eqn:Hpk.
    revert Hpk. unfold _run_with_pkexec, bind, enter, _have_pkexec, ask, spawn, ret.
    cbn. destruct (which h "pkexec"); cbn.
    + destruct (subprocess_run h _ _) as [[c o] e]. intros [= _ _ _ <-].
      destruct (c3 =? 0); cbn; rewrite <- !app_assoc; cbn; eauto.
    + intros [= _ _ _ <-].
      destruct (c3 =? 0); cbn; rewrite <- !app_assoc; cbn; eauto.
Qed.

Lemma escalation_only_for_permission_failures_witness :
  perm_denied 2 "Missing fan_speed at /sys/x. Ensure the module is loaded."
  = false
  /\ run_privileged ["fan"; "auto"] Sample.host_missing []
     = ((false, "Missing fan_speed at /sys/x. Ensure the module is loaded."),
        [Call Unprivileged;
         Exec ["/usr/bin/python3"; "/opt/nekro/tools/nekroctl.py";
               "fan"; "auto"]]).
Proof.
  destruct (escalation_only_for_permission_failures
              Sample.host_missing ["fan"; "auto"] []
              [Call Unprivileged;
               Exec ["/usr/bin/python3"; "/opt/nekro/tools/nekroctl.py";
                     "fan"; "auto"]]
              2 "" "Missing fan_speed at /sys/x. Ensure the module is loaded."
              eq_refl ltac:(lia)) as (Hiff & Hno & _).
  split; [reflexivity |].
  apply Hno. intros H. apply Hiff in H. discriminate H.
Defined.

Lemma _run_with_sudo_trace (args : list string) (h : host) (tr : list event) :
  exists evs,
    snd (_run_with_sudo args h tr) = (tr ++ Call Sudo :: evs)%list
    /\ ~ In (Call Pkexec) evs.
Proof.
  unfold _run_with_sudo, bind, enter, _have_sudo, ask, spawn, ret. cbn.
  destruct (which h "sudo"); cbn.
  - destruct (subprocess_run h _ _) as [[c o] e]. cbn.
    rewrite <- app_assoc. eexists; split; [reflexivity |].
    simpl. intros [H|[]]; discriminate H.
  - exists []. split; [reflexivity | intros []].
Qed.

Lemma _run_with_pkexec_trace (args : list string) (h : host) (tr : list event) :
  exists evs,
    snd (_run_with_pkexec args h tr) = (tr ++ Call Pkexec :: evs)%list.
Proof.
  unfold _run_with_pkexec, bind, enter, _have_pkexec, ask, spawn, ret. cbn.
  destruct (which h "pkexec"); cbn.
  - destruct (subprocess_run h _ _) as [[c o] e]. cbn.
    rewrite <- app_assoc. eexists; reflexivity.
  - exists []. reflexivity.
Qed.

Lemma sudo_requires_password_iff (code2 : Z) (err2 : string) :
  sudo_requires_password code2 err2 = true
  <-> Spec.requires_interactive_auth Spec.ci_contains code2 err2.
Proof.
  unfold sudo_requires_password, Spec.requires_interactive_auth.
  rewrite !orb_true_iff, andb_true_iff, orb_true_iff, Z.eqb_eq.
  rewrite !contains_lower_iff by reflexivity.
  tauto.
Qed.

(** C2, as the code has it.  After a permission-related failure of the
    unprivileged run, [sudo -n] is tried first; [pkexec] is then entered
    exactly when that attempt failed and its status is 127 or its
    standard-error text contains, with case ignored, one of the markers of
    a missing password or terminal; when the attempt failed otherwise, the
    outcome is a failure with the message of the [sudo] attempt when that
    attempt wrote anything, and else with what the unprivileged run wrote,
    or "Failed with code N" for the status of the attempt when that run
    wrote nothing either. *)
Theorem interactive_prompt_only_when_sudo_cannot_ask
  (h : host) (args : list string) (tr tr1 tr2 : list event)
  (code code2 : Z) (out err out2 err2 : string) :
  _run_nekroctl args h tr = ((code, out, err), tr1) ->
  code <> 0 ->
  Spec.permission_related code err ->
  _run_with_sudo args h tr1 = ((code2, out2, err2), tr2) ->
  (sudo_requires_password code2 err2 = true
   <-> Spec.requires_interactive_auth Spec.ci_contains code2 err2)
  /\ exists sudo_evs evs,
       tr2 = (tr1 ++ Call Sudo :: sudo_evs)%list
       /\ ~ In (Call Pkexec) sudo_evs
       /\ snd (run_privileged args h tr) = (tr2 ++ evs)%list
       /\ (In (Call Pkexec) evs
           <-> code2 <> 0
               /\ Spec.requires_interactive_auth Spec.ci_contains code2 err2)
       /\ (code2 <> 0 ->
           ~ Spec.requires_interactive_auth Spec.ci_contains code2 err2 ->
           run_privileged args h tr
           = ((false,
               if Spec.wrote out2 err2 then Spec.message_of code2 out2 err2
               else Spec.message_of code2 out err), tr2)).
Proof.
  intros Hrun Hcode Hperm Hsudo.
  split; [apply sudo_requires_password_iff |].
  destruct (_run_with_sudo_trace args h tr1) as (sudo_evs & Htr2 & Hnopk).
  rewrite Hsudo in Htr2. cbn in Htr2.
  apply Z.eqb_neq in Hcode. rewrite <- perm_denied_iff in Hperm.
  assert (Hfinal : run_privileged args h tr
    = if code2 =? 0 then ((true, Py.or_else out2 "OK"), tr2)
      else if sudo_requires_password code2 err2 then
        let '(c3, o3, e3, tr3) := _run_with_pkexec args h tr2 in
        if c3 =? 0 then ((true, Py.or_else o3 "OK"), tr3)
        else ((false,
               Py.or_else e3 (Py.or_else o3 (Py.or_else err2
                 (Py.or_else out2 (Py.or_else err (Py.or_else out
                   (failed_with c3))))))), tr3)
      else ((false,
             if Spec.wrote out2 err2 then Spec.message_of code2 out2 err2
             else Spec.message_of code2 out err), tr2)).
  { unfold run_privileged, bind at 1. rewrite Hrun. cbv beta iota zeta.
    rewrite Hcode, Hperm. cbv beta iota zeta delta [negb].
    unfold bind at 1. rewrite Hsudo. cbv beta iota zeta.
    destruct (code2 =? 0); [reflexivity |].
    destruct (sudo_requires_password code2 err2);
      [| unfold Spec.wrote, Spec.message_of, Py.or_else;
         destruct (Py.truthy err2), (Py.truthy out2); reflexivity].
    unfold bind at 1.
    destruct (_run_with_pkexec args h tr2) as [[[c3 o3] e3] tr3].
    cbv beta iota zeta.
    destruct (c3 =? 0); reflexivity. }
  exists sudo_evs.
  destruct (code2 =? 0) eqn:Hc2.
  - apply Z.eqb_eq in Hc2. exists []. rewrite Hfinal, app_nil_r.
    split; [exact Htr2 |]. split; [exact Hnopk |]. split; [reflexivity |].
    split; [| intros Hne; contradiction].
    split; [intros [] | intros [Hne _]; contradiction].
  - apply Z.eqb_neq in Hc2.
    destruct (sudo_requires_password code2 err2) eqn:Hpw.
    + destruct (_run_with_pkexec_trace args h tr2) as (pk_evs & Htr3).
      exists (Call Pkexec :: pk_evs).
      destruct (_run_with_pkexec args h tr2) as [[[c3 o3] e3] tr3].
      cbn in Htr3. rewrite Hfinal.
      apply sudo_requires_password_iff in Hpw.
      split; [exact Htr2 |]. split; [exact Hnopk |].
      split; [destruct (c3 =? 0); exact Htr3 |].
      split; [| intros _ Hno; contradiction].
      split; [intros _; split; assumption | intros _; left; reflexivity].
    + exists []. rewrite Hfinal, app_nil_r.
      assert (Hno : ~ Spec.requires_interactive_auth Spec.ci_contains code2 err2).
      { rewrite <- sudo_requires_password_iff, Hpw. discriminate. }
      split; [exact Htr2 |]. split; [exact Hnopk |]. split; [reflexivity |].
      split; [| intros _ _; reflexivity].
      split; [intros [] | intros [_ Hyes]; contradiction].
Qed.

Lemma interactive_prompt_only_when_sudo_cannot_ask_witness :
  let h := Sample.host_sudo "sudo: a password is required" in
  let tr1 := [Call Unprivileged;
              Exec ["/usr/bin/python3"; "/opt/nekro/tools/nekroctl.py";
                    "fan"; "auto"]] in
  exists sudo_evs evs,
    snd (_run_with_sudo ["fan"; "auto"] h tr1)
    = (tr1 ++ Call Sudo :: sudo_evs)%list
    /\ snd (run_privileged ["fan"; "auto"] h [])
       = (snd (_run_with_sudo ["fan"; "auto"] h tr1) ++ evs)%list
    /\ In (Call Pkexec) evs.
Proof.
  intros h tr1.
  destruct (interactive_prompt_only_when_sudo_cannot_ask
              h ["fan"; "auto"] [] tr1
              (snd (_run_with_sudo ["fan"; "auto"] h tr1))
              3 1 ""
              "Permission denied writing to /sys/x. Try running with sudo/root."
              "" "sudo: a password is required"
              eq_refl ltac:(lia) (or_introl eq_refl) eq_refl)
    as (Hiff & sudo_evs & evs & H2 & _ & Hfin & Hpk & _).
  exists sudo_evs, evs. split; [exact H2 |]. split; [exact Hfin |].
  apply Hpk. split; [lia |]. apply Hiff. reflexivity.
Defined.

(** C2 as it is stated fails, two ways.  With markers looked up as they
    are written: [sudo -n] answers with a capital letter in its message,
    the text does not contain any of the markers, and [pkexec] is entered
    all the same.  With the message of the attempt: [sudo -n] fails with
    status 1 and writes nothing, [pkexec] is not entered, and the outcome
    carries what the unprivileged run wrote, not a message of the
    attempt. *)
Lemma interactive_prompt_case_counterexample :
  let tr1 := [Call Unprivileged;
              Exec ["/usr/bin/python3"; "/opt/nekro/tools/nekroctl.py";
                    "fan"; "auto"]] in
  (let h := Sample.host_sudo "sudo: A Password Is Required" in
   _run_nekroctl ["fan"; "auto"] h []
   = ((3, "",
       "Permission denied writing to /sys/x. Try running with sudo/root."),
      tr1)
   /\ fst (_run_with_sudo ["fan"; "auto"] h tr1)
      = (1, "", "sudo: A Password Is Required")
   /\ ~ Spec.requires_interactive_auth Spec.has 1
          "sudo: A Password Is Required"
   /\ In (Call Pkexec) (snd (run_privileged ["fan"; "auto"] h [])))
  /\ (let h := Sample.host_sudo "" in
      _run_nekroctl ["fan"; "auto"] h []
      = ((3, "",
          "Permission denied writing to /sys/x. Try running with sudo/root."),
         tr1)
      /\ fst (_run_with_sudo ["fan"; "auto"] h tr1) = (1, "", "")
      /\ ~ Spec.requires_interactive_auth Spec.ci_contains 1 ""
      /\ ~ In (Call Pkexec) (snd (run_privileged ["fan"; "auto"] h []))
      /\ fst (run_privileged ["fan"; "auto"] h [])
         = (false,
            "Permission denied writing to /sys/x. Try running with sudo/root.")
      /\ Spec.message_of 1 "" "" = "Failed with code 1"
      /\ snd (fst (run_privileged ["fan"; "auto"] h []))
         <> Spec.message_of 1 "" "").
Proof.
  cbv zeta. split.
  - split; [reflexivity |]. split; [reflexivity |]. split.
    + unfold Spec.requires_interactive_auth.
      intros [H|[H|[[H _]|[H|[H|H]]]]];
        [discriminate H | apply contains_iff in H; vm_compute in H;
                          discriminate H ..].
    + vm_compute. tauto.
  - split; [reflexivity |]. split; [reflexivity |]. split.
    { rewrite <- sudo_requires_password_iff. vm_compute. discriminate. }
    split.
    { vm_compute. intros H.
      repeat (destruct H as [H|H]; [discriminate H |]). exact H. }
    split; [reflexivity |]. split; [reflexivity |].
    vm_compute. discriminate.
Qed.

End Escalator.

(** ** The escalator as a whole *)

Section EscalatorTrace.

Import nekroctl_gui.

Ltac run_tiers :=
  unfold run_privileged, _run_nekroctl, _run_with_sudo, _run_with_pkexec,
    _have_sudo, _have_pkexec, bind, enter, ask, spawn, ret;
  cbv beta iota zeta;
  try match goal with
      | |- context [which ?h "sudo"] =>
          destruct (which h "sudo") eqn:?; destruct (which h "pkexec") eqn:?
      end;
  cbv beta iota zeta; cbn [negb fst snd];
  repeat (match goal with
          | H : which ?h ?n = _ |- context [which ?h ?n] => rewrite H
          | |- context [which ?h ?n] => destruct (which h n) eqn:?
          | |- context [127 =? 0] => change (127 =? 0) with false
          | |- context [sudo_requires_password 127 ?e] =>
              change (sudo_requires_password 127 e) with true
          | |- context [subprocess_run ?h ?t ?c] =>
              destruct (subprocess_run h t c) as [[? ?] ?] eqn:?
          | |- context [if ?b then _ else _] =>
              lazymatch b with
              | context [if _ then _ else _] => fail
              | _ => destruct b eqn:?
              end
          end; cbv beta iota zeta; cbn [negb fst snd]).

(** X7.  Whatever the processes answer, [run_privileged] enters the
    tiers in one order, unprivileged, then [sudo -n], then [pkexec], each
    at most once and none after a later one; all it ever spawns is the
    helper with the arguments it was given, bare, behind [sudo -n] or
    behind [pkexec]; and where [sudo] is not installed, it never stops at
    the [sudo] tier. *)
Theorem run_privileged_tiers_in_order
  (h : host) (args : list string) (tr : list event) :
  let u := Spec.tier_events h args Unprivileged in
  let s := Spec.tier_events h args Sudo in
  let p := Spec.tier_events h args Pkexec in
  let tr' := snd (run_privileged args h tr) in
  (tr' = tr ++ u \/ tr' = tr ++ u ++ s \/ tr' = tr ++ u ++ s ++ p)%list
  /\ (which h "sudo" = false ->
      tr' = tr ++ u \/ tr' = tr ++ u ++ s ++ p)%list.
Proof.
  cbv zeta. unfold Spec.tier_events, Spec.helper_cmd.
  run_tiers; rewrite <- ?app_assoc; cbn [app];
    (split; [| intros Hno; try discriminate Hno]);
    first [ left; reflexivity | right; reflexivity
          | right; left; reflexivity | right; right; reflexivity ].
Qed.

Lemma run_privileged_tiers_in_order_witness :
  snd (run_privileged ["fan"; "auto"] Sample.host_bare [])
  = [Call Unprivileged;
     Exec ["/usr/bin/python3"; "/opt/nekro/tools/nekroctl.py";
           "fan"; "auto"]]
  \/ snd (run_privileged ["fan"; "auto"] Sample.host_bare [])
     = [Call Unprivileged;
        Exec ["/usr/bin/python3"; "/opt/nekro/tools/nekroctl.py";
              "fan"; "auto"];
        Call Sudo; Call Pkexec].
Proof.
  exact (proj2 (run_privileged_tiers_in_order
                  Sample.host_bare ["fan"; "auto"] []) eq_refl).
Defined.

Lemma or_else_nonempty (a b : string) :
  b <> "" -> Py.or_else a b <> "".
Proof.
  intros Hb. unfold Py.or_else. destruct a; [exact Hb | discriminate].
Qed.

Lemma failed_with_nonempty (code : Z) : failed_with code <> "".
Proof. unfold failed_with. cbn. discriminate. Qed.

(** X8.  The message that [run_privileged] returns is never empty,
    whatever the processes print and whichever tools are installed. *)
Theorem run_privileged_message_never_empty
  (h : host) (args : list string) (tr : list event) :
  snd (fst (run_privileged args h tr)) <> "".
Proof.
  run_tiers;
    repeat first [ apply failed_with_nonempty
                 | apply or_else_nonempty
                 | discriminate ].
Qed.

(** X9.  On a host with neither [sudo] nor [pkexec], a permission failure
    of the unprivileged run ends in a failure whose message is that
    [pkexec] is not installed: the message of the helper itself is not
    shown, and no other process is spawned. *)
Theorem run_privileged_without_tools
  (h : host) (args : list string) (tr tr1 : list event)
  (code : Z) (out err : string) :
  which h "sudo" = false ->
  which h "pkexec" = false ->
  _run_nekroctl args h tr = ((code, out, err), tr1) ->
  code <> 0 ->
  perm_denied code err = true ->
  run_privileged args h tr
  = ((false, "pkexec not found; install policykit-1"),
     (tr ++ [Call Unprivileged; Exec (Spec.helper_cmd h args);
             Call Sudo; Call Pkexec])%list).
Proof.
  intros Hs Hp Hrun Hcode Hperm.
  assert (Htr : tr1 = (tr ++ [Call Unprivileged;
                 Exec ([executable h; NEKROCTL_PATH h] ++ args)])%list).
  { rewrite <- _run_nekroctl_trace, Hrun. reflexivity. }
  apply Z.eqb_neq in Hcode.
  unfold run_privileged, bind at 1. rewrite Hrun. cbv beta iota zeta.
  rewrite Hcode, Hperm. cbv beta iota zeta delta [negb].
  unfold _run_with_sudo, _run_with_pkexec, _have_sudo, _have_pkexec,
    bind, enter, ask, ret.
  cbv beta iota zeta. rewrite Hs. cbv beta iota zeta delta [negb].
  change (127 =? 0) with false.
  change (sudo_requires_password 127 "sudo not found") with true.
  cbv beta iota zeta. rewrite Hp. cbv beta iota zeta delta [negb].
  change (127 =? 0) with false.
  cbv beta iota zeta. subst tr1. unfold Spec.helper_cmd.
  rewrite <- !app_assoc. reflexivity.
Qed.

Lemma run_privileged_without_tools_witness :
  run_privileged ["fan"; "auto"] Sample.host_bare []
  = ((false, "pkexec not found; install policykit-1"),
     [Call Unprivileged;
      Exec ["/usr/bin/python3"; "/opt/nekro/tools/nekroctl.py";
            "fan"; "auto"];
      Call Sudo; Call Pkexec]).
Proof.
  exact (run_privileged_without_tools Sample.host_bare ["fan"; "auto"] []
           [Call Unprivileged;
            Exec ["/usr/bin/python3"; "/opt/nekro/tools/nekroctl.py";
                  "fan"; "auto"]]
           3 ""
           "Permission denied writing to /sys/x. Try running with sudo/root."
           eq_refl eq_refl eq_refl ltac:(discriminate) eq_refl).
Defined.

End EscalatorTrace.

(** ** Integers and their decimal text *)

Section Decimal.

Lemma digits_go_acc (fuel : nat) (n : Z) (acc : string) :
  Py.digits_go fuel n acc = Py.digits_go fuel n "" ++ acc.
Proof.
  revert n acc. induction fuel as [|fuel IH]; intros n acc; simpl.
  - reflexivity.
  - destruct (n <? 10); [reflexivity |].
    rewrite IH, (IH _ (String _ "")), append_assoc. reflexivity.
Qed.

Lemma digit_char_val (d : Z) :
  0 <= d < 10 -> Py.digit_val (Py.digit_char d) = Some d.
Proof.
  intros H.
  assert (Hd : d = 0 \/ d = 1 \/ d = 2 \/ d = 3 \/ d = 4 \/ d = 5 \/ d = 6
               \/ d = 7 \/ d = 8 \/ d = 9) by lia.
  repeat (destruct Hd as [-> | Hd]; [reflexivity |]). subst. reflexivity.
Qed.

Lemma isdigit_facts (c : ascii) :
  Py.isdigit c = true ->
  Py.isspace c = false /\ Py.lower_char c = c
  /\ Ascii.eqb c "_" = false
  /\ (forall s, Py.int_signed (String c s) = Py.int_unsigned (String c s)).
Proof.
  destruct c as [[] [] [] [] [] [] [] []]; intros H;
    try (vm_compute in H; discriminate H); repeat split.
Qed.

Lemma int_digits_snoc (a : Z) (us : bool) (s : string) (c : ascii) (v d : Z) :
  Py.int_digits a us s = Some v ->
  Py.digit_val c = Some d ->
  Py.int_digits a us (s ++ String c "") = Some (10 * v + d).
Proof.
  intros Hs Hc. revert a us Hs.
  induction s as [|x s IH]; intros a us Hs; simpl in *.
  - rewrite Hc. destruct us; [discriminate | now inversion Hs].
  - destruct (Py.digit_val x); [now apply IH |].
    destruct (Ascii.eqb x "_"); [| discriminate].
    destruct us; [discriminate | now apply IH].
Qed.

Lemma int_digits_digits_go (fuel : nat) (n : Z) :
  0 <= n < 2 ^ Z.of_nat fuel ->
  Py.int_digits 0 false (Py.digits_go fuel n "") = Some n.
Proof.
  revert n. induction fuel as [|fuel IH]; intros n Hn.
  - simpl in *. f_equal. lia.
  - cbn [Py.digits_go]. destruct (n <? 10) eqn:Hlt.
    + apply Z.ltb_lt in Hlt. rewrite Z.mod_small by lia.
      cbn [Py.int_digits]. rewrite digit_char_val by lia.
      cbn [Py.int_digits]. f_equal; lia.
    + apply Z.ltb_ge in Hlt. rewrite digits_go_acc.
      erewrite int_digits_snoc.
      * f_equal. symmetry. apply (Z.div_mod n 10). lia.
      * apply IH. rewrite Nat2Z.inj_succ, Z.pow_succ_r in Hn by lia.
        split; [apply Z.div_pos; lia |].
        apply Z.div_lt_upper_bound; lia.
      * apply digit_char_val. apply Z.mod_pos_bound. lia.
Qed.

Lemma digits_go_all (fuel : nat) (n : Z) (acc : string) :
  Py.all_char Py.isdigit acc = true ->
  Py.all_char Py.isdigit (Py.digits_go fuel n acc) = true.
Proof.
  revert n acc. induction fuel as [|fuel IH]; intros n acc Hacc; simpl.
  - exact Hacc.
  - assert (Hd : Py.all_char Py.isdigit
                   (String (Py.digit_char (n mod 10)) acc) = true).
    { simpl. rewrite Hacc, andb_true_r. unfold Py.isdigit.
      rewrite digit_char_val; [reflexivity |]. apply Z.mod_pos_bound. lia. }
    destruct (n <? 10); [exact Hd | now apply IH].
Qed.

Lemma str_nonneg_digits (n : Z) :
  exists c s, Py.str_nonneg n = String c s
              /\ Py.all_char Py.isdigit (String c s) = true.
Proof.
  pose proof (digits_go_all (S (Z.to_nat (Z.log2 n))) n "" eq_refl) as H.
  unfold Py.str_nonneg.
  destruct (Py.digits_go _ n "") as [|c s] eqn:E.
  - exfalso. cbn [Py.digits_go] in E.
    destruct (n <? 10); [discriminate |].
    rewrite digits_go_acc in E. destruct (Py.digits_go _ _ ""); discriminate.
  - eauto.
Qed.

Lemma log2_fuel (n : Z) :
  0 <= n -> 0 <= n < 2 ^ Z.of_nat (S (Z.to_nat (Z.log2 n))).
Proof.
  intros Hn. split; [exact Hn |].
  rewrite Nat2Z.inj_succ, Z2Nat.id by apply Z.log2_nonneg.
  destruct (Z.eq_dec n 0) as [->|Hne]; [reflexivity |].
  apply Z.log2_spec. lia.
Qed.

Lemma int_unsigned_str_nonneg (n : Z) :
  0 <= n -> Py.int_unsigned (Py.str_nonneg n) = Some n.
Proof.
  intros Hn.
  pose proof (int_digits_digits_go _ n (log2_fuel n Hn)) as Hv.
  destruct (str_nonneg_digits n) as (c & s & E & Hall).
  unfold Py.str_nonneg in E. rewrite E in Hv. unfold Py.str_nonneg. rewrite E.
  simpl in Hall. apply andb_true_iff in Hall as [Hc _].
  unfold Py.isdigit in Hc. cbn [Py.int_digits] in Hv. cbn [Py.int_unsigned].
  destruct (Py.digit_val c) as [d|]; [| discriminate].
  replace (10 * 0 + d) with d in Hv by lia. exact Hv.
Qed.

Lemma lstrip_nonspace (c : ascii) (s : string) :
  Py.isspace c = false -> Py.lstrip (String c s) = String c s.
Proof. intros H. simpl. now rewrite H. Qed.

Lemma rstrip_nonspace (s : string) :
  Py.all_char (fun c => negb (Py.isspace c)) s = true -> Py.rstrip s = s.
Proof.
  induction s as [|c s IH]; simpl; [reflexivity |].
  intros H. apply andb_true_iff in H as [Hc Hs]. rewrite (IH Hs).
  apply negb_true_iff in Hc. rewrite Hc. destruct s; reflexivity.
Qed.

Lemma strip_nonspace (s : string) :
  Py.all_char (fun c => negb (Py.isspace c)) s = true -> Py.strip s = s.
Proof.
  intros H. unfold Py.strip. destruct s as [|c s]; [reflexivity |].
  pose proof H as H'. simpl in H'. apply andb_true_iff in H' as [Hc _].
  apply negb_true_iff in Hc. rewrite lstrip_nonspace by exact Hc.
  now apply rstrip_nonspace.
Qed.

Lemma all_char_impl (f g : ascii -> bool) (s : string) :
  (forall c, f c = true -> g c = true) ->
  Py.all_char f s = true -> Py.all_char g s = true.
Proof.
  intros Hfg. induction s as [|c s IH]; simpl; [reflexivity |].
  intros H. apply andb_true_iff in H as [Hc Hs].
  now rewrite (Hfg _ Hc), IH.
Qed.

Lemma lower_fixed (s : string) :
  Py.all_char (fun c => Ascii.eqb (Py.lower_char c) c) s = true ->
  Py.lower s = s.
Proof.
  induction s as [|c s IH]; simpl; [reflexivity |].
  intros H. apply andb_true_iff in H as [Hc Hs].
  apply Ascii.eqb_eq in Hc. now rewrite Hc, IH.
Qed.

(** The characters of [str(z)] are a sign or digits: no white space, no
    capital letter. *)
Lemma str_plain (z : Z) :
  Py.all_char (fun c => negb (Py.isspace c)) (Py.str z) = true
  /\ Py.all_char (fun c => Ascii.eqb (Py.lower_char c) c) (Py.str z) = true.
Proof.
  assert (Hn : forall n,
    Py.all_char (fun c => negb (Py.isspace c)) (Py.str_nonneg n) = true
    /\ Py.all_char (fun c => Ascii.eqb (Py.lower_char c) c) (Py.str_nonneg n)
       = true).
  { intros n. destruct (str_nonneg_digits n) as (c & s & -> & Hall).
    split; (eapply all_char_impl; [| exact Hall]); intros x Hx;
      destruct (isdigit_facts x Hx) as (Hsp & Hlo & _).
    - now rewrite Hsp.
    - rewrite Hlo. apply Ascii.eqb_refl. }
  unfold Py.str. destruct (z <? 0); [| apply Hn].
  destruct (Hn (- z)) as [H1 H2]. simpl. now rewrite H1, H2.
Qed.

Lemma strip_str (z : Z) : Py.strip (Py.str z) = Py.str z.
Proof. apply strip_nonspace, str_plain. Qed.

Lemma lower_str (z : Z) : Py.lower (Py.str z) = Py.str z.
Proof. apply lower_fixed, str_plain. Qed.

Lemma int_space_isspace (c : ascii) :
  Py.isspace c = false -> Py.int_space c = false.
Proof.
  destruct c as [[] [] [] [] [] [] [] []]; intros H;
    try (vm_compute in H; discriminate H); reflexivity.
Qed.

Lemma int_rstrip_nonspace (s : string) :
  Py.all_char (fun c => negb (Py.isspace c)) s = true -> Py.int_rstrip s = s.
Proof.
  induction s as [|c s IH]; simpl; [reflexivity |].
  intros H. apply andb_true_iff in H as [Hc Hs]. rewrite (IH Hs).
  apply negb_true_iff in Hc. rewrite (int_space_isspace c Hc).
  destruct s; reflexivity.
Qed.

(** A text without white space is read by [int] as it is. *)
Lemma int_strip_nonspace (s : string) :
  Py.all_char (fun c => negb (Py.isspace c)) s = true ->
  Py.int_rstrip (Py.int_lstrip s) = s.
Proof.
  intros H. destruct s as [|c s]; [reflexivity |].
  pose proof H as H'. simpl in H'. apply andb_true_iff in H' as [Hc _].
  apply negb_true_iff in Hc. cbn [Py.int_lstrip].
  rewrite (int_space_isspace c Hc). now apply int_rstrip_nonspace.
Qed.

(** Reading back the decimal text of an integer gives the integer. *)
Lemma int_str (z : Z) : Py.int (Py.str z) = Some z.
Proof.
  unfold Py.int. rewrite int_strip_nonspace by apply str_plain. unfold Py.str.
  destruct (z <? 0) eqn:Hz.
  - apply Z.ltb_lt in Hz. cbn [Py.int_signed].
    rewrite int_unsigned_str_nonneg by lia. simpl. f_equal. lia.
  - apply Z.ltb_ge in Hz.
    destruct (str_nonneg_digits z) as (c & s & E & Hall).
    pose proof (int_unsigned_str_nonneg z Hz) as Hv. rewrite E in *.
    simpl in Hall. apply andb_true_iff in Hall as [Hc _].
    destruct (isdigit_facts c Hc) as (_ & _ & _ & Hs). now rewrite Hs.
Qed.

End Decimal.

(** ** Validation of colours and percentages *)

Section Validation.

Import nekroctl.

Lemma hex_char_facts (c : ascii) :
  not_hex c = negb (Spec.is_hex_digit c)
  /\ (Spec.is_hex_digit c = true ->
      Spec.is_lower_hex_digit (Py.lower_char c) = true).
Proof.
  destruct c as [[] [] [] [] [] [] [] []]; vm_compute; split;
    solve [reflexivity | intros H; first [reflexivity | discriminate H]].
Qed.

Lemma any_not_hex (s : string) :
  Py.any_char not_hex s = negb (Py.all_char Spec.is_hex_digit s).
Proof.
  induction s as [|c s IH]; simpl; [reflexivity |].
  rewrite IH, (proj1 (hex_char_facts c)), negb_andb. reflexivity.
Qed.

Lemma lower_length (s : string) :
  String.length (Py.lower s) = String.length s.
Proof. induction s as [|c s IH]; simpl; [reflexivity | now rewrite IH]. Qed.

Lemma lower_hex (s : string) :
  Py.all_char Spec.is_hex_digit s = true ->
  Py.all_char Spec.is_lower_hex_digit (Py.lower s) = true.
Proof.
  induction s as [|c s IH]; simpl; [reflexivity |].
  intros H. apply andb_true_iff in H as [Hc Hs].
  now rewrite (proj2 (hex_char_facts c) Hc), IH.
Qed.

Lemma strip_hash_code (s : string) :
  (if Py.startswith "#" s then Py.tail s else s) = Spec.strip_hash s.
Proof.
  destruct s as [|c s]; [reflexivity |].
  unfold Py.startswith. cbn [String.prefix Py.tail Spec.strip_hash].
  destruct (ascii_dec "#" c) as [<-|Hne].
  - destruct s; reflexivity.
  - destruct c as [[] [] [] [] [] [] [] []]; try reflexivity.
    now contradiction Hne.
Qed.

Lemma is_hex6_dec (s : string) :
  Spec.is_hex6 s
  <-> negb (Nat.eqb (String.length s) 6) || Py.any_char not_hex s = false.
Proof.
  unfold Spec.is_hex6. rewrite any_not_hex, orb_false_iff, !negb_false_iff.
  now rewrite Nat.eqb_eq.
Qed.

(** C7, as the code has it.  Colour parsing trims surrounding white space,
    strips one optional leading [#], rejects the text when what remains is
    not exactly six hexadecimal digits, and otherwise returns these six
    digits in lower case. *)
Theorem parse_hex_color_normalises (s : string) :
  let r := Spec.strip_hash (Py.strip s) in
  (Spec.is_hex6 r ->
   _parse_hex_color s = Ok (Py.lower r) /\ Spec.is_color (Py.lower r))
  /\ (~ Spec.is_hex6 r ->
      exists msg, _parse_hex_color s = Raise (ValueError msg))
  /\ (exists msg, _parse_hex_color "GGGGGG" = Raise (ValueError msg))
  /\ _parse_hex_color "#00aaFF" = Ok "00aaff".
Proof.
  intros r. unfold _parse_hex_color. rewrite strip_hash_code. fold r.
  split; [| split; [| split; [eexists; reflexivity | reflexivity]]].
  - intros H. pose proof H as [Hlen Hall]. apply is_hex6_dec in H.
    rewrite H. split; [reflexivity |].
    split; [now rewrite lower_length | now apply lower_hex].
  - intros H. rewrite is_hex6_dec in H. apply not_false_is_true in H.
    rewrite H. eexists; reflexivity.
Qed.

Lemma parse_hex_color_normalises_witness :
  Spec.is_hex6 (Spec.strip_hash (Py.strip "  #FF8800 "))
  /\ _parse_hex_color "  #FF8800 " = Ok "ff8800"
  /\ Spec.is_color "ff8800".
Proof.
  assert (H : Spec.is_hex6 (Spec.strip_hash (Py.strip "  #FF8800 "))).
  { split; reflexivity. }
  split; [exact H |].
  exact (proj1 (parse_hex_color_normalises "  #FF8800 ") H).
Defined.

(** C7 as it is stated fails: the text [" ff0000"] has no leading [#] and
    is not six hexadecimal digits, and it is accepted. *)
Lemma parse_hex_color_blank_counterexample :
  ~ Spec.is_hex6 (Spec.strip_hash " ff0000")
  /\ _parse_hex_color " ff0000" = Ok "ff0000".
Proof.
  split; [| reflexivity].
  intros [Hlen _]. vm_compute in Hlen. discriminate Hlen.
Qed.

Lemma str_head (z : Z) :
  exists c s, Py.str z = String c s /\ Ascii.eqb c "a" = false.
Proof.
  unfold Py.str. destruct (z <? 0).
  - eexists _, _. split; reflexivity.
  - destruct (str_nonneg_digits z) as (c & s & -> & Hall).
    exists c, s. split; [reflexivity |].
    simpl in Hall. apply andb_true_iff in Hall as [Hc _].
    destruct c as [[] [] [] [] [] [] [] []]; try reflexivity;
      vm_compute in Hc; discriminate Hc.
Qed.

Lemma str_not_auto (z : Z) : in_set (Py.str z) ["auto"; "a"] = false.
Proof.
  destruct (str_head z) as (c & s & -> & Hc).
  unfold in_set. cbn [existsb String.eqb]. rewrite Hc. reflexivity.
Qed.

(** What [_parse_percent_or_auto] answers for an integer, given as an
    [int] or as its decimal text. *)
Lemma parse_percent_of_int (z : Z) :
  _parse_percent_or_auto (VInt z)
  = if z =? 0 then Ok 0
    else if (1 <=? z) && (z <=? 100) then Ok z
    else Raise (ValueError
           "Percentage must be between 1 and 100 (or 0 for auto)").
Proof.
  unfold _parse_percent_or_auto, str_of.
  rewrite strip_str, lower_str, str_not_auto.
  unfold _parse_percent. rewrite int_str. cbn [andb].
  destruct (z =? 0); [reflexivity |].
  destruct ((1 <=? z) && (z <=? 100)); reflexivity.
Qed.

(** C8.  ["auto"] and the integer 0 both normalise to 0, an integer from 1
    to 100 is kept, and every other integer is rejected with an error; 101
    is rejected. *)
Theorem parse_percent_or_auto_normalises :
  _parse_percent_or_auto (VStr "auto") = Ok 0
  /\ _parse_percent_or_auto (VInt 0) = Ok 0
  /\ (forall z, 1 <= z <= 100 -> _parse_percent_or_auto (VInt z) = Ok z)
  /\ (forall z, z < 0 \/ 100 < z ->
      exists msg, _parse_percent_or_auto (VInt z) = Raise (ValueError msg))
  /\ (forall z, _parse_percent_or_auto (VStr (Py.str z))
                = _parse_percent_or_auto (VInt z))
  /\ (exists msg, _parse_percent_or_auto (VInt 101) = Raise (ValueError msg)).
Proof.
  split; [reflexivity |]. split; [reflexivity |].
  split; [| split; [| split; [reflexivity | eexists; reflexivity]]].
  - intros z Hz. rewrite parse_percent_of_int.
    destruct (z =? 0) eqn:H0; [lia |].
    destruct ((1 <=? z) && (z <=? 100)) eqn:Hr; [reflexivity | lia].
  - intros z Hz. rewrite parse_percent_of_int.
    destruct (z =? 0) eqn:H0; [lia |].
    destruct ((1 <=? z) && (z <=? 100)) eqn:Hr; [lia | eexists; reflexivity].
Qed.

Lemma parse_percent_or_auto_normalises_witness :
  1 <= 50 <= 100
  /\ _parse_percent_or_auto (VInt 50) = Ok 50
  /\ (exists msg, _parse_percent_or_auto (VInt (-3)) = Raise (ValueError msg)).
Proof.
  destruct parse_percent_or_auto_normalises as (_ & _ & Hin & Hout & _).
  split; [lia |]. split; [apply Hin; lia | apply Hout; lia].
Defined.

End Validation.

(** ** Keyboard modes *)

Section Modes.

Import nekroctl.







End Modes.

(** ** Keyboard per-zone colours *)

Section PerZone.

Import nekroctl.

Lemma bind_ext {A B} (m : M A) (k1 k2 : A -> M B) (w : world) :
  (forall a w', k1 a w' = k2 a w') -> bind m k1 w = bind m k2 w.
Proof.
  intros H. unfold bind. destruct (m w) as [[a|e] w']; [apply H | reflexivity].
Qed.

Lemma bind_lift {A B} (r : result A) (k : A -> M B) (w : world) :
  bind (lift r) k w
  = match r with Ok a => k a w | Raise e => (Raise e, w) end.
Proof. unfold bind, lift. destruct r; reflexivity. Qed.

(** C5, as the code has it.  With valid colours and a brightness from 0 to
    100: one colour is written four times, four colours are written as
    they are, two, three or more than four colours are an error, and no
    colour at all prints the help of the subcommand (an error only when no
    parser is attached); the payload is the four colours and the
    brightness, separated by commas. *)
Theorem per_zone_encoding
  (args : per_zone_args) (cs : list string) (b : Z) (w : world) :
  map_result _parse_hex_color (pz_colors args) = Ok cs ->
  b = match pz_brightness args with Some x => x | None => 100 end ->
  0 <= b <= 100 ->
  let send payload :=
    Spec.checked_write KB_PER_ZONE Spec.per_zone_desc payload
      "OK: per-zone colors set" w in
  (forall c, cs = [c] ->
     cmd_rgb_per_zone args w = send (Py.join "," [c; c; c; c; Py.str b]))
  /\ (List.length cs = 4%nat ->
      cmd_rgb_per_zone args w = send (Py.join "," (cs ++ [Py.str b])%list))
  /\ (List.length cs <> 0%nat -> List.length cs <> 1%nat ->
      List.length cs <> 4%nat ->
      cmd_rgb_per_zone args w
      = Spec.checked_refusal KB_PER_ZONE Spec.per_zone_desc
          "Provide exactly 1 or 4 colors (RRGGBB)." w)
  /\ (cs = [] ->
      cmd_rgb_per_zone args w
      = match pz_parser args with
        | Some parser =>
            bind (_require_path KB_PER_ZONE Spec.per_zone_desc)
                 (fun _ => print_help parser) w
        | None =>
            Spec.checked_refusal KB_PER_ZONE Spec.per_zone_desc
              "Provide at least one color (RRGGBB)." w
        end).
Proof.
  intros Hcs Hb Hrange send.
  assert (Hr : negb ((0 <=? b) && (b <=? 100)) = false).
  { apply negb_false_iff, andb_true_iff. lia. }
  assert (Hrun : cmd_rgb_per_zone args w
    = bind (_require_path KB_PER_ZONE Spec.per_zone_desc) (fun _ =>
        match cs with
        | [] => match pz_parser args with
                | Some parser => print_help parser
                | None => exit_msg "Provide at least one color (RRGGBB)."
                end
        | _ =>
            let colors := if Nat.eqb (List.length cs) 1
                          then (cs ++ cs ++ cs ++ cs)%list else cs in
            if negb (Nat.eqb (List.length colors) 4) then
              exit_msg "Provide exactly 1 or 4 colors (RRGGBB)."
            else
              bind (_write_text KB_PER_ZONE
                      (Py.join "," (colors ++ [Py.str b])%list ++ newline))
                   (fun _ => print "OK: per-zone colors set")
        end) w).
  { unfold cmd_rgb_per_zone. apply bind_ext. intros [] w'.
    rewrite bind_lift, Hcs. destruct cs as [|c0 cs0]; [reflexivity |].
    rewrite <- Hb, Hr. reflexivity. }
  rewrite Hrun. unfold send, Spec.checked_write, Spec.checked_refusal.
  split; [| split; [| split]].
  - intros c ->. reflexivity.
  - intros Hlen.
    destruct cs as [|c0 [|c1 [|c2 [|c3 [|c4 cs']]]]]; try discriminate Hlen.
    reflexivity.
  - intros H0 H1 H4. apply Nat.eqb_neq in H1, H4.
    destruct cs as [|c0 cs0]; [contradiction |].
    cbv beta iota zeta. rewrite H1, H4. reflexivity.
  - intros ->. destruct (pz_parser args); reflexivity.
Qed.

Lemma per_zone_encoding_witness :
  let args := {| pz_colors := ["ff0000"]; pz_brightness := Some 50;
                 pz_parser := Some "nekroctl rgb per-zone" |} in
  0 <= 50 <= 100
  /\ fst (cmd_rgb_per_zone args Sample.world_root) = Ok tt
  /\ option_map content (fs (snd (cmd_rgb_per_zone args Sample.world_root))
                           KB_PER_ZONE)
     = Some ("ff0000,ff0000,ff0000,ff0000,50" ++ newline).
Proof.
  intros args.
  pose proof (per_zone_encoding args ["ff0000"] 50 Sample.world_root
                eq_refl eq_refl ltac:(lia)) as (H1 & _).
  specialize (H1 "ff0000" eq_refl).
  split; [lia |]. rewrite H1. split; reflexivity.
Defined.

(** C5 as it is stated fails: no colour is a count other than 1 and 4, and
    the command does not end in an error: it prints the help of the
    subcommand and the exit status is 0. *)
Lemma per_zone_no_color_counterexample :
  let args := {| pz_colors := []; pz_brightness := Some 100;
                 pz_parser := Some "nekroctl rgb per-zone" |} in
  List.length (pz_colors args) <> 1%nat
  /\ List.length (pz_colors args) <> 4%nat
  /\ fst (cmd_rgb_per_zone args Sample.world_root) = Ok tt
  /\ stdout (snd (cmd_rgb_per_zone args Sample.world_root))
     = [Help "nekroctl rgb per-zone"]
  /\ fst (main (Parsed (RgbPerZone args)) Sample.world_root) = 0.
Proof.
  cbv zeta. split; [discriminate |]. split; [discriminate |].
  split; [reflexivity |]. split; reflexivity.
Qed.

End PerZone.

(** ** Fans *)

Section Fans.

Import nekroctl.

Lemma parse_percent_range (v : pyval) (n : Z) :
  _parse_percent_or_auto v = Ok n -> n = 0 \/ 1 <= n <= 100.
Proof.
  unfold _parse_percent_or_auto, _parse_percent.
  destruct (in_set _ _); [intros [= <-]; now left |].
  destruct (Py.int _) as [i|]; [| discriminate].
  destruct (true && (i =? 0)); [intros [= <-]; now left |].
  destruct ((1 <=? i) && (i <=? 100)) eqn:Hr; cbn [negb];
    [intros [= <-]; right; lia | discriminate].
Qed.

(** A value that was normalised is left as it is when it is normalised
    again from its decimal text. *)
Lemma parse_percent_again (v : pyval) (n : Z) :
  _parse_percent_or_auto v = Ok n ->
  _parse_percent_or_auto (VStr (Py.str n)) = Ok n.
Proof.
  intros H. apply parse_percent_range in H.
  change (VStr (Py.str n)) with (VStr (str_of (VInt n))).
  change (_parse_percent_or_auto (VStr (str_of (VInt n))))
    with (_parse_percent_or_auto (VInt n)).
  rewrite parse_percent_of_int.
  destruct (n =? 0) eqn:H0; [f_equal; lia |].
  destruct ((1 <=? n) && (n <=? 100)) eqn:Hr; [reflexivity | lia].
Qed.

(** C10.  When only [--cpu] or only [--gpu] is given, the other fan gets
    the same normalised value, and so does it when one positional value
    is given: both fans are written. *)
Theorem fan_set_one_value_sets_both (a : fan_args) (s : string) (w : world) :
  (fan_values a = []
   /\ ((fan_cpu a = Some s /\ fan_gpu a = None)
       \/ (fan_cpu a = None /\ fan_gpu a = Some s)))
  \/ fan_values a = [s] ->
  cmd_fan_set a w = Spec.set_both_fans s w.
Proof.
  intros H. unfold cmd_fan_set, Spec.set_both_fans.
  apply bind_ext. intros p w1.
  destruct (_parse_percent_or_auto (VStr s)) as [n|e] eqn:Hs.
  - pose proof (parse_percent_again _ _ Hs) as Hn.
    destruct H as [[Hv [[Hc Hg] | [Hc Hg]]] | Hv]; rewrite Hv;
      try rewrite Hc, Hg; unfold bind, ret, lift;
      cbn [option_map str_of fst snd];
      repeat first [rewrite Hs | rewrite Hn | progress cbv beta iota
                   | progress cbn [str_of fst snd]];
      reflexivity.
  - destruct H as [[Hv [[Hc Hg] | [Hc Hg]]] | Hv]; rewrite Hv;
      try rewrite Hc, Hg; unfold bind, ret, lift;
      cbn [option_map str_of fst snd];
      repeat first [rewrite Hs | progress cbv beta iota
                   | progress cbn [str_of fst snd]];
      reflexivity.
Qed.

Lemma fan_set_one_value_sets_both_witness :
  let a := {| fan_values := []; fan_cpu := None; fan_gpu := Some "50" |} in
  fst (cmd_fan_set a Sample.world_root) = Ok tt
  /\ option_map content
       (fs (snd (cmd_fan_set a Sample.world_root))
           (os_path_join SENSE_PRED "fan_speed"))
     = Some ("50,50" ++ newline).
Proof.
  intros a.
  rewrite (fan_set_one_value_sets_both a "50" Sample.world_root
             (or_introl (conj eq_refl (or_intror (conj eq_refl eq_refl))))).
  split; reflexivity.
Defined.

End Fans.

(** ** Exit codes *)

Section ExitCodes.

Import nekroctl.

Lemma int_rstrip_head (c : ascii) (s : string) :
  Py.int_space c = false -> exists r, Py.int_rstrip (String c s) = String c r.
Proof.
  intros H. cbn [Py.int_rstrip]. rewrite H. destruct (Py.int_rstrip s); eauto.
Qed.

(** A message that starts with a capital letter is not the text of an
    integer. *)
Lemma int_of_message (c : ascii) (s : string) :
  Spec.is_capital c = true -> Py.int (String c s) = None.
Proof.
  intros Hc. unfold Py.int.
  assert (Hsp : Py.int_space c = false).
  { destruct c as [[] [] [] [] [] [] [] []]; try reflexivity;
      vm_compute in Hc; discriminate Hc. }
  cbn [Py.int_lstrip]. rewrite Hsp.
  destruct (int_rstrip_head c s Hsp) as [r ->].
  destruct c as [[] [] [] [] [] [] [] []]; try reflexivity;
    vm_compute in Hc; discriminate Hc.
Qed.

Lemma parse_hex_color_raises (s : string) (e : exn) :
  _parse_hex_color s = Raise e -> Spec.plain_error e.
Proof.
  unfold _parse_hex_color. destruct (_ || _); [intros [= <-]; exact I |].
  discriminate.
Qed.

Lemma map_result_raises {A B} (f : A -> result B) (l : list A) (e : exn) :
  map_result f l = Raise e -> exists x, f x = Raise e.
Proof.
  induction l as [|x l IH]; simpl; [discriminate |].
  destruct (f x) as [y|e'] eqn:Hx; [| intros [= <-]; eauto].
  destruct (map_result f l); [discriminate | intros [= <-]; auto].
Qed.

Lemma resolve_mode_raises (m : pyval) (e : exn) :
  resolve_mode m = Raise e -> Spec.plain_error e.
Proof.
  unfold resolve_mode. destruct m as [s|z].
  - destruct (dict_get _ _) as [id|].
    + destruct (negb _); [intros [= <-]; reflexivity | discriminate].
    + destruct (Py.int s) as [id|]; [| intros [= <-]; reflexivity].
      destruct (negb _); [intros [= <-]; reflexivity | discriminate].
  - destruct (negb _); [intros [= <-]; reflexivity | discriminate].
Qed.

Lemma from_hex_raises (s : string) (e : exn) :
  from_hex s = Raise e -> Spec.plain_error e.
Proof.
  unfold from_hex. destruct (Py.int16 s); [discriminate |].
  intros [= <-]. exact I.
Qed.

Lemma parse_percent_raises (v : pyval) (e : exn) :
  _parse_percent_or_auto v = Raise e -> Spec.plain_error e.
Proof.
  unfold _parse_percent_or_auto, _parse_percent.
  destruct (in_set _ _); [discriminate |].
  destruct (Py.int _) as [i|]; [| intros [= <-]; exact I].
  destruct (_ && _); [discriminate |].
  destruct (negb _); [intros [= <-]; exact I | discriminate].
Qed.

(** Symbolic execution of a leaf: the operations are unfolded and every
    look-up, access right and test is split. *)
Ltac open_ops :=
  unfold _fan_path, _battery_limit_path, _detect_sense_dir, _require_path,
    _path_exists, _read_text, _write_text, sys_exit, exit_msg, bind, ret,
    raise, lift, log, print, print_help, stderr_write, get_node, set_content.

Ltac tidy :=
  cbn [fs stdout stderr syslog fst snd negb andb orb option_map str_of].

Ltac split_step :=
  match goal with
  | |- context [fs ?w ?p] =>
      lazymatch goal with
      | H : fs w p = _ |- _ => rewrite H
      | _ => let n := fresh "n" in destruct (fs w p) as [n|] eqn:?
      end
  | |- context [match ?x with _ => _ end] =>
      lazymatch x with
      | context [match _ with _ => _ end] => fail
      | (_, _) => fail
      | _ => destruct x eqn:?
      end
  end.

Ltac log_shape :=
  rewrite <- ?(app_assoc (syslog _)); reflexivity.

Ltac close_output :=
  cbn [Spec.success_output];
  first
    [ left; split; [reflexivity |];
      do 3 eexists; split; [reflexivity |];
      cbn [fs]; rewrite String.eqb_refl;
      match goal with H : fs _ _ = Some _ |- _ => rewrite H end;
      split; reflexivity
    | right; do 2 eexists; split; [reflexivity |]; split;
      [eassumption | reflexivity]
    | intros ? Hin; cbn [In app] in Hin;
      repeat match type of Hin with
             | _ \/ _ => destruct Hin as [Hin | Hin]
             end;
      first [ solve [destruct Hin]
            | solve [rewrite <- Hin; do 2 eexists; reflexivity] ] ].

Ltac close_error :=
  first
    [ left; repeat split; reflexivity
    | right; left; repeat split; reflexivity
    | right; right; split;
      [first [assumption | exact I | reflexivity] | split; reflexivity] ].

Ltac learn :=
  repeat match goal with
         | H : from_hex _ = Raise _ |- _ => apply from_hex_raises in H
         | H : _parse_hex_color _ = Raise _ |- _ =>
             apply parse_hex_color_raises in H
         | H : resolve_mode _ = Raise _ |- _ => apply resolve_mode_raises in H
         | H : _parse_percent_or_auto _ = Raise _ |- _ =>
             apply parse_percent_raises in H
         | H : map_result _parse_hex_color _ = Raise _ |- _ =>
             apply map_result_raises in H as [? H]
         end.

Ltac finish :=
  learn; unfold Spec.classified; tidy;
  eexists; eexists;
  split; [first [log_shape | symmetry; apply app_nil_r] |];
  split; [first [reflexivity | symmetry; apply app_nil_r] |];
  first
    [ split; [reflexivity |]; split; [reflexivity |];
      eexists; split; [reflexivity |]; close_output
    | split; [reflexivity |]; close_error ].

Ltac run := open_ops; tidy; repeat (split_step; tidy); finish.

Lemma classified_per_zone_get (w : world) :
  Spec.classified w (cmd_rgb_per_zone_get w).
Proof. unfold cmd_rgb_per_zone_get. run. Qed.

Lemma classified_effect_get (w : world) :
  Spec.classified w (cmd_rgb_effect_get w).
Proof. unfold cmd_rgb_effect_get. run. Qed.

Lemma classified_power_get (w : world) : Spec.classified w (cmd_power_get w).
Proof. unfold cmd_power_get. run. Qed.

Lemma classified_power_list (w : world) : Spec.classified w (cmd_power_list w).
Proof. unfold cmd_power_list. run. Qed.

Lemma classified_logo_get (w : world) : Spec.classified w (cmd_logo_get w).
Proof. unfold cmd_logo_get. run. Qed.

Lemma classified_fan_get (w : world) : Spec.classified w (cmd_fan_get w).
Proof. unfold cmd_fan_get. run. Qed.

Lemma classified_fan_auto (w : world) : Spec.classified w (cmd_fan_auto w).
Proof. unfold cmd_fan_auto. run. Qed.

Lemma classified_battery_get (w : world) :
  Spec.classified w (cmd_battery_get w).
Proof. unfold cmd_battery_get. run. Qed.

Lemma classified_battery_on (w : world) : Spec.classified w (cmd_battery_on w).
Proof. unfold cmd_battery_on. run. Qed.

Lemma classified_battery_off (w : world) :
  Spec.classified w (cmd_battery_off w).
Proof. unfold cmd_battery_off. run. Qed.

Lemma classified_per_zone (a : per_zone_args) (w : world) :
  Spec.classified w (cmd_rgb_per_zone a w).
Proof. unfold cmd_rgb_per_zone. run. Qed.

Lemma classified_effect (a : effect_args) (w : world) :
  Spec.classified w (cmd_rgb_effect a w).
Proof. unfold cmd_rgb_effect. run. Qed.

Lemma classified_power_set (mode : string) (w : world) :
  Spec.classified w (cmd_power_set mode w).
Proof. unfold cmd_power_set. run. Qed.

Lemma classified_logo_set (a : logo_args) (w : world) :
  Spec.classified w (cmd_logo_set a w).
Proof. unfold cmd_logo_set. run. Qed.

Lemma classified_fan_set (a : fan_args) (w : world) :
  Spec.classified w (cmd_fan_set a w).
Proof. unfold cmd_fan_set. run. Qed.

Lemma parse_on_off_raises (v : string) (e : exn) :
  _parse_on_off v = Raise e ->
  e = ValueError "Expected on/off (or 1/0, true/false, yes/no)".
Proof.
  unfold _parse_on_off. destruct (in_set _ _); [discriminate |].
  destruct (in_set _ _); [discriminate | now intros [= <-]].
Qed.

Lemma classified_battery_set (mode : string) (w : world) :
  Spec.classified w (cmd_battery_set mode w).
Proof.
  unfold cmd_battery_set.
  destruct (_parse_on_off mode) as [v|e] eqn:Hv;
    [| apply parse_on_off_raises in Hv; subst e]; run.
Qed.

Lemma classified_func (c : command) (w : world) :
  Spec.classified w (func c w).
Proof.
  destruct c as [a| |a| | | |m| |a| | |a| | | |m|prog]; cbn [func].
  - apply classified_per_zone.
  - apply classified_per_zone_get.
  - apply classified_effect.
  - apply classified_effect_get.
  - apply classified_power_get.
  - apply classified_power_list.
  - destruct m as [m|]; cbn [_power_set_wrapper];
      [apply classified_power_set | run].
  - apply classified_logo_get.
  - unfold _logo_set_wrapper. destruct (lg_on a && lg_off a);
      [run | apply classified_logo_set].
  - apply classified_fan_get.
  - apply classified_fan_auto.
  - unfold _fan_set_wrapper.
    destruct (fan_values a) eqn:Hv, (fan_cpu a) eqn:Hc, (fan_gpu a) eqn:Hg;
      try apply classified_fan_set.
    run.
  - apply classified_battery_get.
  - apply classified_battery_on.
  - apply classified_battery_off.
  - destruct m as [m|]; cbn [_battery_set_wrapper];
      [apply classified_battery_set | run].
  - run.
Qed.

(** [main] on a command line that was parsed: the leaf is called and its
    outcome is turned into a status. *)
Lemma main_parsed (c : command) (w : world) :
  main (Parsed c) w
  = match func c w with
    | (Ok _, w') => (0, w')
    | (Raise (SystemExit a), w') => (exit_status a, w')
    | (Raise (FileNotFoundError msg), w') =>
        (2, snd (stderr_write ("File not found: " ++ msg ++ newline) w'))
    | (Raise PermissionError, w') => (3, w')
    | (Raise (ValueError msg), w') =>
        (1, snd (stderr_write ("Error: " ++ msg ++ newline) w'))
    | (Raise (OSError msg), w') =>
        (1, snd (stderr_write ("Error: " ++ msg ++ newline) w'))
    end.
Proof. reflexivity. Qed.

Lemma main_rejected (usage message : string) (w : world) :
  main (Rejected usage message) w
  = (2, {| fs := fs w; stdout := stdout w;
           stderr := ((stderr w ++ [usage]) ++ [message])%list;
           syslog := syslog w |}).
Proof. reflexivity. Qed.

Lemma main_help_shown (prog : string) (w : world) :
  main (HelpShown prog) w
  = (0, {| fs := fs w; stdout := (stdout w ++ [Help prog])%list;
           stderr := stderr w; syslog := syslog w |}).
Proof. reflexivity. Qed.

(** The status of a command line that was parsed. *)
Lemma leaf_exit_codes (c : command) (w : world) :
  let code := fst (main (Parsed c) w) in
  let w' := snd (main (Parsed c) w) in
  exists evs outs,
    syslog w' = (syslog w ++ evs)%list
    /\ stdout w' = (stdout w ++ outs)%list
    /\ (code = 0 \/ code = 1 \/ code = 2 \/ code = 3)
    /\ (code = 0 <-> exists u, fst (func c w) = Ok u)
    /\ (code = 2 <-> Spec.stopped_missing evs = true)
    /\ (code = 3 <-> Spec.stopped_denied evs = true)
    /\ (code = 1 <->
        (exists e, fst (func c w) = Raise e)
        /\ Spec.stopped_missing evs = false
        /\ Spec.stopped_denied evs = false)
    /\ (code = 0 ->
        exists item, outs = [item] /\ Spec.success_output w w' evs item)
    /\ (code <> 0 -> outs = []).
Proof.
  cbv zeta. rewrite main_parsed.
  destruct (classified_func c w) as (evs & outs & Hlog & Hout & H).
  destruct (func c w) as [[u|e] w1]; cbn [fst snd] in *.
  - destruct H as (Hm & Hd & item & Hitem & Hsucc).
    exists evs, outs. rewrite Hm, Hd.
    repeat split; eauto; try discriminate; try lia;
      try (intros H; exfalso; destruct H as (H & _); destruct H;
           discriminate).
  - destruct H as (Hnil & [(-> & Hm & Hd) | [(-> & Hm & Hd) | (He & Hm & Hd)]]).
    + exists evs, outs. cbn [exit_status fst snd]. rewrite Hm, Hd.
      repeat split; eauto; try discriminate; try lia;
        try (intros [? ?]; discriminate).
    + exists evs, outs. cbn [fst snd]. rewrite Hm, Hd.
      repeat split; eauto; try discriminate; try lia;
        try (intros [? ?]; discriminate).
    + assert (Hcode :
        fst (match e with
             | SystemExit a => (exit_status a, w1)
             | ValueError msg =>
                 (1, snd (stderr_write ("Error: " ++ msg ++ newline) w1))
             | FileNotFoundError msg =>
                 (2, snd (stderr_write
                            ("File not found: " ++ msg ++ newline) w1))
             | PermissionError => (3, w1)
             | OSError msg =>
                 (1, snd (stderr_write ("Error: " ++ msg ++ newline) w1))
             end) = 1
        /\ syslog (snd (match e with
             | SystemExit a => (exit_status a, w1)
             | ValueError msg =>
                 (1, snd (stderr_write ("Error: " ++ msg ++ newline) w1))
             | FileNotFoundError msg =>
                 (2, snd (stderr_write
                            ("File not found: " ++ msg ++ newline) w1))
             | PermissionError => (3, w1)
             | OSError msg =>
                 (1, snd (stderr_write ("Error: " ++ msg ++ newline) w1))
             end)) = syslog w1
        /\ stdout (snd (match e with
             | SystemExit a => (exit_status a, w1)
             | ValueError msg =>
                 (1, snd (stderr_write ("Error: " ++ msg ++ newline) w1))
             | FileNotFoundError msg =>
                 (2, snd (stderr_write
                            ("File not found: " ++ msg ++ newline) w1))
             | PermissionError => (3, w1)
             | OSError msg =>
                 (1, snd (stderr_write ("Error: " ++ msg ++ newline) w1))
             end)) = stdout w1).
      { destruct e as [[| |[|ch s]]| | | |]; cbn [Spec.plain_error] in He;
          try contradiction; cbn [fst snd exit_status];
          [rewrite int_of_message by exact He | |]; repeat split. }
      destruct Hcode as (-> & -> & ->).
      exists evs, outs. rewrite Hm, Hd.
      repeat split; eauto; try discriminate; try lia;
        try (intros [? ?]; discriminate).
Qed.

(** C9, as the code has it.  [main] ends with status 0 exactly when the
    leaf ends without an error or the parser has shown the help of [-h];
    with 2 exactly when the leaf stopped at an attribute path that does
    not exist or the parser rejected the command line; with 3 exactly when
    the leaf stopped at an attribute it may not read or write; and with 1
    for every other error of a leaf.  With status 0 it has printed one
    thing: the "OK: ..." line of a write that was granted, the text of the
    attribute it read, or the help of a parser, having made no system call
    but checks that a path exists. *)
Theorem main_exit_codes (argv : parse_result) (w : world) :
  let code := fst (main argv w) in
  let w' := snd (main argv w) in
  exists evs outs,
    syslog w' = (syslog w ++ evs)%list
    /\ stdout w' = (stdout w ++ outs)%list
    /\ (code = 0 \/ code = 1 \/ code = 2 \/ code = 3)
    /\ (code = 0 <->
        (exists c u, argv = Parsed c /\ fst (func c w) = Ok u)
        \/ exists prog, argv = HelpShown prog)
    /\ (code = 2 <->
        Spec.stopped_missing evs = true
        \/ exists usage message, argv = Rejected usage message)
    /\ (code = 3 <-> Spec.stopped_denied evs = true)
    /\ (code = 1 <->
        (exists c e, argv = Parsed c /\ fst (func c w) = Raise e)
        /\ Spec.stopped_missing evs = false
        /\ Spec.stopped_denied evs = false)
    /\ (code = 0 ->
        exists item, outs = [item] /\ Spec.success_output w w' evs item)
    /\ (code <> 0 -> outs = []).
Proof.
  cbv zeta. destruct argv as [c|usage message|prog].
  - destruct (leaf_exit_codes c w)
      as (evs & outs & Hlog & Hout & Hcodes & H0 & H2 & H3 & H1 & Hok & Herr).
    exists evs, outs.
    split; [exact Hlog |]. split; [exact Hout |]. split; [exact Hcodes |].
    split.
    { rewrite H0. split.
      - intros [u Hu]. left. exists c, u. auto.
      - intros [(c' & u & [= <-] & Hu) | (prog & E)];
          [eauto | discriminate E]. }
    split.
    { rewrite H2. split; [auto |].
      intros [H | (usage & message & E)]; [exact H | discriminate E]. }
    split; [exact H3 |].
    split; [| split; [exact Hok | exact Herr]].
    rewrite H1. split.
    + intros ([e He] & Hm & Hd). split; [exists c, e; auto | auto].
    + intros ((c' & e & [= <-] & He) & Hm & Hd). eauto.
  - rewrite main_rejected. exists [], []. cbn [fst snd syslog stdout].
    rewrite !app_nil_r.
    split; [reflexivity |]. split; [reflexivity |]. split; [auto |].
    split.
    { split; [discriminate |].
      intros [(c & u & E & _) | (prog & E)]; discriminate E. }
    split; [split; [intros _; right; eauto | reflexivity] |].
    split; [split; discriminate |].
    split.
    { split; [discriminate |].
      intros ((c & e & E & _) & _). discriminate E. }
    split; [discriminate | reflexivity].
  - rewrite main_help_shown. exists [], [Help prog].
    cbn [fst snd syslog stdout]. rewrite app_nil_r.
    split; [reflexivity |]. split; [reflexivity |]. split; [auto |].
    split; [split; [intros _; right; eauto | reflexivity] |].
    split.
    { split; [discriminate |].
      intros [H | (usage & message & E)]; discriminate. }
    split; [split; discriminate |].
    split.
    { split; [discriminate |].
      intros ((c & e & E & _) & _). discriminate E. }
    split; [| intros H; contradiction].
    intros _. exists (Help prog). split; [reflexivity |].
    intros e [].
Qed.

(** C9 as it is stated fails, three ways.  [fan set] without a value ends
    with status 0 and has printed neither an "OK: ..." line nor the text of
    an attribute but the help of the subcommand, also when the fan
    attribute does not exist.  [fan get] on an attribute that may not be
    read writes nothing, and ends with status 3, not 1.  A command line
    that the parser rejects, with every path in place and no access
    refused, ends with status 2, not 1. *)
Lemma main_help_counterexample :
  let c := Parsed (FanSet {| fan_values := []; fan_cpu := None;
                             fan_gpu := None |}) in
  (fst (main c Sample.world_root) = 0
   /\ stdout (snd (main c Sample.world_root)) = [Help "nekroctl fan set"]
   /\ (forall s, stdout (snd (main c Sample.world_root)) <> [Line s])
   /\ fs Sample.world_bare (os_path_join SENSE_PRED "fan_speed") = None
   /\ fst (main c Sample.world_bare) = 0)
  /\ (fst (main (Parsed FanGet) Sample.world_locked) = 3
      /\ syslog (snd (main (Parsed FanGet) Sample.world_locked))
         = [SysExists SENSE_PRED true;
            SysExists (os_path_join SENSE_PRED "fan_speed") true;
            SysRead (os_path_join SENSE_PRED "fan_speed") Denied])
  /\ (forall usage message,
        fst (main (Rejected usage message) Sample.world_root) = 2
        /\ syslog (snd (main (Rejected usage message) Sample.world_root))
           = []).
Proof.
  cbv zeta. split; [| split].
  - split; [reflexivity |]. split; [reflexivity |].
    split; [intros s H; discriminate H |]. split; reflexivity.
  - split; reflexivity.
  - intros usage message. split; reflexivity.
Qed.

Lemma main_exit_codes_witness :
  fst (main (Parsed FanAuto) Sample.world_user) = 3
  /\ fst (main (Parsed FanAuto) Sample.world_bare) = 2
  /\ fst (main (Parsed FanAuto) Sample.world_root) = 0
  /\ exists evs outs,
       syslog (snd (main (Parsed FanAuto) Sample.world_user))
       = ([] ++ evs)%list
       /\ stdout (snd (main (Parsed FanAuto) Sample.world_user))
          = ([] ++ outs)%list
       /\ Spec.stopped_denied evs = true.
Proof.
  split; [reflexivity |]. split; [reflexivity |]. split; [reflexivity |].
  destruct (main_exit_codes (Parsed FanAuto) Sample.world_user)
    as (evs & outs & Hlog & Hout & _ & _ & _ & H3 & _).
  exists evs, outs. split; [exact Hlog |]. split; [exact Hout |].
  apply H3. reflexivity.
Defined.

Ltac effect_done :=
  unfold Spec.file_effect; tidy;
  first
    [ reflexivity
    | left; reflexivity
    | right;
      match goal with
      | H : fs _ ?p = Some ?n |- _ =>
          exists p; eexists; exists n; split; [exact H |]; split;
          [assumption | reflexivity]
      end ].

Ltac effect_run := open_ops; tidy; repeat (split_step; tidy); effect_done.

Lemma file_effect_func (c : command) (w : world) :
  Spec.file_effect w (func c w).
Proof.
  destruct c as [a| |a| | | |m| |a| | |a| | | |m|prog]; cbn [func].
  - unfold cmd_rgb_per_zone. effect_run.
  - unfold cmd_rgb_per_zone_get. effect_run.
  - unfold cmd_rgb_effect. effect_run.
  - unfold cmd_rgb_effect_get. effect_run.
  - unfold cmd_power_get. effect_run.
  - unfold cmd_power_list. effect_run.
  - destruct m as [m|]; cbn [_power_set_wrapper];
      [unfold cmd_power_set |]; effect_run.
  - unfold cmd_logo_get. effect_run.
  - unfold _logo_set_wrapper, cmd_logo_set. effect_run.
  - unfold cmd_fan_get. effect_run.
  - unfold cmd_fan_auto. effect_run.
  - unfold _fan_set_wrapper, cmd_fan_set. effect_run.
  - unfold cmd_battery_get. effect_run.
  - unfold cmd_battery_on. effect_run.
  - unfold cmd_battery_off. effect_run.
  - destruct m as [m|]; cbn [_battery_set_wrapper];
      [unfold cmd_battery_set |]; effect_run.
  - effect_run.
Qed.

Lemma query_reads_only (c : command) (w : world) :
  Spec.is_query c = true -> fs (snd (func c w)) = fs w.
Proof.
  destruct c; try discriminate; intros _; cbn [func].
  - unfold cmd_rgb_per_zone_get. open_ops; tidy; repeat (split_step; tidy);
      reflexivity.
  - unfold cmd_rgb_effect_get. open_ops; tidy; repeat (split_step; tidy);
      reflexivity.
  - unfold cmd_power_get. open_ops; tidy; repeat (split_step; tidy);
      reflexivity.
  - unfold cmd_power_list. open_ops; tidy; repeat (split_step; tidy);
      reflexivity.
  - unfold cmd_logo_get. open_ops; tidy; repeat (split_step; tidy);
      reflexivity.
  - unfold cmd_fan_get. open_ops; tidy; repeat (split_step; tidy);
      reflexivity.
  - unfold cmd_battery_get. open_ops; tidy; repeat (split_step; tidy);
      reflexivity.
Qed.

Lemma main_fs (c : command) (w : world) :
  fs (snd (main (Parsed c) w)) = fs (snd (func c w)).
Proof.
  rewrite main_parsed.
  destruct (func c w) as [[u|[a| | | |]] w1]; reflexivity.
Qed.

Lemma main_ok (c : command) (w : world) (u : unit) :
  fst (func c w) = Ok u -> fst (main (Parsed c) w) = 0.
Proof.
  rewrite main_parsed. destruct (func c w) as [[u'|e] w1]; [reflexivity |].
  discriminate.
Qed.

(** X4.  A command that ends with a status other than 0 has changed no
    attribute; a command changes at most one attribute, of which it
    replaces the text and keeps the access rights, and only where writing
    is granted; the [get] and [list] leaves change nothing, and neither
    does a command line that the parser rejects or answers with its
    help. *)
Theorem commands_write_at_most_once (argv : parse_result) (w : world) :
  (fst (main argv w) <> 0 -> fs (snd (main argv w)) = fs w)
  /\ (fs (snd (main argv w)) = fs w
      \/ exists p t n,
           fst (main argv w) = 0
           /\ fs w p = Some n /\ w_acc n = Granted
           /\ fs (snd (main argv w)) = Spec.with_content (fs w) p t)
  /\ (forall c, argv = Parsed c -> Spec.is_query c = true ->
      fs (snd (main argv w)) = fs w)
  /\ ((forall c, argv <> Parsed c) -> fs (snd (main argv w)) = fs w).
Proof.
  destruct argv as [c|usage message|prog].
  - pose proof (file_effect_func c w) as H. unfold Spec.file_effect in H.
    rewrite main_fs.
    assert (Hgoal :
      (fst (main (Parsed c) w) <> 0 -> fs (snd (func c w)) = fs w)
      /\ (fs (snd (func c w)) = fs w
          \/ exists p t n,
               fst (main (Parsed c) w) = 0
               /\ fs w p = Some n /\ w_acc n = Granted
               /\ fs (snd (func c w)) = Spec.with_content (fs w) p t)
      /\ (Spec.is_query c = true -> fs (snd (func c w)) = fs w)).
    { destruct (fst (func c w)) as [u|e] eqn:Hr.
      - pose proof (main_ok c w u Hr) as H0.
        split; [intros Hne; contradiction |].
        split; [| apply query_reads_only].
        destruct H as [H | (p & t & n & Hp & Hw & H)]; [now left |].
        right. exists p, t, n. auto.
      - split; [intros _; exact H |].
        split; [now left | apply query_reads_only]. }
    destruct Hgoal as (H1 & H2 & H3).
    split; [exact H1 |]. split; [exact H2 |]. split.
    + intros c' [= <-]. exact H3.
    + intros Hne. exfalso. exact (Hne c eq_refl).
  - rewrite main_rejected. cbn [fst snd fs].
    split; [reflexivity |]. split; [now left |].
    split; intros; reflexivity.
  - rewrite main_help_shown. cbn [fst snd fs].
    split; [reflexivity |]. split; [now left |].
    split; intros; reflexivity.
Qed.

Lemma commands_write_at_most_once_witness :
  fst (main (Parsed FanAuto) Sample.world_user) <> 0
  /\ fs (snd (main (Parsed FanAuto) Sample.world_user))
     = fs Sample.world_user.
Proof.
  assert (H : fst (main (Parsed FanAuto) Sample.world_user) <> 0)
    by (vm_compute; discriminate).
  split; [exact H |].
  exact (proj1 (commands_write_at_most_once (Parsed FanAuto)
                  Sample.world_user) H).
Defined.

Lemma in_set_iff (x : string) (l : list string) :
  in_set x l = true <-> In x l.
Proof.
  unfold in_set. rewrite existsb_exists. split.
  - intros (y & Hy & Hxy). apply String.eqb_eq in Hxy. now subst.
  - intros H. exists x. split; [exact H | apply String.eqb_refl].
Qed.

(** [power list] prints the text of the choices file as it reads it. *)
Lemma power_list_prints (w : world) (n : node) :
  fs w PLATFORM_PROFILE_CHOICES = Some n ->
  r_acc n = Granted ->
  fst (main (Parsed PowerList) w) = 0
  /\ stdout (snd (main (Parsed PowerList) w))
     = (stdout w ++ [Line (Py.strip (Py.universal_newlines (content n)))])%list
  /\ stderr (snd (main (Parsed PowerList) w)) = stderr w.
Proof.
  intros Hn Hr. rewrite !main_parsed. cbn [func]. unfold cmd_power_list.
  open_ops; tidy.
  repeat (first [rewrite Hn | rewrite Hr]; tidy).
  repeat split; reflexivity.
Qed.

(** [power set] writes a profile that the choices file advertises, and
    any profile when the file advertises none. *)
Lemma power_set_accepted (mode : string) (w : world) (p n : node) :
  fs w PLATFORM_PROFILE = Some p -> w_acc p = Granted ->
  fs w PLATFORM_PROFILE_CHOICES = Some n -> r_acc n = Granted ->
  Spec.advertised (Py.strip (Py.universal_newlines (content n))) = []
  \/ In mode (Spec.advertised (Py.strip (Py.universal_newlines (content n)))) ->
  fst (main (Parsed (PowerSet (Some mode))) w) = 0
  /\ fs (snd (main (Parsed (PowerSet (Some mode))) w))
     = Spec.with_content (fs w) PLATFORM_PROFILE (mode ++ newline).
Proof.
  intros Hp Hw Hn Hr Hc. rewrite !main_parsed.
  cbn [func _power_set_wrapper]. unfold cmd_power_set.
  unfold Spec.advertised in Hc.
  open_ops; tidy. rewrite Hp; tidy.
  repeat (first [rewrite Hn | rewrite Hr]; tidy).
  destruct Hc as [Hc | Hc].
  - rewrite Hc; tidy.
    repeat (first [rewrite Hp | rewrite Hw]; tidy).
    split; reflexivity.
  - apply in_set_iff in Hc.
    destruct (filter Py.truthy
                (map Py.strip (Py.split " " (Py.strip (Py.universal_newlines (content n))))))
      as [|a l] eqn:Ha; [discriminate Hc |].
    rewrite Hc; tidy.
    repeat (first [rewrite Hp | rewrite Hw]; tidy).
    split; reflexivity.
Qed.

(** X5.  [power set] refuses, without writing, a profile that is not among
    the advertised ones when the choices can be read and are not empty;
    it writes the profile as given when there is no choices file, when the
    file advertises nothing, or when the profile is advertised. *)
Theorem power_set_respects_choices (mode : string) (w : world) :
  let run := main (Parsed (PowerSet (Some mode))) w in
  (forall n,
      fs w PLATFORM_PROFILE_CHOICES = Some n -> r_acc n = Granted ->
      Spec.advertised (Py.strip (Py.universal_newlines (content n))) <> [] ->
      ~ In mode (Spec.advertised (Py.strip (Py.universal_newlines (content n)))) ->
      fst run <> 0 /\ fs (snd run) = fs w)
  /\ (forall p,
        fs w PLATFORM_PROFILE = Some p -> w_acc p = Granted ->
        fs w PLATFORM_PROFILE_CHOICES = None
        \/ (exists n,
              fs w PLATFORM_PROFILE_CHOICES = Some n /\ r_acc n = Granted
              /\ (Spec.advertised (Py.strip (Py.universal_newlines (content n))) = []
                  \/ In mode (Spec.advertised (Py.strip (Py.universal_newlines (content n)))))) ->
        fst run = 0
        /\ fs (snd run)
           = Spec.with_content (fs w) PLATFORM_PROFILE (mode ++ newline)).
Proof.
  cbv zeta. rewrite !main_parsed. cbn [func _power_set_wrapper].
  unfold cmd_power_set.
  split.
  - intros n Hn Hr Hne Hnot.
    rewrite <- in_set_iff in Hnot. apply not_true_is_false in Hnot.
    unfold Spec.advertised in Hne, Hnot.
    open_ops; tidy.
    destruct (fs w PLATFORM_PROFILE); tidy;
      [| split; [discriminate | reflexivity]].
    repeat (first [rewrite Hn | rewrite Hr]; tidy).
    destruct (filter Py.truthy
                (map Py.strip (Py.split " " (Py.strip (Py.universal_newlines (content n))))))
      as [|a l] eqn:Ha; [contradiction |].
    rewrite Hnot; tidy.
    split; [| reflexivity].
    cbn [exit_status String.append]. rewrite int_of_message by reflexivity.
    discriminate.
  - intros p Hp Hw Hc. unfold Spec.advertised in Hc.
    open_ops; tidy. rewrite Hp; tidy.
    destruct Hc as [Hc | (n & Hn & Hr & Hc)].
    + repeat (first [rewrite Hc | rewrite Hp | rewrite Hw]; tidy).
      split; reflexivity.
    + repeat (first [rewrite Hn | rewrite Hr]; tidy).
      destruct Hc as [Hc | Hc].
      * rewrite Hc; tidy.
        repeat (first [rewrite Hp | rewrite Hw]; tidy).
        split; reflexivity.
      * apply in_set_iff in Hc.
        destruct (filter Py.truthy
                    (map Py.strip (Py.split " " (Py.strip (Py.universal_newlines (content n))))))
          as [|a l] eqn:Ha; [discriminate Hc |].
        rewrite Hc; tidy.
        repeat (first [rewrite Hp | rewrite Hw]; tidy).
        split; reflexivity.
Qed.

Lemma power_set_respects_choices_witness :
  let w := Sample.world_of (fun p =>
             if String.eqb p PLATFORM_PROFILE_CHOICES then
               Some {| content := "quiet balanced performance" ++ newline;
                       r_acc := Granted; w_acc := Denied |}
             else Sample.machine "balanced" Granted p) in
  fst (main (Parsed (PowerSet (Some "turbo"))) w) <> 0
  /\ fs (snd (main (Parsed (PowerSet (Some "turbo"))) w)) = fs w
  /\ fst (main (Parsed (PowerSet (Some "quiet"))) w) = 0.
Proof.
  intros w.
  destruct (power_set_respects_choices "turbo" w) as [Hno _].
  destruct (power_set_respects_choices "quiet" w) as [_ Hyes].
  assert (Hbad : ~ In "turbo"
                   (Spec.advertised
                      (Py.strip ("quiet balanced performance" ++ newline)))).
  { vm_compute. intros [H|[H|[H|[]]]]; discriminate H. }
  destruct (Hno _ eq_refl eq_refl ltac:(vm_compute; discriminate) Hbad)
    as [H1 H2].
  split; [exact H1 |]. split; [exact H2 |].
  refine (proj1 (Hyes _ eq_refl eq_refl _)).
  right. eexists. split; [reflexivity |]. split; [reflexivity |].
  right. vm_compute. tauto.
Defined.

(** X6.  Where the base directory of the module exists, the window and
    the helper find the same fan attribute: the one of [predator_sense] when
    that directory exists, else the one of [nitro_sense]; when the
    directory that was chosen has no [fan_speed], neither falls back to the
    other directory: the helper exits with status 2 and the window has no
    path. *)
Theorem fan_path_agreement (w : world) :
  (forall p,
      fs w SYSFS_BASE <> None ->
      fst (_fan_path w) = Ok p
      <-> nekroctl_gui.detect_sense_fan_path (fs w) = Some p)
  /\ (fs w SYSFS_BASE = None ->
      nekroctl_gui.detect_sense_fan_path (fs w) = None)
  /\ (fs w SENSE_PRED <> None ->
      fs w (os_path_join SENSE_PRED "fan_speed") = None ->
      fst (_fan_path w) = Raise (SystemExit (ExitInt 2))
      /\ nekroctl_gui.detect_sense_fan_path (fs w) = None)
  /\ (fs w SYSFS_BASE <> None ->
      fs w SENSE_PRED <> None ->
      fs w (os_path_join SENSE_PRED "fan_speed") <> None ->
      fst (_fan_path w) = Ok (os_path_join SENSE_PRED "fan_speed")
      /\ nekroctl_gui.detect_sense_fan_path (fs w)
         = Some (os_path_join SENSE_PRED "fan_speed"))
  /\ (fs w SYSFS_BASE <> None ->
      fs w SENSE_PRED = None ->
      fs w SENSE_NITRO <> None ->
      fs w (os_path_join SENSE_NITRO "fan_speed") <> None ->
      fst (_fan_path w) = Ok (os_path_join SENSE_NITRO "fan_speed")
      /\ nekroctl_gui.detect_sense_fan_path (fs w)
         = Some (os_path_join SENSE_NITRO "fan_speed"))
  /\ fs (snd (_fan_path w)) = fs w.
Proof.
  unfold nekroctl_gui.detect_sense_fan_path, nekroctl_gui.path_exists.
  unfold _fan_path. open_ops; tidy.
  destruct (fs w SYSFS_BASE) as [b|] eqn:Hb;
    destruct (fs w SENSE_PRED) as [d1|] eqn:H1; tidy;
    [ destruct (fs w (os_path_join SENSE_PRED "fan_speed")) eqn:H2; tidy
    | destruct (fs w SENSE_NITRO) as [d2|] eqn:H3; tidy;
      [ destruct (fs w (os_path_join SENSE_NITRO "fan_speed")) eqn:H4; tidy |]
    | destruct (fs w (os_path_join SENSE_PRED "fan_speed")) eqn:H2; tidy
    | destruct (fs w SENSE_NITRO) as [d2|] eqn:H3; tidy;
      [ destruct (fs w (os_path_join SENSE_NITRO "fan_speed")) eqn:H4; tidy |] ];
    repeat split; try congruence; try discriminate;
    try (intros; exfalso; congruence).
Qed.

Lemma fan_path_agreement_witness :
  fs Sample.world_module SYSFS_BASE <> None
  /\ fst (_fan_path Sample.world_module)
     = Ok (os_path_join SENSE_PRED "fan_speed")
  /\ nekroctl_gui.detect_sense_fan_path (fs Sample.world_module)
     = Some (os_path_join SENSE_PRED "fan_speed").
Proof.
  assert (H : fs Sample.world_module SYSFS_BASE <> None)
    by (intros E; vm_compute in E; discriminate E).
  split; [exact H |]. split; [reflexivity |].
  apply (proj1 (fan_path_agreement Sample.world_module)); [exact H |].
  reflexivity.
Defined.

Lemma battery_limit_path_fs (w : world) :
  fs (snd (_battery_limit_path w)) = fs w.
Proof. open_ops; tidy; repeat (split_step; tidy); reflexivity. Qed.

Lemma bind_ok {A B} (m : M A) (k : A -> M B) (w w' : world) (b : B) :
  bind m k w = (Ok b, w') ->
  exists a w1, m w = (Ok a, w1) /\ k a w1 = (Ok b, w').
Proof.
  unfold bind. destruct (m w) as [[a|e] w1]; [eauto | discriminate].
Qed.

Lemma lift_ok {A} (r : result A) (w w' : world) (a : A) :
  lift r w = (Ok a, w') -> r = Ok a /\ w' = w.
Proof. unfold lift. now intros [= -> <-]. Qed.

(** Where [_fan_path] returns, it has found the attribute of one of the
    two directories and has changed no file. *)
Lemma fan_path_ok (w w1 : world) (p : string) :
  _fan_path w = (Ok p, w1) ->
  fs w1 = fs w
  /\ (p = os_path_join SENSE_PRED "fan_speed"
      \/ p = os_path_join SENSE_NITRO "fan_speed").
Proof.
  open_ops; tidy; repeat (split_step; tidy);
    intros [= <- <-]; tidy; auto.
Qed.

Lemma write_report_ok (p text report : string) (w w' : world) :
  bind (_write_text p text) (fun _ => print report) w = (Ok tt, w') ->
  exists n,
    fs w p = Some n /\ w_acc n = Granted
    /\ fs w' = Spec.with_content (fs w) p text
    /\ stdout w' = (stdout w ++ [Line report])%list.
Proof.
  open_ops; tidy. destruct (fs w p) as [n|] eqn:Hn; tidy; [| discriminate].
  destruct (w_acc n) eqn:Hacc; tidy; try discriminate.
  intros [= <-]. exists n. tidy. auto.
Qed.

(** X18.  Whenever [fan set] succeeds, however its values were given,
    it has written one line [cpu,gpu] to the [fan_speed] attribute of
    [predator_sense] or [nitro_sense], with both numbers from 0 to 100,
    and has reported these two numbers: a value out of range is never
    written. *)
Theorem fan_set_writes_in_range (a : fan_args) (w : world) :
  fst (cmd_fan_set a w) = Ok tt ->
  exists p n cpu gpu,
    0 <= cpu <= 100 /\ 0 <= gpu <= 100
    /\ (p = os_path_join SENSE_PRED "fan_speed"
        \/ p = os_path_join SENSE_NITRO "fan_speed")
    /\ fs w p = Some n /\ w_acc n = Granted
    /\ fs (snd (cmd_fan_set a w))
       = Spec.with_content (fs w) p
           (Py.str cpu ++ "," ++ Py.str gpu ++ newline)
    /\ stdout (snd (cmd_fan_set a w))
       = (stdout w
          ++ [Line ("OK: fan set CPU=" ++ Py.str cpu
                    ++ " GPU=" ++ Py.str gpu)])%list.
Proof.
  destruct (cmd_fan_set a w) as [r w'] eqn:E. cbn [fst snd].
  intros ->. unfold cmd_fan_set in E.
  apply bind_ok in E as (p & w1 & Hp & E). cbv zeta in E.
  apply bind_ok in E as (cg & w2 & Hcg & E).
  apply bind_ok in E as (cg' & w3 & Hcg' & E).
  apply bind_ok in E as (cpu & w4 & Hcpu & E).
  apply bind_ok in E as (gpu & w5 & Hgpu & E).
  apply lift_ok in Hcpu as [Hcpu ->]. apply lift_ok in Hgpu as [Hgpu ->].
  assert (H2 : w2 = w1).
  { revert Hcg. destruct (fan_values a) as [|v1 [|v2 [|v3 vs]]];
      unfold bind, ret, lift, exit_msg, raise;
      repeat match goal with
             | |- context [_parse_percent_or_auto ?v] =>
                 destruct (_parse_percent_or_auto v)
             end; intros [= _ <-] || discriminate; reflexivity. }
  assert (H3 : w3 = w2).
  { revert Hcg'. destruct cg as [[c|] [g|]];
      unfold bind, ret, lift, exit_msg, raise;
      repeat match goal with
             | |- context [_parse_percent_or_auto ?v] =>
                 destruct (_parse_percent_or_auto v)
             end; intros [= _ <-] || discriminate; reflexivity. }
  subst w3 w2.
  destruct (fan_path_ok w w1 p Hp) as [Hfs Hpath].
  destruct (write_report_ok _ _ _ _ _ E) as (n & Hn & Hacc & Hw & Hout).
  apply parse_percent_range in Hcpu, Hgpu.
  exists p, n, cpu, gpu. rewrite Hfs in Hn, Hw.
  split; [lia |]. split; [lia |]. split; [exact Hpath |].
  split; [exact Hn |]. split; [exact Hacc |]. split; [exact Hw |].
  rewrite Hout. f_equal.
  revert Hp. open_ops; tidy; repeat (split_step; tidy);
    intros [= _ <-]; reflexivity.
Qed.

Lemma fan_set_writes_in_range_witness :
  let a := {| fan_values := ["auto"; " 55 "]; fan_cpu := None;
              fan_gpu := None |} in
  fst (cmd_fan_set a Sample.world_root) = Ok tt
  /\ exists p n cpu gpu,
       0 <= cpu <= 100 /\ 0 <= gpu <= 100
       /\ fs Sample.world_root p = Some n
       /\ fs (snd (cmd_fan_set a Sample.world_root))
          = Spec.with_content (fs Sample.world_root) p
              (Py.str cpu ++ "," ++ Py.str gpu ++ newline).
Proof.
  intros a. split; [reflexivity |].
  destruct (fan_set_writes_in_range a Sample.world_root eq_refl)
    as (p & n & cpu & gpu & Hc & Hg & _ & Hn & _ & Hw & _).
  exists p, n, cpu, gpu. auto.
Defined.

Ltac stderr_done :=
  learn; unfold Spec.stderr_effect; tidy;
  first
    [ reflexivity
    | eexists; reflexivity
    | left; reflexivity
    | right; eexists; reflexivity
    | match goal with
      | H : Spec.plain_error ?e |- _ =>
          destruct e as [[| |[|? ?]]| | | |]; cbn [Spec.plain_error] in H;
          first [contradiction | reflexivity]
      end ].

Ltac stderr_run := open_ops; tidy; repeat (split_step; tidy); stderr_done.

Lemma stderr_effect_func (c : command) (w : world) :
  Spec.stderr_effect w (func c w).
Proof.
  destruct c as [a| |a| | | |m| |a| | |a| | | |m|prog]; cbn [func].
  - unfold cmd_rgb_per_zone. stderr_run.
  - unfold cmd_rgb_per_zone_get. stderr_run.
  - unfold cmd_rgb_effect. stderr_run.
  - unfold cmd_rgb_effect_get. stderr_run.
  - unfold cmd_power_get. stderr_run.
  - unfold cmd_power_list. stderr_run.
  - destruct m as [m|]; cbn [_power_set_wrapper];
      [unfold cmd_power_set |]; stderr_run.
  - unfold cmd_logo_get. stderr_run.
  - unfold _logo_set_wrapper, cmd_logo_set. stderr_run.
  - unfold cmd_fan_get. stderr_run.
  - unfold cmd_fan_auto. stderr_run.
  - unfold _fan_set_wrapper, cmd_fan_set. stderr_run.
  - unfold cmd_battery_get. stderr_run.
  - unfold cmd_battery_on. stderr_run.
  - unfold cmd_battery_off. stderr_run.
  - destruct m as [m|]; cbn [_battery_set_wrapper]; [| stderr_run].
    unfold cmd_battery_set.
    destruct (_parse_on_off m) as [v|e] eqn:Hv;
      [| apply parse_on_off_raises in Hv; subst e]; stderr_run.
  - stderr_run.
Qed.

Lemma query_refused_silently (c : command) (w : world) :
  Spec.is_query c = true ->
  fst (func c w) = Raise PermissionError ->
  stderr (snd (func c w)) = stderr w.
Proof.
  destruct c; try discriminate; intros _; cbn [func].
  - unfold cmd_rgb_per_zone_get. open_ops; tidy;
      repeat (split_step; tidy); intros E; first [discriminate E | reflexivity].
  - unfold cmd_rgb_effect_get. open_ops; tidy;
      repeat (split_step; tidy); intros E; first [discriminate E | reflexivity].
  - unfold cmd_power_get. open_ops; tidy;
      repeat (split_step; tidy); intros E; first [discriminate E | reflexivity].
  - unfold cmd_power_list. open_ops; tidy;
      repeat (split_step; tidy); intros E; first [discriminate E | reflexivity].
  - unfold cmd_logo_get. open_ops; tidy;
      repeat (split_step; tidy); intros E; first [discriminate E | reflexivity].
  - unfold cmd_fan_get. open_ops; tidy;
      repeat (split_step; tidy); intros E; first [discriminate E | reflexivity].
  - unfold cmd_battery_get. open_ops; tidy;
      repeat (split_step; tidy); intros E; first [discriminate E | reflexivity].
Qed.

(** What a command line that was parsed leaves on standard error. *)
Lemma leaf_reports_on_stderr (c : command) (w : world) :
  let r := main (Parsed c) w in
  (fst r = 0 -> stderr (snd r) = stderr w)
  /\ (fst r = 2 ->
      exists line, stderr (snd r) = (stderr w ++ [line])%list)
  /\ (fst r = 3 ->
      stderr (snd r) = stderr w
      \/ exists path,
           stderr (snd r)
           = (stderr w
              ++ [("Permission denied writing to " ++ path
                   ++ ". Try running with sudo/root." ++ newline)%string])%list)
  /\ (fst r = 3 -> Spec.is_query c = true -> stderr (snd r) = stderr w)
  /\ (forall msg,
        fst (func c w) = Raise (SystemExit (ExitStr msg)) ->
        fst r = 1 /\ stderr (snd r) = stderr w /\ stdout (snd r) = stdout w)
  /\ (forall msg,
        fst (func c w) = Raise (ValueError msg) ->
        fst r = 1
        /\ stderr (snd r)
           = (stderr w ++ [("Error: " ++ msg ++ newline)%string])%list).
Proof.
  cbv zeta. rewrite main_parsed.
  pose proof (stderr_effect_func c w) as Herr.
  pose proof (query_refused_silently c w) as Hquery.
  destruct (classified_func c w) as (evs & outs & _ & Hout & H).
  unfold Spec.stderr_effect in Herr.
  destruct (func c w) as [[u|e] w1]; cbn [fst snd] in *.
  - split; [intros _; exact Herr |].
    split; [intros E; discriminate E |].
    split; [intros E; discriminate E |].
    split; [intros E; discriminate E |].
    split; intros msg E; discriminate E.
  - destruct H as (Hnil & H). subst outs. rewrite app_nil_r in Hout.
    assert (He : e = SystemExit (ExitInt 2) \/ e = PermissionError
                 \/ Spec.plain_error e) by tauto.
    clear H.
    destruct e as [[|z|[|ch s]]|m|m| |m]; cbn [Spec.plain_error] in He;
      cbn [fst snd exit_status stderr_write stderr stdout].
    + exfalso. destruct He as [E|[E|[]]]; discriminate E.
    + assert (z = 2) as ->
        by (destruct He as [E|[E|[]]]; [now injection E | discriminate E]).
      split; [intros E; discriminate E |]. split; [intros _; exact Herr |].
      split; [intros E; discriminate E |].
      split; [intros E; discriminate E |].
      split; intros msg E; discriminate E.
    + exfalso. destruct He as [E|[E|[]]]; discriminate E.
    + assert (Hcap : Spec.is_capital ch = true)
        by (destruct He as [E|[E|E]]; [discriminate E .. | exact E]).
      rewrite int_of_message by exact Hcap.
      split; [intros E; discriminate E |].
      split; [intros E; discriminate E |].
      split; [intros E; discriminate E |].
      split; [intros E; discriminate E |].
      split; [intros msg _; auto | intros msg E; discriminate E].
    + split; [intros E; discriminate E |].
      split; [intros E; discriminate E |].
      split; [intros E; discriminate E |].
      split; [intros E; discriminate E |].
      split; [intros msg E; discriminate E |].
      intros msg [= <-]. rewrite Herr. auto.
    + exfalso. destruct He as [E|[E|[]]]; discriminate E.
    + split; [intros E; discriminate E |].
      split; [intros E; discriminate E |].
      split; [intros _; exact Herr |].
      split; [intros _ Hq; exact (Hquery Hq eq_refl) |].
      split; intros msg E; discriminate E.
    + split; [intros E; discriminate E |].
      split; [intros E; discriminate E |].
      split; [intros E; discriminate E |].
      split; [intros E; discriminate E |].
      split; intros msg E; discriminate E.
Qed.

(** X20.  What [main] leaves on standard error.  With status 0 it has
    written nothing there.  With status 2 it has written one line when a
    leaf stopped at a missing path, and the usage and the message of the
    parser when the command line was rejected.  With status 3 it has
    written the line of a refused write or, when it was a read that was
    refused, nothing: a [get] or [list] that is refused says nothing at
    all.  When a leaf exits with a message, as the leaves do for a value
    out of range or a wrong number of colours, the status is 1 and the
    message is written nowhere, neither to standard error nor to standard
    output; when a validator raises [ValueError], the status is 1 and the
    line [Error: ...] with its message is written. *)
Theorem main_reports_on_stderr (argv : parse_result) (w : world) :
  let r := main argv w in
  (fst r = 0 -> stderr (snd r) = stderr w)
  /\ (fst r = 2 ->
      (exists c line,
         argv = Parsed c /\ stderr (snd r) = (stderr w ++ [line])%list)
      \/ (exists usage message,
            argv = Rejected usage message
            /\ stderr (snd r) = (stderr w ++ [usage; message])%list))
  /\ (fst r = 3 ->
      stderr (snd r) = stderr w
      \/ exists path,
           stderr (snd r)
           = (stderr w
              ++ [("Permission denied writing to " ++ path
                   ++ ". Try running with sudo/root." ++ newline)%string])%list)
  /\ (forall c, argv = Parsed c ->
      fst r = 3 -> Spec.is_query c = true -> stderr (snd r) = stderr w)
  /\ (forall c msg,
        argv = Parsed c ->
        fst (func c w) = Raise (SystemExit (ExitStr msg)) ->
        fst r = 1 /\ stderr (snd r) = stderr w /\ stdout (snd r) = stdout w)
  /\ (forall c msg,
        argv = Parsed c ->
        fst (func c w) = Raise (ValueError msg) ->
        fst r = 1
        /\ stderr (snd r)
           = (stderr w ++ [("Error: " ++ msg ++ newline)%string])%list).
Proof.
  cbv zeta. destruct argv as [c|usage message|prog].
  - destruct (leaf_reports_on_stderr c w) as (H0 & H2 & H3 & Hq & Hm & Hv).
    split; [exact H0 |].
    split; [intros E; left; destruct (H2 E) as [line Hl]; eauto |].
    split; [exact H3 |].
    split; [intros c' [= <-]; exact Hq |].
    split; [intros c' msg [= <-]; apply Hm | intros c' msg [= <-]; apply Hv].
  - rewrite main_rejected. cbn [fst snd stderr].
    split; [discriminate |].
    split; [intros _; right; exists usage, message;
            rewrite <- app_assoc; auto |].
    split; [discriminate |].
    split; [intros c E; discriminate E |].
    split; intros c msg E; discriminate E.
  - rewrite main_help_shown. cbn [fst snd stderr].
    split; [reflexivity |].
    split; [discriminate |].
    split; [discriminate |].
    split; [intros c E; discriminate E |].
    split; intros c msg E; discriminate E.
Qed.

Lemma main_reports_on_stderr_witness :
  let c := LogoSet {| lg_color := "00aaff"; lg_brightness := Some 250;
                      lg_on := false; lg_off := false |} in
  fst (func c Sample.world_root)
  = Raise (SystemExit (ExitStr "Brightness must be 0-100"))
  /\ fst (main (Parsed c) Sample.world_root) = 1
  /\ stderr (snd (main (Parsed c) Sample.world_root)) = []
  /\ stdout (snd (main (Parsed c) Sample.world_root)) = [].
Proof.
  intros c.
  assert (H : fst (func c Sample.world_root)
              = Raise (SystemExit (ExitStr "Brightness must be 0-100")))
    by reflexivity.
  split; [exact H |].
  destruct (main_reports_on_stderr (Parsed c) Sample.world_root)
    as (_ & _ & _ & _ & Hmsg & _).
  exact (Hmsg c _ eq_refl H).
Defined.

End ExitCodes.

(** ** The change coalescer *)

Section Debounce.

Import nekroctl_gui.

Variable view : Type.
Variable compute_args : view -> option (list string).
Variable applied_text : string.

Local Abbreviation gui := (gui view).
Local Abbreviation step := (step view compute_args applied_text).
Local Abbreviation run := (run view compute_args applied_text).
Local Abbreviation started_by := (started_by view compute_args applied_text).
Local Abbreviation _apply_now := (_apply_now view compute_args).
Local Abbreviation _touch := (_touch view).
Local Abbreviation _tick := (_tick view compute_args).
Local Abbreviation expected := (Spec.expected_dispatch compute_args).
Local Abbreviation pending := (@Spec.pending view).

Lemma apply_now_effect (g : gui) :
  started (_apply_now g)
  = (started g ++ expected (last_args (co g)) (widgets g))%list
  /\ co (_apply_now g) = co g
  /\ widgets (_apply_now g) = widgets g.
Proof.
  unfold nekroctl_gui._apply_now, Spec.expected_dispatch, run_privileged_async.
  destruct (compute_args (widgets g)) as [[|a args]|]; cbn;
    try (rewrite app_nil_r; auto).
  destruct (last_args (co g)) as [l|]; [| auto].
  destruct (String.eqb _ l); cbn; [rewrite app_nil_r |]; auto.
Qed.

Lemma touch_effect (now : Z) (g : gui) :
  timer_id (co (_touch now g)) <> None
  /\ last_change (co (_touch now g)) = now
  /\ last_args (co (_touch now g)) = last_args (co g)
  /\ started (_touch now g) = started g
  /\ widgets (_touch now g) = widgets g.
Proof.
  unfold nekroctl_gui._touch. cbn.
  destruct (timer_id (co g)) eqn:Ht; cbn; rewrite ?Ht;
    repeat split; auto; discriminate.
Qed.

Lemma tick_fires (now : Z) (g : gui) :
  DELAY_US <= now - last_change (co g) ->
  timer_id (co (_tick now g)) = None
  /\ last_args (co (_tick now g)) = last_args (co g)
  /\ started (_tick now g)
     = (started g ++ expected (last_args (co g)) (widgets g))%list
  /\ widgets (_tick now g) = widgets g.
Proof.
  intros H. unfold nekroctl_gui._tick.
  apply Z.leb_le in H. rewrite H.
  destruct (apply_now_effect g) as (Hs & Hc & Hw).
  cbn. rewrite Hc, Hs, Hw. auto.
Qed.

Lemma tick_waits (now : Z) (g : gui) :
  now - last_change (co g) < DELAY_US -> _tick now g = g.
Proof.
  intros H. unfold nekroctl_gui._tick.
  apply Z.leb_gt in H. now rewrite H.
Qed.

Lemma run_app (g : gui) (a b : list (ui_event view)) :
  run g (a ++ b) = run (run g a) b.
Proof. apply fold_left_app. Qed.

Lemma done_effect (g : gui) (k : nat) (ok : bool) (msg : string) :
  timer_id (co (step g (Finished k ok msg))) = timer_id (co g)
  /\ last_change (co (step g (Finished k ok msg))) = last_change (co g)
  /\ started (step g (Finished k ok msg)) = started g
  /\ widgets (step g (Finished k ok msg)) = widgets g.
Proof.
  cbn [nekroctl_gui.step].
  destruct (nth_error (started g) k) as [[a sig]|]; [| auto].
  unfold _done. destruct ok; cbn; auto.
Qed.

(** Before the intent that follows, the settle period has not passed. *)
Lemma burst_lookahead (es : list (ui_event view)) (p now : Z) :
  Spec.burst_ok (Some p) now es = true ->
  Spec.last_intent es <> None ->
  now - p < DELAY_US.
Proof.
  revert now. induction es as [|e es IH]; intros now Hok Hlast.
  - contradiction.
  - destruct e as [t v|t|k ok msg]; cbn [Spec.burst_ok] in Hok.
    + apply andb_true_iff in Hok as [Hok _].
      apply andb_true_iff in Hok as [H1 H2]. lia.
    + apply andb_true_iff in Hok as [H1 H2].
      assert (Hes : Spec.last_intent es <> None).
      { cbn [Spec.last_intent] in Hlast. destruct es; [contradiction | exact Hlast]. }
      specialize (IH t H2 Hes). lia.
    + apply (IH now Hok).
      cbn [Spec.last_intent] in Hlast. destruct es; [contradiction | exact Hlast].
Qed.

(** Nothing is sent during a burst; at its end the timer is pending, the
    clock reference is the time of the last intent and the widgets show
    what the last intent left. *)
Lemma burst_sends_nothing (es : list (ui_event view)) :
  forall (g : gui) (prev : option Z) (now tN : Z) (vN : view),
    Spec.burst_ok prev now es = true ->
    Spec.last_intent es = Some (tN, vN) ->
    pending prev g ->
    timer_id (co (run g es)) <> None
    /\ last_change (co (run g es)) = tN
    /\ widgets (run g es) = vN
    /\ started (run g es) = started g.
Proof.
  induction es as [|e es IH]; intros g prev now tN vN Hok Hlast Hpend.
  - discriminate.
  - destruct e as [t v|t|k ok msg]; cbn [Spec.burst_ok] in Hok.
    + apply andb_true_iff in Hok as [_ Hok].
      destruct (touch_effect t (set_widgets view v g))
        as (Ht & Hc & Ha & Hs & Hw).
      cbn [set_widgets started co widgets] in Ha, Hs, Hw.
      cbn [nekroctl_gui.run fold_left nekroctl_gui.step].
      destruct es as [|e' es'].
      * cbn [Spec.last_intent] in Hlast. injection Hlast as <- <-.
        cbn [fold_left]. repeat split; auto.
      * assert (Hlast' : Spec.last_intent (e' :: es') = Some (tN, vN))
          by exact Hlast.
        destruct (IH (_touch t (set_widgets view v g)) (Some t) t tN vN
                    Hok Hlast' (conj Ht Hc)) as (H1 & H2 & H3 & H4).
        unfold nekroctl_gui.run in *. repeat split; auto; congruence.
    + apply andb_true_iff in Hok as [_ Hok].
      destruct es as [|e' es']; [discriminate |].
      assert (Hlast' : Spec.last_intent (e' :: es') = Some (tN, vN))
        by exact Hlast.
      assert (Hstep : step g (Tick t) = g).
      { cbn [nekroctl_gui.step]. destruct prev as [p|]; cbn [Spec.pending] in Hpend.
        - destruct Hpend as [Hp Hc].
          destruct (timer_id (co g)); [| contradiction].
          apply tick_waits. rewrite Hc.
          eapply burst_lookahead; [exact Hok |]. rewrite Hlast'. discriminate.
        - now rewrite Hpend. }
      cbn [nekroctl_gui.run fold_left]. rewrite Hstep.
      exact (IH g prev t tN vN Hok Hlast' Hpend).
    + destruct es as [|e' es']; [discriminate |].
      assert (Hlast' : Spec.last_intent (e' :: es') = Some (tN, vN))
        by exact Hlast.
      destruct (done_effect g k ok msg) as (Ht & Hc & Hs & Hw).
      assert (Hpend' : pending prev (step g (Finished k ok msg))).
      { destruct prev as [p|]; cbn [Spec.pending] in *.
        - rewrite Ht, Hc. exact Hpend.
        - rewrite Ht. exact Hpend. }
      destruct (IH (step g (Finished k ok msg)) prev now tN vN
                  Hok Hlast' Hpend') as (H1 & H2 & H3 & H4).
      change (run g (Finished k ok msg :: e' :: es'))
        with (run (step g (Finished k ok msg)) (e' :: es')).
      repeat split; auto; congruence.
Qed.

(** While the settle period has not passed since the last change, the
    timer stays pending and nothing is sent. *)
Lemma wait_phase (es : list (ui_event view)) :
  forall (g : gui) (tN : Z),
    timer_id (co g) <> None ->
    last_change (co g) = tN ->
    Spec.waits tN es = true ->
    timer_id (co (run g es)) <> None
    /\ last_change (co (run g es)) = tN
    /\ widgets (run g es) = widgets g
    /\ started (run g es) = started g.
Proof.
  induction es as [|e es IH]; intros g tN Ht Hc Hw; [cbn; auto |].
  unfold Spec.waits in Hw. cbn [forallb] in Hw.
  apply andb_true_iff in Hw as [He Hw].
  change (run g (e :: es)) with (run (step g e) es).
  destruct e as [t v|t|k ok msg]; [discriminate | |].
  - assert (Hstep : step g (Tick t) = g).
    { cbn [nekroctl_gui.step]. destruct (timer_id (co g)); [| contradiction].
      apply tick_waits. apply Z.ltb_lt in He. lia. }
    rewrite Hstep. exact (IH g tN Ht Hc Hw).
  - destruct (done_effect g k ok msg) as (Ht' & Hc' & Hs' & Hw').
    destruct (IH (step g (Finished k ok msg)) tN) as (H1 & H2 & H3 & H4);
      [rewrite Ht'; exact Ht | rewrite Hc'; exact Hc | exact Hw |].
    repeat split; auto; congruence.
Qed.

(** With no timer registered and no widget changing, nothing is sent. *)
Lemma idle_phase (es : list (ui_event view)) :
  forall g : gui,
    timer_id (co g) = None ->
    Spec.no_intent es = true ->
    timer_id (co (run g es)) = None
    /\ started (run g es) = started g.
Proof.
  induction es as [|e es IH]; intros g Ht Hn; [cbn; auto |].
  unfold Spec.no_intent in Hn. cbn [forallb] in Hn.
  apply andb_true_iff in Hn as [He Hn].
  change (run g (e :: es)) with (run (step g e) es).
  destruct e as [t v|t|k ok msg]; [discriminate | |].
  - assert (Hstep : step g (Tick t) = g)
      by (cbn [nekroctl_gui.step]; now rewrite Ht).
    rewrite Hstep. exact (IH g Ht Hn).
  - destruct (done_effect g k ok msg) as (Ht' & _ & Hs' & _).
    destruct (IH (step g (Finished k ok msg))) as (H1 & H2);
      [rewrite Ht'; exact Ht | exact Hn |].
    split; [exact H1 | congruence].
Qed.

(** Only a completion changes the arguments that were applied last. *)
Lemma keeps_baseline (es : list (ui_event view)) :
  forall g : gui,
    Spec.no_completion es = true ->
    last_args (co (run g es)) = last_args (co g).
Proof.
  induction es as [|e es IH]; intros g Hn; [reflexivity |].
  unfold Spec.no_completion in Hn. cbn [forallb] in Hn.
  apply andb_true_iff in Hn as [He Hn].
  change (run g (e :: es)) with (run (step g e) es).
  rewrite (IH (step g e) Hn).
  destruct e as [t v|t|k ok msg]; [| | discriminate].
  - cbn [nekroctl_gui.step].
    apply (touch_effect t (set_widgets view v g)).
  - cbn [nekroctl_gui.step]. destruct (timer_id (co g)); [| reflexivity].
    destruct (Z.leb_spec DELAY_US (t - last_change (co g))) as [Hle|Hlt].
    + apply (tick_fires t g Hle).
    + now rewrite tick_waits by lia.
Qed.

(** A whole burst, from its first intent, in any state. *)
Lemma burst_whole (g : gui) (t1 : Z) (v1 : view) (rest : list (ui_event view))
  (tN : Z) (vN : view) :
  Spec.burst_ok (Some t1) t1 rest = true ->
  Spec.last_intent (Intent t1 v1 :: rest) = Some (tN, vN) ->
  timer_id (co (run g (Intent t1 v1 :: rest))) <> None
  /\ last_change (co (run g (Intent t1 v1 :: rest))) = tN
  /\ widgets (run g (Intent t1 v1 :: rest)) = vN
  /\ started (run g (Intent t1 v1 :: rest)) = started g.
Proof.
  intros Hok Hlast.
  destruct (touch_effect t1 (set_widgets view v1 g))
    as (Ht & Hc & _ & Hs & Hw).
  cbn [set_widgets started co widgets] in Hs, Hw.
  change (run g (Intent t1 v1 :: rest))
    with (run (_touch t1 (set_widgets view v1 g)) rest).
  destruct rest as [|e rest'].
  - cbn [Spec.last_intent] in Hlast. injection Hlast as <- <-.
    cbn. auto.
  - assert (Hlast' : Spec.last_intent (e :: rest') = Some (tN, vN))
      by exact Hlast.
    destruct (burst_sends_nothing (e :: rest')
                (_touch t1 (set_widgets view v1 g)) (Some t1) t1 tN vN
                Hok Hlast' (conj Ht Hc)) as (H1 & H2 & H3 & H4).
    repeat split; auto; congruence.
Qed.

Lemma skipn_app_exact {A} (l x : list A) :
  skipn (List.length l) (l ++ x) = x.
Proof. induction l as [|a l IH]; [reflexivity | exact IH]. Qed.

(** A change of the widgets and a poll of the timer a settle period or
    more later: the widgets are applied once. *)
Lemma intent_then_tick (g : gui) (t t' : Z) (v : view) :
  DELAY_US <= t' - t ->
  let g2 := step (step g (Intent t v)) (Tick t') in
  timer_id (co g2) = None
  /\ last_args (co g2) = last_args (co g)
  /\ started g2 = (started g ++ expected (last_args (co g)) v)%list
  /\ widgets g2 = v.
Proof.
  intros Hd. cbv zeta.
  destruct (touch_effect t (set_widgets view v g))
    as (Ht & Hc & Ha & Hs & Hw).
  cbn [set_widgets started co widgets] in Ha, Hs, Hw.
  cbn [nekroctl_gui.step].
  destruct (timer_id (co (_touch t (set_widgets view v g))));
    [| contradiction].
  destruct (tick_fires t' (_touch t (set_widgets view v g)) ltac:(lia))
    as (Hn & Ha' & Hs' & Hw').
  rewrite Hn, Ha', Hs', Hw', Ha, Hs, Hw. auto.
Qed.

Lemma expected_cases (baseline : option string) (v : view) :
  expected baseline v = []
  \/ exists a args,
       compute_args v = Some (a :: args)
       /\ expected baseline v = [(a :: args, Py.join " " (a :: args))].
Proof.
  unfold Spec.expected_dispatch.
  destruct (compute_args v) as [[|a args]|]; auto.
  destruct baseline as [l|];
    [destruct (String.eqb _ l); auto |]; right; exists a, args; auto.
Qed.

Lemma expected_shape (baseline : option string) (v : view) :
  (List.length (expected baseline v) <= 1)%nat
  /\ Forall Spec.well_formed (expected baseline v).
Proof.
  unfold Spec.expected_dispatch.
  destruct (compute_args v) as [[|a args]|]; cbn; auto.
  assert (Hwf : Spec.well_formed (a :: args, Py.join " " (a :: args)))
    by (split; [discriminate | reflexivity]).
  destruct baseline as [l|]; [destruct (String.eqb _ l) |]; cbn; auto.
Qed.

(** One turn of the main loop starts at most one invocation, and only by
    using up the timer that an intent registered. *)
Lemma step_budget (g : gui) (e : ui_event view) :
  exists new,
    started (step g e) = (started g ++ new)%list
    /\ (List.length new + Spec.timers (step g e)
        <= Spec.intents [e] + Spec.timers g)%nat
    /\ Forall Spec.well_formed new.
Proof.
  destruct e as [t v|t|k ok msg]; cbn [nekroctl_gui.step Spec.intents].
  - exists []. rewrite app_nil_r.
    destruct (touch_effect t (set_widgets view v g)) as (Ht & _ & _ & Hs & _).
    cbn [set_widgets started] in Hs. unfold Spec.timers.
    destruct (timer_id (co (_touch t (set_widgets view v g))));
      [| contradiction].
    split; [exact Hs |]. split; [cbn; lia | constructor].
  - unfold Spec.timers.
    destruct (timer_id (co g)) eqn:Hid.
    + destruct (Z.leb_spec DELAY_US (t - last_change (co g))) as [Hle|Hlt].
      * destruct (tick_fires t g Hle) as (Hn & _ & Hs & _).
        destruct (expected_shape (last_args (co g)) (widgets g)) as [Hlen Hwf].
        exists (expected (last_args (co g)) (widgets g)).
        rewrite Hn. split; [exact Hs |]. split; [cbn; lia | exact Hwf].
      * rewrite tick_waits by lia. exists []. rewrite app_nil_r, Hid.
        split; [reflexivity |]. split; [cbn; lia | constructor].
    + exists []. rewrite app_nil_r, Hid.
      split; [reflexivity |]. split; [cbn; lia | constructor].
  - exists []. rewrite app_nil_r. unfold Spec.timers.
    destruct (nth_error (started g) k) as [[a sig]|];
      [unfold _done; destruct ok; cbn [started co timer_id] |];
      (split; [reflexivity |]; split; [cbn; lia | constructor]).
Qed.

Lemma run_budget (es : list (ui_event view)) :
  forall g : gui,
    exists new,
      started (run g es) = (started g ++ new)%list
      /\ (List.length new + Spec.timers (run g es)
          <= Spec.intents es + Spec.timers g)%nat
      /\ Forall Spec.well_formed new.
Proof.
  induction es as [|e es IH]; intros g.
  - exists []. rewrite app_nil_r. cbn. split; [reflexivity |].
    split; [lia | constructor].
  - destruct (step_budget g e) as (n1 & Hs1 & Hb1 & Hw1).
    destruct (IH (step g e)) as (n2 & Hs2 & Hb2 & Hw2).
    exists (n1 ++ n2)%list.
    change (run g (e :: es)) with (run (step g e) es).
    rewrite Hs2, Hs1, <- app_assoc. split; [reflexivity |].
    split; [| apply Forall_app; split; assumption].
    rewrite length_app.
    assert (Hi : Spec.intents (e :: es)
                 = (Spec.intents [e] + Spec.intents es)%nat)
      by (destruct e; reflexivity).
    lia.
Qed.

(** X10.  Over any sequence of widget changes, timer polls and
    completions, in any order and with any times, the coalescer starts at
    most as many invocations as there were changes, one more if a timer was
    pending at the start; and every invocation it starts has arguments that
    are not empty, recorded with the text that joins them. *)
Theorem invocations_bounded_by_changes
  (g : gui) (es : list (ui_event view)) :
  (List.length (started_by g es) <= Spec.intents es + Spec.timers g)%nat
  /\ Forall Spec.well_formed (started_by g es).
Proof.
  destruct (run_budget es g) as (new & Hs & Hb & Hw).
  unfold nekroctl_gui.started_by. rewrite Hs, skipn_app_exact.
  split; [lia | exact Hw].
Qed.

End Debounce.

(** ** Every setting key *)

Section SettingKeys.

Import nekroctl_gui.

Variable view : Type.
Variable compute_args : view -> option (list string).
Variable applied_text : string.

Local Abbreviation gui := (gui view).
Local Abbreviation step := (step view compute_args applied_text).
Local Abbreviation run := (run view compute_args applied_text).
Local Abbreviation started_by := (started_by view compute_args applied_text).
Local Abbreviation expected := (Spec.expected_dispatch compute_args).

Lemma compute_fans_args_some (v : fans_view) :
  exists a args, _compute_fans_args v = Some (a :: args).
Proof.
  unfold _compute_fans_args.
  destruct (cpu_auto_active v && gpu_auto_active v); eauto.
Qed.

Lemma schedule_effect (now : Z) (g : fans_gui) (prev : option Z) :
  Spec.fans_armed prev g ->
  Spec.fans_armed (Some now) (_schedule_apply_fans now g)
  /\ fans_started (_schedule_apply_fans now g) = fans_started g
  /\ fans_widgets (_schedule_apply_fans now g) = fans_widgets g.
Proof.
  intros [Hr Hs]. unfold _schedule_apply_fans, Spec.fans_armed. rewrite Hr.
  destruct prev as [p|].
  - destruct Hs as (id & Hsrc & Hid). rewrite Hid.
    cbn. rewrite Hsrc. cbn. rewrite Z.eqb_refl. cbn.
    repeat split; eauto.
  - destruct (fans_debounce_id g) as [id|]; cbn; rewrite Hs; cbn;
      repeat split; eauto.
Qed.

Lemma apply_fans_effect (g : fans_gui) :
  fans_refreshing g = false ->
  exists args,
    _compute_fans_args (fans_widgets g) = Some args
    /\ fans_started (_apply_fans_now g) = (fans_started g ++ [args])%list
    /\ fans_sources (_apply_fans_now g) = fans_sources g
    /\ fans_debounce_id (_apply_fans_now g) = fans_debounce_id g
    /\ fans_refreshing (_apply_fans_now g) = false
    /\ fans_widgets (_apply_fans_now g) = fans_widgets g.
Proof.
  intros Hr. unfold _apply_fans_now. rewrite Hr.
  destruct (compute_fans_args_some (fans_widgets g)) as (a & args & E).
  rewrite E. exists (a :: args). cbn. repeat split; auto.
Qed.

(** A timeout that is not due stays where it is. *)
Lemma dispatch_waits (now p : Z) (g : fans_gui) :
  Spec.fans_armed (Some p) g ->
  now - p < FANS_DELAY_MS * 1000 ->
  Spec.fans_armed (Some p) (fans_dispatch now g)
  /\ fans_started (fans_dispatch now g) = fans_started g
  /\ fans_widgets (fans_dispatch now g) = fans_widgets g.
Proof.
  intros (Hr & id & Hsrc & Hid) Hlt.
  unfold fans_dispatch, Spec.fans_armed. rewrite Hsrc.
  cbn [filter]. unfold fans_due. cbn [snd].
  apply Z.leb_gt in Hlt. rewrite Hlt. cbn.
  repeat split; eauto.
Qed.

Lemma dispatch_idle (now : Z) (g : fans_gui) :
  Spec.fans_armed None g ->
  Spec.fans_armed None (fans_dispatch now g)
  /\ fans_started (fans_dispatch now g) = fans_started g
  /\ fans_widgets (fans_dispatch now g) = fans_widgets g.
Proof.
  intros (Hr & Hsrc). unfold fans_dispatch, Spec.fans_armed.
  rewrite Hsrc. cbn. auto.
Qed.

(** A timeout that is due applies the widgets once and is gone. *)
Lemma dispatch_fires (now p : Z) (g : fans_gui) :
  Spec.fans_armed (Some p) g ->
  FANS_DELAY_MS * 1000 <= now - p ->
  Spec.fans_armed None (fans_dispatch now g)
  /\ (exists args,
         _compute_fans_args (fans_widgets g) = Some args
         /\ fans_started (fans_dispatch now g)
            = (fans_started g ++ [args])%list)
  /\ fans_widgets (fans_dispatch now g) = fans_widgets g.
Proof.
  intros (Hr & id & Hsrc & Hid) Hle.
  unfold fans_dispatch, Spec.fans_armed. rewrite Hsrc.
  cbn [filter]. unfold fans_due. cbn [snd].
  apply Z.leb_le in Hle. rewrite Hle. cbn [negb fold_left].
  match goal with
  | |- context [_apply_fans_now ?h] =>
      destruct (apply_fans_effect h Hr) as (args & E & Hs & Hsrc' & _ & Hr' & Hw)
  end.
  cbn [fans_widgets fans_started fans_sources] in E, Hs, Hsrc', Hw.
  rewrite Hr', Hsrc', Hw. repeat split; eauto.
Qed.

Lemma refresh_effect (now : Z) (shown : fans_view) (g : fans_gui)
  (prev : option Z) :
  Spec.fans_armed prev g ->
  Spec.fans_armed prev (fans_refresh now shown g)
  /\ fans_started (fans_refresh now shown g) = fans_started g
  /\ fans_widgets (fans_refresh now shown g) = shown.
Proof.
  intros [Hr Hs]. unfold fans_refresh, _schedule_apply_fans, Spec.fans_armed.
  cbn. auto.
Qed.

Lemma fans_done_effect (now : Z) (ok : bool) (msg : string)
  (shown : fans_view) (g : fans_gui) (prev : option Z) :
  Spec.fans_armed prev g ->
  Spec.fans_armed prev (_fans_done now ok msg shown g)
  /\ fans_started (_fans_done now ok msg shown g) = fans_started g
  /\ fans_widgets (_fans_done now ok msg shown g)
     = if ok then shown else fans_widgets g.
Proof.
  intros Ha. unfold _fans_done. destruct ok.
  - apply (refresh_effect now shown (fans_set_status _ g) prev). exact Ha.
  - destruct Ha as [Hr Hs]. unfold Spec.fans_armed. cbn. auto.
Qed.

Lemma fans_run_app (g : fans_gui) (a b : list fans_event) :
  fans_run g (a ++ b) = fans_run (fans_run g a) b.
Proof. apply fold_left_app. Qed.

(** Between two turns of the main loop no refresh is running and the
    page has at most the source that [fans_debounce_id] names. *)
Lemma fans_settled_run (es : list fans_event) :
  forall g : fans_gui, Spec.fans_settled g -> Spec.fans_settled (fans_run g es).
Proof.
  induction es as [|e es IH]; intros g Hg; [exact Hg |].
  change (fans_run g (e :: es)) with (fans_run (fans_step g e) es).
  apply IH. destruct Hg as [prev Ha].
  destruct e as [t v|t|t ok msg shown|t shown]; cbn [fans_step].
  - exists (Some t).
    apply (schedule_effect t (fans_set_widgets v g) prev). exact Ha.
  - destruct prev as [p|].
    + destruct (Z.leb_spec (FANS_DELAY_MS * 1000) (t - p)) as [Hle|Hlt].
      * exists None. apply (dispatch_fires t p g Ha Hle).
      * exists (Some p). apply (dispatch_waits t p g Ha Hlt).
    + exists None. apply (dispatch_idle t g Ha).
  - exists prev. apply (fans_done_effect t ok msg shown g prev Ha).
  - exists prev. apply (refresh_effect t shown g prev Ha).
Qed.

Lemma fans_burst_lookahead (es : list fans_event) (p now : Z) :
  Spec.fans_burst_ok (Some p) now es = true ->
  Spec.fans_last_intent es <> None ->
  now - p < FANS_DELAY_MS * 1000.
Proof.
  revert now. induction es as [|e es IH]; intros now Hok Hlast.
  - contradiction.
  - assert (Hes : forall e', Spec.fans_last_intent (e' :: es) <> None ->
                             es <> [] -> Spec.fans_last_intent es <> None).
    { intros e' H Hne. cbn [Spec.fans_last_intent] in H.
      destruct es; [contradiction | exact H]. }
    destruct e as [t v|t|t ok msg shown|t shown]; cbn [Spec.fans_burst_ok] in Hok.
    + apply andb_true_iff in Hok as [Hok _].
      apply andb_true_iff in Hok as [H1 H2]. lia.
    + apply andb_true_iff in Hok as [H1 H2].
      assert (Hne : es <> []) by (intros ->; apply Hlast; reflexivity).
      specialize (IH t H2 (Hes _ Hlast Hne)). lia.
    + assert (Hne : es <> []) by (intros ->; apply Hlast; reflexivity).
      exact (IH now Hok (Hes _ Hlast Hne)).
    + assert (Hne : es <> []) by (intros ->; apply Hlast; reflexivity).
      exact (IH now Hok (Hes _ Hlast Hne)).
Qed.

Lemma fans_burst_sends_nothing (es : list fans_event) :
  forall (g : fans_gui) (prev : option Z) (now tN : Z) (vN : fans_view),
    Spec.fans_burst_ok prev now es = true ->
    Spec.fans_last_intent es = Some (tN, vN) ->
    Spec.fans_armed prev g ->
    Spec.fans_armed (Some tN) (fans_run g es)
    /\ fans_widgets (fans_run g es) = vN
    /\ fans_started (fans_run g es) = fans_started g.
Proof.
  induction es as [|e es IH]; intros g prev now tN vN Hok Hlast Harm.
  - discriminate.
  - change (fans_run g (e :: es)) with (fans_run (fans_step g e) es).
    destruct es as [|e' es'].
    + destruct e as [t v|t|t ok msg shown|t shown]; try discriminate.
      cbn [Spec.fans_last_intent] in Hlast. injection Hlast as <- <-.
      cbn [fans_run fold_left fans_step].
      destruct (schedule_effect t (fans_set_widgets v g) prev Harm)
        as (H1 & H2 & H3).
      split; [exact H1 | split; [exact H3 | exact H2]].
    + assert (Hlast' : Spec.fans_last_intent (e' :: es') = Some (tN, vN))
        by exact Hlast.
      assert (Hsome : Spec.fans_last_intent (e' :: es') <> None)
        by (rewrite Hlast'; discriminate).
      clear Hlast. remember (e' :: es') as tl eqn:Htl. clear Htl.
      destruct e as [t v|t|t ok msg shown|t shown];
        cbn [Spec.fans_burst_ok] in Hok; cbn [fans_step].
      * apply andb_true_iff in Hok as [_ Hok].
        destruct (schedule_effect t (fans_set_widgets v g) prev Harm)
          as (H1 & H2 & H3).
        destruct (IH _ (Some t) t tN vN Hok Hlast' H1) as (K1 & K2 & K3).
        split; [exact K1 | split; [exact K2 | rewrite K3; exact H2]].
      * apply andb_true_iff in Hok as [_ Hok].
        destruct prev as [p|].
        -- pose proof (fans_burst_lookahead _ p t Hok Hsome) as Hlt.
           destruct (dispatch_waits t p g Harm Hlt) as (H1 & H2 & H3).
           destruct (IH _ (Some p) t tN vN Hok Hlast' H1) as (K1 & K2 & K3).
           split; [exact K1 | split; [exact K2 | rewrite K3; exact H2]].
        -- destruct (dispatch_idle t g Harm) as (H1 & H2 & H3).
           destruct (IH _ None t tN vN Hok Hlast' H1) as (K1 & K2 & K3).
           split; [exact K1 | split; [exact K2 | rewrite K3; exact H2]].
      * destruct (fans_done_effect t ok msg shown g prev Harm)
          as (H1 & H2 & H3).
        destruct (IH _ prev now tN vN Hok Hlast' H1) as (K1 & K2 & K3).
        split; [exact K1 | split; [exact K2 | rewrite K3; exact H2]].
      * destruct (refresh_effect t shown g prev Harm) as (H1 & H2 & H3).
        destruct (IH _ prev now tN vN Hok Hlast' H1) as (K1 & K2 & K3).
        split; [exact K1 | split; [exact K2 | rewrite K3; exact H2]].
Qed.

Lemma fans_wait_phase (es : list fans_event) :
  forall (g : fans_gui) (tN : Z),
    Spec.fans_armed (Some tN) g ->
    Spec.fans_waits tN es = true ->
    Spec.fans_armed (Some tN) (fans_run g es)
    /\ fans_started (fans_run g es) = fans_started g
    /\ (Spec.fans_no_refresh es = true ->
        fans_widgets (fans_run g es) = fans_widgets g).
Proof.
  induction es as [|e es IH]; intros g tN Harm Hw; [cbn; auto |].
  unfold Spec.fans_waits in Hw. cbn [forallb] in Hw.
  apply andb_true_iff in Hw as [He Hw].
  change (fans_run g (e :: es)) with (fans_run (fans_step g e) es).
  unfold Spec.fans_no_refresh. cbn [forallb].
  destruct e as [t v|t|t ok msg shown|t shown]; [discriminate | | |];
    cbn [fans_step].
  - apply Z.ltb_lt in He.
    destruct (dispatch_waits t tN g Harm He) as (H1 & H2 & H3).
    destruct (IH _ tN H1 Hw) as (K1 & K2 & K3).
    split; [exact K1 | split; [congruence |]].
    intros Hn. rewrite (K3 Hn). exact H3.
  - destruct (fans_done_effect t ok msg shown g (Some tN) Harm)
      as (H1 & H2 & H3).
    destruct (IH _ tN H1 Hw) as (K1 & K2 & K3).
    split; [exact K1 | split; [congruence |]].
    intros Hn. apply andb_true_iff in Hn as [Hok Hn].
    rewrite (K3 Hn), H3. destruct ok; [discriminate | reflexivity].
  - destruct (refresh_effect t shown g (Some tN) Harm) as (H1 & H2 & H3).
    destruct (IH _ tN H1 Hw) as (K1 & K2 & K3).
    split; [exact K1 | split; [congruence |]].
    intros Hn. discriminate.
Qed.

Lemma fans_idle_phase (es : list fans_event) :
  forall g : fans_gui,
    Spec.fans_armed None g ->
    Spec.fans_no_intent es = true ->
    Spec.fans_armed None (fans_run g es)
    /\ fans_started (fans_run g es) = fans_started g.
Proof.
  induction es as [|e es IH]; intros g Harm Hn; [cbn; auto |].
  unfold Spec.fans_no_intent in Hn. cbn [forallb] in Hn.
  apply andb_true_iff in Hn as [He Hn].
  change (fans_run g (e :: es)) with (fans_run (fans_step g e) es).
  destruct e as [t v|t|t ok msg shown|t shown]; [discriminate | | |];
    cbn [fans_step].
  - destruct (dispatch_idle t g Harm) as (H1 & H2 & _).
    destruct (IH _ H1 Hn) as (K1 & K2). split; [exact K1 | congruence].
  - destruct (fans_done_effect t ok msg shown g None Harm) as (H1 & H2 & _).
    destruct (IH _ H1 Hn) as (K1 & K2). split; [exact K1 | congruence].
  - destruct (refresh_effect t shown g None Harm) as (H1 & H2 & _).
    destruct (IH _ H1 Hn) as (K1 & K2). split; [exact K1 | congruence].
Qed.

(** No refresh is running between two turns of the main loop of the
    power page. *)
Lemma power_step_refreshing (g : power_gui) (e : power_event) :
  power_refreshing g = false -> power_refreshing (power_step g e) = false.
Proof.
  intros Hr.
  destruct e as [i|b|sel ok msg|val ok msg|cs i b]; cbn [power_step].
  - unfold _apply_power_from_combo. cbn. rewrite Hr.
    destruct (choices g); [exact Hr |].
    destruct (nth_error _ _) as [sel|]; [| exact Hr].
    destruct (Py.truthy sel); exact Hr.
  - unfold _on_battery_toggle. cbn. rewrite Hr. exact Hr.
  - unfold _power_done. destruct ok; exact Hr.
  - unfold _battery_done. destruct ok; [exact Hr |]. cbn. exact Hr.
  - reflexivity.
Qed.

Lemma power_run_refreshing (es : list power_event) :
  forall g : power_gui,
    power_refreshing g = false -> power_refreshing (power_run g es) = false.
Proof.
  induction es as [|e es IH]; intros g Hr; [exact Hr |].
  apply (IH (power_step g e)). apply power_step_refreshing. exact Hr.
Qed.

Lemma battery_toggles (bs : list bool) :
  forall g : power_gui,
    power_refreshing g = false ->
    power_started (power_run g (map BatteryToggled bs))
    = (power_started g ++ map Spec.battery_args bs)%list.
Proof.
  induction bs as [|b bs IH]; intros g Hr.
  - cbn. now rewrite app_nil_r.
  - cbn [map].
    change (power_run g (BatteryToggled b :: map BatteryToggled bs))
      with (power_run (power_step g (BatteryToggled b)) (map BatteryToggled bs)).
    rewrite IH by (apply power_step_refreshing; exact Hr).
    cbn [power_step]. unfold _on_battery_toggle. cbn. rewrite Hr. cbn.
    now rewrite <- app_assoc.
Qed.

Lemma profile_selections (rows : list nat) :
  forall g : power_gui,
    power_refreshing g = false ->
    Forall (Spec.offered (choices g)) rows ->
    power_started (power_run g (map ProfileSelected rows))
    = (power_started g ++ map (Spec.profile_args (choices g)) rows)%list.
Proof.
  induction rows as [|i rows IH]; intros g Hr Hrows.
  - cbn. now rewrite app_nil_r.
  - inversion Hrows as [|? ? (sel & Hsel & Hne) Hrest]; subst.
    cbn [map].
    change (power_run g (ProfileSelected i :: map ProfileSelected rows))
      with (power_run (power_step g (ProfileSelected i))
              (map ProfileSelected rows)).
    assert (Hstep : power_step g (ProfileSelected i)
                    = power_run_privileged_async ["power"; "set"; sel]
                        (power_set_selected i g)).
    { cbn [power_step]. unfold _apply_power_from_combo. cbn. rewrite Hr.
      destruct (choices g) as [|c cs] eqn:Hcs;
        [destruct i; discriminate Hsel |].
      rewrite Hsel.
      destruct sel as [|c0 sel0]; [contradiction | reflexivity]. }
    rewrite Hstep, IH; [| exact Hr | exact Hrest].
    cbn. unfold Spec.profile_args at 2.
    rewrite (nth_error_nth _ _ "" Hsel). now rewrite <- app_assoc.
Qed.

(** A change on the fans page and the main loop 400 ms or more later:
    the widgets are sent, whatever was sent before. *)
Lemma fans_intent_then_timeout (g : fans_gui) (prev : option Z) (t t' : Z)
  (v : fans_view) :
  Spec.fans_armed prev g ->
  FANS_DELAY_MS * 1000 <= t' - t ->
  let g2 := fans_step (fans_step g (FansIntent t v)) (FansTimeout t') in
  Spec.fans_armed None g2
  /\ fans_widgets g2 = v
  /\ fans_started g2
     = (fans_started g
        ++ match _compute_fans_args v with
           | Some args => [args]
           | None => []
           end)%list.
Proof.
  intros Harm Hd. cbv zeta. cbn [fans_step].
  destruct (schedule_effect t (fans_set_widgets v g) prev Harm)
    as (H1 & H2 & H3).
  cbn [fans_set_widgets fans_started fans_widgets] in H2, H3.
  destruct (dispatch_fires t' t _ H1 Hd) as (K1 & (args & Hargs & K2) & K3).
  rewrite H3 in Hargs, K3. rewrite H2 in K2.
  split; [exact K1 |]. split; [exact K3 |].
  now rewrite Hargs.
Qed.

(** C4.  When the timer elapses and the arguments computed from the
    widgets are the ones applied last, nothing is started; a completion
    that reports success makes the arguments of its invocation the ones
    applied last, and a completion that reports failure leaves them and
    shows the message as an error.  The same widgets applied twice, each
    time by a change and the poll that follows the settle period, start
    what the first poll starts when the completion of that invocation
    reports success in between, and start it twice when no completion or
    a completion that reports failure comes in between.  The fans page
    keeps no record of what was applied: the same widgets applied twice
    start two invocations, also when the first has reported success. *)
Theorem coalescer_drops_applied_payload :
  (forall (g : gui) (now : Z) (a : string) (args : list string),
      timer_id (co g) <> None ->
      DELAY_US <= now - last_change (co g) ->
      compute_args (widgets g) = Some (a :: args) ->
      last_args (co g) = Some (Py.join " " (a :: args)) ->
      started (step g (Tick now)) = started g
      /\ timer_id (co (step g (Tick now))) = None
      /\ last_args (co (step g (Tick now))) = last_args (co g))
  /\ (forall (g : gui) (k : nat) (args : list string) (sig msg : string),
        nth_error (started g) k = Some (args, sig) ->
        last_args (co (step g (Finished k true msg))) = Some sig
        /\ started (step g (Finished k true msg)) = started g)
  /\ (forall (g : gui) (k : nat) (args : list string) (sig msg : string),
        nth_error (started g) k = Some (args, sig) ->
        last_args (co (step g (Finished k false msg))) = last_args (co g)
        /\ started (step g (Finished k false msg)) = started g
        /\ status (step g (Finished k false msg))
           = Some {| status_text := msg; status_error := true |})
  /\ (forall (g : gui) (v : view) (t1 t1' t2 t2' : Z) (msg : string),
        DELAY_US <= t1' - t1 ->
        DELAY_US <= t2' - t2 ->
        started_by g
          [Intent t1 v; Tick t1';
           Finished (List.length (started g)) true msg;
           Intent t2 v; Tick t2']
        = expected (last_args (co g)) v)
  /\ (forall (g : gui) (v : view) (t1 t1' t2 t2' : Z) (msg : string),
        DELAY_US <= t1' - t1 ->
        DELAY_US <= t2' - t2 ->
        started_by g [Intent t1 v; Tick t1'; Intent t2 v; Tick t2']
        = (expected (last_args (co g)) v
           ++ expected (last_args (co g)) v)%list
        /\ started_by g
             [Intent t1 v; Tick t1';
              Finished (List.length (started g)) false msg;
              Intent t2 v; Tick t2']
           = (expected (last_args (co g)) v
              ++ expected (last_args (co g)) v)%list)
  /\ (forall (v0 : fans_view) (hist : list fans_event) (v : fans_view)
             (t1 t1' t2 t2' now : Z) (msg : string),
        let g := fans_run (fans_init v0) hist in
        FANS_DELAY_MS * 1000 <= t1' - t1 ->
        FANS_DELAY_MS * 1000 <= t2' - t2 ->
        exists args,
          _compute_fans_args v = Some args
          /\ fans_started_by g
               [FansIntent t1 v; FansTimeout t1';
                FansFinished now true msg v;
                FansIntent t2 v; FansTimeout t2']
             = [args; args]).
Proof.
  split; [| split; [| split; [| split; [| split]]]].
  - intros g now a args Htimer Hdelay Hargs Hlast.
    cbn [nekroctl_gui.step].
    destruct (timer_id (co g)) eqn:Hid; [| contradiction].
    destruct (tick_fires view compute_args now g Hdelay) as (Hn & Ha & Hs & _).
    rewrite Hs, Hn, Ha. unfold Spec.expected_dispatch.
    rewrite Hargs, Hlast, String.eqb_refl, app_nil_r. auto.
  - intros g k args sig msg Hk. cbn [nekroctl_gui.step]. rewrite Hk.
    split; reflexivity.
  - intros g k args sig msg Hk. cbn [nekroctl_gui.step]. rewrite Hk.
    repeat split; reflexivity.
  - intros g v t1 t1' t2 t2' msg Hd1 Hd2.
    unfold nekroctl_gui.started_by.
    cbn [nekroctl_gui.run fold_left].
    destruct (intent_then_tick view compute_args applied_text g t1 t1' v Hd1) as (Hn2 & Ha2 & Hs2 & Hw2).
    set (g2 := step (step g (Intent t1 v)) (Tick t1')) in *.
    set (g3 := step g2 (Finished (List.length (started g)) true msg)).
    destruct (intent_then_tick view compute_args applied_text g3 t2 t2' v Hd2) as (_ & _ & Hs4 & _).
    rewrite Hs4.
    assert (H3 : started g3 = started g2
                 /\ expected (last_args (co g3)) v = []).
    { unfold g3. cbn [nekroctl_gui.step]. rewrite Hs2.
      destruct (expected_cases view compute_args (last_args (co g)) v)
        as [E|(a & args & Hargs & E)]; rewrite E.
      - rewrite app_nil_r.
        rewrite (proj2 (nth_error_None (started g) _)) by lia.
        rewrite Hs2, E, app_nil_r, Ha2, E. auto.
      - rewrite nth_error_app2, Nat.sub_diag by lia.
        cbn [nth_error nekroctl_gui._done started co last_args].
        rewrite Hs2, E. split; [reflexivity |].
        unfold Spec.expected_dispatch.
        now rewrite Hargs, String.eqb_refl. }
    destruct H3 as [Hs3 He3].
    rewrite He3, app_nil_r, Hs3, Hs2. apply skipn_app_exact.
  - intros g v t1 t1' t2 t2' msg Hd1 Hd2.
    unfold nekroctl_gui.started_by.
    cbn [nekroctl_gui.run fold_left].
    destruct (intent_then_tick view compute_args applied_text g t1 t1' v Hd1) as (Hn2 & Ha2 & Hs2 & Hw2).
    set (g2 := step (step g (Intent t1 v)) (Tick t1')) in *.
    split.
    + destruct (intent_then_tick view compute_args applied_text g2 t2 t2' v Hd2) as (_ & _ & Hs4 & _).
      rewrite Hs4, Ha2, Hs2, <- app_assoc. apply skipn_app_exact.
    + set (g3 := step g2 (Finished (List.length (started g)) false msg)).
      destruct (intent_then_tick view compute_args applied_text g3 t2 t2' v Hd2) as (_ & _ & Hs4 & _).
      rewrite Hs4.
      assert (H3 : started g3 = started g2
                   /\ last_args (co g3) = last_args (co g2)).
      { unfold g3. cbn [nekroctl_gui.step].
        destruct (nth_error (started g2) _) as [[a sig]|];
          [cbn |]; auto. }
      destruct H3 as [Hs3 Ha3].
      rewrite Ha3, Hs3, Ha2, Hs2, <- app_assoc. apply skipn_app_exact.
  - intros v0 hist v t1 t1' t2 t2' now msg g Hd1 Hd2.
    assert (Hg : Spec.fans_settled g).
    { apply fans_settled_run. exists None. split; reflexivity. }
    destruct Hg as [prev Harm].
    destruct (compute_fans_args_some v) as (a & rest & Hargs).
    exists (a :: rest). split; [exact Hargs |].
    unfold fans_started_by. cbn [fans_run fold_left].
    destruct (fans_intent_then_timeout g prev t1 t1' v Harm Hd1)
      as (Ha2 & Hw2 & Hs2).
    set (g2 := fans_step (fans_step g (FansIntent t1 v)) (FansTimeout t1'))
      in *.
    destruct (fans_done_effect now true msg v g2 None Ha2)
      as (Ha3 & Hs3 & _).
    set (g3 := fans_step g2 (FansFinished now true msg v)).
    change (_fans_done now true msg v g2) with g3 in Ha3, Hs3.
    destruct (fans_intent_then_timeout g3 None t2 t2' v Ha3 Hd2)
      as (_ & _ & Hs4).
    rewrite Hs4, Hs3, Hs2, Hargs, <- app_assoc. apply skipn_app_exact.
Qed.

(** C3, as the code has it.  The per-zone, effect and back-logo keys
    share the coalescer: in any state, a burst of intents whose gaps are
    shorter than the settle period sends nothing while it lasts, whatever
    completions arrive; nothing is sent while the polls of the timer come
    less than a settle period after the last intent; the first poll that
    comes a settle period or more after it sends the arguments computed
    from what the last intent left, once, unless there are none or they
    are the ones applied last at that poll, and clears the timer; nothing
    more is sent until a widget changes; and every intent sets the clock
    reference of the timer to its own time.  On the fans page every intent
    replaces the one timeout; when the timeout of the last intent fires,
    exactly one invocation is started, with the arguments computed from
    what the widgets then show, which is what the last intent left unless
    a refresh ran after it.  On the power page every toggle of the battery
    switch and every selection of an offered profile starts an invocation
    at once. *)
Theorem debounce_burst :
  (forall (g : gui) (t1 : Z) (v1 : view) (rest pre post : list (ui_event view))
          (t tN : Z) (vN : view),
      let burst := Intent t1 v1 :: rest in
      Spec.burst_ok (Some t1) t1 rest = true ->
      Spec.last_intent burst = Some (tN, vN) ->
      Spec.waits tN pre = true ->
      DELAY_US <= t - tN ->
      Spec.no_intent post = true ->
      started_by g burst = []
      /\ started_by g (burst ++ pre) = []
      /\ started_by g (burst ++ pre ++ Tick t :: post)
         = expected (last_args (co (run g (burst ++ pre)))) vN
      /\ (Spec.no_completion (burst ++ pre) = true ->
          last_args (co (run g (burst ++ pre))) = last_args (co g))
      /\ (List.length (started_by g (burst ++ pre ++ Tick t :: post)) <= 1)%nat
      /\ timer_id (co (run g (burst ++ pre ++ Tick t :: post))) = None
      /\ (forall (g' : gui) (now : Z) (v : view),
             last_change (co (step g' (Intent now v))) = now))
  /\ (forall (v0 : fans_view) (hist : list fans_event) (t1 : Z)
             (v1 : fans_view) (rest pre post : list fans_event)
             (t tN : Z) (vN : fans_view),
         let g := fans_run (fans_init v0) hist in
         let burst := FansIntent t1 v1 :: rest in
         Spec.fans_burst_ok (Some t1) t1 rest = true ->
         Spec.fans_last_intent burst = Some (tN, vN) ->
         Spec.fans_waits tN pre = true ->
         FANS_DELAY_MS * 1000 <= t - tN ->
         Spec.fans_no_intent post = true ->
         fans_started_by g burst = []
         /\ fans_started_by g (burst ++ pre) = []
         /\ (exists args,
                _compute_fans_args (fans_widgets (fans_run g (burst ++ pre)))
                = Some args
                /\ fans_started_by g (burst ++ pre ++ FansTimeout t :: post)
                   = [args])
         /\ (Spec.fans_no_refresh pre = true ->
             fans_widgets (fans_run g (burst ++ pre)) = vN)
         /\ (exists id, fans_sources (fans_run g burst) = [(id, tN)]))
  /\ (forall (cs0 : list string) (i0 : nat) (b0 : bool)
             (hist : list power_event) (bs : list bool) (rows : list nat),
         let g := power_run (power_init cs0 i0 b0) hist in
         power_started_by g (map BatteryToggled bs)
         = map Spec.battery_args bs
         /\ (Forall (Spec.offered (choices g)) rows ->
             power_started_by g (map ProfileSelected rows)
             = map (Spec.profile_args (choices g)) rows)).
Proof.
  split; [| split].
  - intros g t1 v1 rest pre post t tN vN burst Hok Hlast Hwait Hsettle Hpost.
    destruct (burst_whole view compute_args applied_text g t1 v1 rest tN vN
                Hok Hlast) as (Ht & Hc & Hw & Hs).
    fold burst in Ht, Hc, Hw, Hs.
    destruct (wait_phase view compute_args applied_text pre (run g burst) tN
                Ht Hc Hwait) as (Ht2 & Hc2 & Hw2 & Hs2).
    rewrite <- (run_app view compute_args applied_text) in Ht2, Hc2, Hw2, Hs2.
    set (g2 := run g (burst ++ pre)) in *.
    assert (Hfire : timer_id (co (step g2 (Tick t))) = None
                    /\ started (step g2 (Tick t))
                       = (started g ++ expected (last_args (co g2)) vN)%list).
    { cbn [nekroctl_gui.step].
      destruct (timer_id (co g2)); [| contradiction].
      destruct (tick_fires view compute_args t g2 ltac:(lia))
        as (Hn & _ & Hst & _).
      rewrite Hn, Hst, Hs2, Hs, Hw2, Hw. auto. }
    destruct Hfire as [Hn3 Hs3].
    destruct (idle_phase view compute_args applied_text post
                (step g2 (Tick t)) Hn3 Hpost) as (Hn4 & Hs4).
    assert (Hrun : run g (burst ++ pre ++ Tick t :: post)
                   = run (step g2 (Tick t)) post).
    { rewrite app_assoc, (run_app view compute_args applied_text).
      reflexivity. }
    assert (Hsent : started_by g (burst ++ pre ++ Tick t :: post)
                    = expected (last_args (co g2)) vN).
    { unfold nekroctl_gui.started_by. rewrite Hrun, Hs4, Hs3.
      apply skipn_app_exact. }
    split.
    { unfold nekroctl_gui.started_by. rewrite Hs.
      rewrite <- (app_nil_r (started g)) at 2. apply skipn_app_exact. }
    split.
    { unfold nekroctl_gui.started_by. fold g2. rewrite Hs2, Hs.
      rewrite <- (app_nil_r (started g)) at 2. apply skipn_app_exact. }
    split; [exact Hsent |].
    split; [apply keeps_baseline |].
    split.
    { rewrite Hsent.
      apply (expected_shape view compute_args (last_args (co g2)) vN). }
    split; [rewrite Hrun; exact Hn4 |].
    intros g' now v. cbn [nekroctl_gui.step].
    apply (touch_effect view now (set_widgets view v g')).
  - intros v0 hist t1 v1 rest pre post t tN vN g burst
      Hok Hlast Hwait Hdue Hpost.
    assert (Hg : Spec.fans_settled g).
    { apply fans_settled_run. exists None. split; reflexivity. }
    destruct Hg as [prev Harm].
    destruct (schedule_effect t1 (fans_set_widgets v1 g) prev Harm)
      as (H1 & H2 & H3).
    cbn [fans_set_widgets fans_started fans_widgets] in H2, H3.
    assert (Hb : Spec.fans_armed (Some tN) (fans_run g burst)
                 /\ fans_widgets (fans_run g burst) = vN
                 /\ fans_started (fans_run g burst) = fans_started g).
    { change (fans_run g burst)
        with (fans_run (_schedule_apply_fans t1 (fans_set_widgets v1 g)) rest).
      destruct rest as [|e rest'].
      - cbn [Spec.fans_last_intent] in Hlast. injection Hlast as <- <-.
        cbn [fans_run fold_left].
        split; [exact H1 | split; [exact H3 | exact H2]].
      - destruct (fans_burst_sends_nothing (e :: rest') _ (Some t1) t1 tN vN
                    Hok Hlast H1) as (K1 & K2 & K3).
        split; [exact K1 | split; [exact K2 | rewrite K3; exact H2]]. }
    destruct Hb as (Ha1 & Hw1 & Hs1).
    destruct (fans_wait_phase pre (fans_run g burst) tN Ha1 Hwait)
      as (Ha2 & Hs2 & Hw2).
    rewrite <- fans_run_app in Ha2, Hs2, Hw2.
    set (g2 := fans_run g (burst ++ pre)) in *.
    destruct (dispatch_fires t tN g2 Ha2 Hdue)
      as (Ha3 & (args & Hargs & Hs3) & _).
    destruct (fans_idle_phase post (fans_dispatch t g2) Ha3 Hpost)
      as (_ & Hs4).
    split.
    { unfold fans_started_by. rewrite Hs1.
      rewrite <- (app_nil_r (fans_started g)) at 2. apply skipn_app_exact. }
    split.
    { unfold fans_started_by. fold g2. rewrite Hs2, Hs1.
      rewrite <- (app_nil_r (fans_started g)) at 2. apply skipn_app_exact. }
    split.
    { exists args. split; [exact Hargs |].
      unfold fans_started_by.
      rewrite app_assoc, fans_run_app. fold g2.
      change (fans_run g2 (FansTimeout t :: post))
        with (fans_run (fans_dispatch t g2) post).
      rewrite Hs4, Hs3, Hs2, Hs1. apply skipn_app_exact. }
    split.
    { intros Hn. rewrite (Hw2 Hn). exact Hw1. }
    destruct Ha1 as (_ & id & Hsrc & _). exists id. exact Hsrc.
  - intros cs0 i0 b0 hist bs rows g.
    assert (Hr : power_refreshing g = false)
      by (apply power_run_refreshing; reflexivity).
    split.
    + unfold power_started_by. rewrite battery_toggles by exact Hr.
      apply skipn_app_exact.
    + intros Hrows. unfold power_started_by.
      rewrite profile_selections by assumption.
      apply skipn_app_exact.
Qed.

End SettingKeys.

(** ** The pages at work *)

Section PerZoneCoalescer.

Import nekroctl_gui.

Lemma debounce_burst_witness :
  let g := init per_zone_view (Sample.single_color "ff0000" 50) in
  let burst := [Intent 0 (Sample.single_color "ff0000" 40);
                Tick 100000;
                Intent 150000 (Sample.single_color "ff0000" 50)] in
  let pre := [Tick 200000; Tick 300000; Tick 400000; Tick 500000] in
  let fans := fans_run (fans_init (Sample.both_fans 30)) [] in
  let fans_burst := [FansIntent 0 (Sample.both_fans 40);
                     FansTimeout 100000;
                     FansIntent 150000 (Sample.both_fans 50)] in
  let power := power_run (power_init ["balanced"; "performance"] 0 false) [] in
  per_zone_started_by g burst = []
  /\ per_zone_started_by g (burst ++ pre ++ [Tick 600000])
     = [(["rgb"; "per-zone"; "ff0000"; "ff0000"; "ff0000"; "ff0000";
          "-b"; "50"],
         "rgb per-zone ff0000 ff0000 ff0000 ff0000 -b 50")]
  /\ effect_started_by (init effect_view (Sample.effect_mode 3))
       ([Intent 0 (Sample.effect_mode 2); Intent 100000 (Sample.effect_mode 6)]
        ++ [] ++ [Tick 500000])
     = [(["rgb"; "effect"; "meteor"; "-s"; "1"; "-b"; "100"; "-d"; "2"],
         "rgb effect meteor -s 1 -b 100 -d 2")]
  /\ logo_started_by (init logo_view (Sample.logo_on "00aaff" 100))
       ([Intent 0 (Sample.logo_on "00aaff" 60);
         Intent 100000 (Sample.logo_on "00aaff" 30)]
        ++ [] ++ [Tick 500000])
     = [(["logo"; "set"; "00aaff"; "-b"; "30"; "--on"],
         "logo set 00aaff -b 30 --on")]
  /\ fans_started_by fans fans_burst = []
  /\ fans_started_by fans
       (fans_burst ++ [FansTimeout 500000] ++ [FansTimeout 600000])
     = [["fan"; "set"; "--cpu"; "50"; "--gpu"; "50"]]
  /\ power_started_by power (map BatteryToggled [true; false])
     = [["battery"; "on"]; ["battery"; "off"]]
  /\ power_started_by power (map ProfileSelected [1%nat; 0%nat])
     = [["power"; "set"; "performance"]; ["power"; "set"; "balanced"]].
Proof.
  intros g burst pre fans fans_burst power.
  destruct (debounce_burst per_zone_view _compute_per_zone_args
              "Keyboard static colors applied") as (Hkeys & Hfans & Hpower).
  destruct (Hkeys g 0 (Sample.single_color "ff0000" 40)
              [Tick 100000; Intent 150000 (Sample.single_color "ff0000" 50)]
              pre [] 600000 150000 (Sample.single_color "ff0000" 50)
              eq_refl eq_refl eq_refl ltac:(vm_compute; discriminate) eq_refl)
    as (Hduring & _ & Hafter & _).
  destruct (Hfans (Sample.both_fans 30) [] 0 (Sample.both_fans 40)
              [FansTimeout 100000; FansIntent 150000 (Sample.both_fans 50)]
              [FansTimeout 500000] [] 600000 150000 (Sample.both_fans 50)
              eq_refl eq_refl eq_refl ltac:(vm_compute; discriminate) eq_refl)
    as (Hfduring & _ & (args & Hargs & Hfafter) & _).
  destruct (Hpower ["balanced"; "performance"] 0%nat false [] [true; false]
              [1%nat; 0%nat]) as (Hbat & Hprof).
  destruct (debounce_burst effect_view _compute_effect_args
              "Keyboard effect applied") as (Heffect & _).
  destruct (Heffect (init effect_view (Sample.effect_mode 3)) 0
              (Sample.effect_mode 2) [Intent 100000 (Sample.effect_mode 6)]
              [] [] 500000 100000 (Sample.effect_mode 6)
              eq_refl eq_refl eq_refl ltac:(vm_compute; discriminate) eq_refl)
    as (_ & _ & Heafter & _).
  destruct (debounce_burst logo_view _compute_logo_args "Back logo updated")
    as (Hlogo & _).
  destruct (Hlogo (init logo_view (Sample.logo_on "00aaff" 100)) 0
              (Sample.logo_on "00aaff" 60)
              [Intent 100000 (Sample.logo_on "00aaff" 30)]
              [] [] 500000 100000 (Sample.logo_on "00aaff" 30)
              eq_refl eq_refl eq_refl ltac:(vm_compute; discriminate) eq_refl)
    as (_ & _ & Hlafter & _).
  split; [exact Hduring |].
  split; [exact Hafter |].
  split; [exact Heafter |].
  split; [exact Hlafter |].
  split; [exact Hfduring |].
  split.
  { vm_compute in Hargs. injection Hargs as <-. exact Hfafter. }
  split; [exact Hbat |].
  apply Hprof.
  repeat (apply Forall_cons; [eexists; split; [reflexivity | discriminate] |]).
  apply Forall_nil.
Defined.

(** C3 as it is stated fails for each kind of key.  After the payload
    for brightness 50 was applied, a burst of two per-zone intents, to
    brightness 51 and back to 50 within the settle period, is followed by
    no write at all.  On the fans page a write of 50 that completes with
    success during the settle period of an intent for 60 refreshes the
    widgets to 50, and the write after the burst carries 50.  On the power
    page two toggles of the battery switch, or two selections of a
    profile, start two invocations at once. *)
Lemma debounce_unchanged_counterexample :
  (let v50 := Sample.single_color "ff0000" 50 in
   let v51 := Sample.single_color "ff0000" 51 in
   let g1 := per_zone_run (init per_zone_view v50)
               [Intent 0 v50; Tick 400000;
                Finished 0 true "OK: per-zone colors set"] in
   let burst := [Intent 1000000 v51; Intent 1100000 v50] in
   let pre := [Tick 1200000; Tick 1300000; Tick 1400000] in
   last_args (co g1)
   = Some "rgb per-zone ff0000 ff0000 ff0000 ff0000 -b 50"
   /\ Spec.burst_ok (Some 1000000) 1000000 [Intent 1100000 v50] = true
   /\ Spec.last_intent burst = Some (1100000, v50)
   /\ Spec.waits 1100000 pre = true
   /\ per_zone_started_by g1 (burst ++ pre ++ [Tick 1500000]) = []
   /\ List.length (per_zone_started_by g1 (burst ++ pre ++ [Tick 1500000]))
      <> 1%nat)
  /\ (let v50 := Sample.both_fans 50 in
      let v60 := Sample.both_fans 60 in
      let g1 := fans_run (fans_init v50)
                  [FansIntent 0 v50; FansTimeout 400000] in
      let burst := [FansIntent 1000000 v60] in
      let pre := [FansFinished 1100000 true "OK: fan_speed set" v50] in
      fans_started g1 = [["fan"; "set"; "--cpu"; "50"; "--gpu"; "50"]]
      /\ Spec.fans_last_intent burst = Some (1000000, v60)
      /\ Spec.fans_waits 1000000 pre = true
      /\ _compute_fans_args v60
         = Some ["fan"; "set"; "--cpu"; "60"; "--gpu"; "60"]
      /\ fans_started_by g1 (burst ++ pre ++ [FansTimeout 1400000])
         = [["fan"; "set"; "--cpu"; "50"; "--gpu"; "50"]])
  /\ (let g := power_init ["balanced"; "performance"] 0 false in
      power_started_by g [BatteryToggled true; BatteryToggled false]
      = [["battery"; "on"]; ["battery"; "off"]]
      /\ power_started_by g [ProfileSelected 1; ProfileSelected 0]
         = [["power"; "set"; "performance"]; ["power"; "set"; "balanced"]]
      /\ List.length
           (power_started_by g [BatteryToggled true; BatteryToggled false])
         <> 1%nat).
Proof.
  cbv zeta. repeat split; try reflexivity; vm_compute; discriminate.
Qed.

(** C4 as it is stated fails: the same payload applied twice, with no
    other intent in between, starts two invocations when the first has not
    completed, or has failed, by the time the timer elapses again; and on
    the fans page it starts two invocations also when the first has
    reported success. *)
Lemma coalescer_in_flight_counterexample :
  let v := Sample.single_color "ff0000" 50 in
  let inv := (["rgb"; "per-zone"; "ff0000"; "ff0000"; "ff0000"; "ff0000";
               "-b"; "50"],
              "rgb per-zone ff0000 ff0000 ff0000 ff0000 -b 50") in
  per_zone_started_by (init per_zone_view v)
    [Intent 0 v; Tick 400000; Intent 1000000 v; Tick 1400000]
  = [inv; inv]
  /\ per_zone_started_by (init per_zone_view v)
       [Intent 0 v; Tick 400000; Finished 0 false "Failed with code 1";
        Intent 1000000 v; Tick 1400000]
     = [inv; inv]
  /\ List.length
       (per_zone_started_by (init per_zone_view v)
          [Intent 0 v; Tick 400000; Intent 1000000 v; Tick 1400000])
     <> 1%nat
  /\ fans_started_by (fans_init (Sample.both_fans 50))
       [FansIntent 0 (Sample.both_fans 50); FansTimeout 400000;
        FansFinished 500000 true "OK: fan_speed set" (Sample.both_fans 50);
        FansIntent 1000000 (Sample.both_fans 50); FansTimeout 1400000]
     = [["fan"; "set"; "--cpu"; "50"; "--gpu"; "50"];
        ["fan"; "set"; "--cpu"; "50"; "--gpu"; "50"]].
Proof.
  cbv zeta. repeat split; try reflexivity. vm_compute. discriminate.
Qed.

Lemma coalescer_drops_applied_payload_witness :
  let v := Sample.single_color "ff0000" 50 in
  per_zone_started_by (init per_zone_view v)
    [Intent 0 v; Tick 400000; Finished 0 true "OK: per-zone colors set";
     Intent 1000000 v; Tick 1400000]
  = [(["rgb"; "per-zone"; "ff0000"; "ff0000"; "ff0000"; "ff0000";
       "-b"; "50"],
      "rgb per-zone ff0000 ff0000 ff0000 ff0000 -b 50")].
Proof.
  intros v.
  destruct (coalescer_drops_applied_payload per_zone_view
              _compute_per_zone_args "Keyboard static colors applied")
    as (_ & _ & _ & Htwice & _).
  exact (Htwice (init per_zone_view v) v 0 400000 1000000 1400000
           "OK: per-zone colors set"
           ltac:(vm_compute; discriminate) ltac:(vm_compute; discriminate)).
Defined.

End PerZoneCoalescer.

(** ** Colours as text and as bytes *)

Section Colours.

Import nekroctl.

Lemma lower_hex_char_facts (c : ascii) :
  Spec.is_lower_hex_digit c = true ->
  Py.isspace c = false /\ Py.lower_char c = c
  /\ Spec.is_hex_digit c = true /\ Ascii.eqb c "#" = false
  /\ Ascii.eqb c "," = false.
Proof.
  destruct c as [[] [] [] [] [] [] [] []]; intros H;
    try (vm_compute in H; discriminate H); repeat split.
Qed.

Lemma parse_hex_color_inv (s c : string) :
  _parse_hex_color s = Ok c ->
  exists r, Spec.is_hex6 r /\ c = Py.lower r.
Proof.
  unfold _parse_hex_color. rewrite strip_hash_code.
  destruct (_ || _) eqn:H; [discriminate |].
  intros [= <-]. eexists. split; [| reflexivity]. now apply is_hex6_dec.
Qed.

Lemma parse_hex_color_color (s c : string) :
  _parse_hex_color s = Ok c -> Spec.is_color c.
Proof.
  intros H. destruct (parse_hex_color_inv s c H) as (r & [Hlen Hall] & ->).
  split; [now rewrite lower_length | now apply lower_hex].
Qed.

Lemma color_plain (c : string) :
  Spec.is_color c ->
  Py.strip c = c /\ Py.lower c = c /\ Spec.strip_hash c = c
  /\ Spec.is_hex6 c.
Proof.
  intros [Hlen Hall].
  assert (H1 : Py.strip c = c).
  { apply strip_nonspace. eapply all_char_impl; [| exact Hall].
    intros x Hx. destruct (lower_hex_char_facts x Hx) as (-> & _). reflexivity. }
  assert (H2 : Py.lower c = c).
  { apply lower_fixed. eapply all_char_impl; [| exact Hall].
    intros x Hx. destruct (lower_hex_char_facts x Hx) as (_ & -> & _).
    apply Ascii.eqb_refl. }
  assert (H3 : Spec.strip_hash c = c).
  { destruct c as [|x c']; [reflexivity |].
    simpl in Hall. apply andb_true_iff in Hall as [Hx _].
    destruct (lower_hex_char_facts x Hx) as (_ & _ & _ & Hh & _).
    destruct x as [[] [] [] [] [] [] [] []]; try reflexivity;
      vm_compute in Hh; discriminate Hh. }
  assert (H4 : Spec.is_hex6 c).
  { split; [exact Hlen |]. eapply all_char_impl; [| exact Hall].
    intros x Hx. now destruct (lower_hex_char_facts x Hx) as (_ & _ & -> & _). }
  auto.
Qed.

(** X1.  What colour parsing returns is a canonical colour, and parsing a
    canonical colour again gives it back unchanged. *)
Theorem parse_hex_color_idempotent (s c : string) :
  _parse_hex_color s = Ok c ->
  Spec.is_color c /\ _parse_hex_color c = Ok c.
Proof.
  intros H. pose proof (parse_hex_color_color s c H) as Hc.
  split; [exact Hc |].
  destruct (color_plain c Hc) as (H1 & H2 & H3 & H4).
  unfold _parse_hex_color. rewrite strip_hash_code, H1, H3.
  apply is_hex6_dec in H4. rewrite H4, H2. reflexivity.
Qed.

Lemma parse_hex_color_idempotent_witness :
  _parse_hex_color " #00AAff" = Ok "00aaff"
  /\ Spec.is_color "00aaff" /\ _parse_hex_color "00aaff" = Ok "00aaff".
Proof.
  split; [reflexivity |].
  exact (parse_hex_color_idempotent " #00AAff" "00aaff" eq_refl).
Defined.

Lemma hex_pair (a b : ascii) :
  Spec.is_lower_hex_digit a = true ->
  Spec.is_lower_hex_digit b = true ->
  exists n, Py.int16 (String a (String b "")) = Some n
            /\ 0 <= n <= 255
            /\ Py.format_02x n = String a (String b "").
Proof.
  intros Ha Hb.
  destruct a as [[] [] [] [] [] [] [] []];
    try (vm_compute in Ha; discriminate Ha);
    destruct b as [[] [] [] [] [] [] [] []];
    try (vm_compute in Hb; discriminate Hb);
    eexists; (split; [vm_compute; reflexivity |]);
    (split; [vm_compute; split; discriminate | vm_compute; reflexivity]).
Qed.

Lemma color_chars (c : string) :
  Spec.is_color c ->
  exists a1 a2 a3 a4 a5 a6,
    c = String a1 (String a2 (String a3 (String a4 (String a5
          (String a6 "")))))
    /\ Spec.is_lower_hex_digit a1 = true /\ Spec.is_lower_hex_digit a2 = true
    /\ Spec.is_lower_hex_digit a3 = true /\ Spec.is_lower_hex_digit a4 = true
    /\ Spec.is_lower_hex_digit a5 = true /\ Spec.is_lower_hex_digit a6 = true.
Proof.
  intros [Hlen Hall].
  destruct c as [|a1 [|a2 [|a3 [|a4 [|a5 [|a6 [|a7 c]]]]]]];
    try discriminate Hlen.
  simpl in Hall. repeat (apply andb_true_iff in Hall as [? Hall]).
  exists a1, a2, a3, a4, a5, a6. auto 10.
Qed.

Lemma color_bytes (c : string) :
  Spec.is_color c ->
  exists r g b,
    from_hex (Py.slice 0 2 c) = Ok r
    /\ from_hex (Py.slice 2 4 c) = Ok g
    /\ from_hex (Py.slice 4 6 c) = Ok b
    /\ 0 <= r <= 255 /\ 0 <= g <= 255 /\ 0 <= b <= 255
    /\ Py.format_02x r ++ Py.format_02x g ++ Py.format_02x b = c.
Proof.
  intros Hc.
  destruct (color_chars c Hc)
    as (a1 & a2 & a3 & a4 & a5 & a6 & -> & H1 & H2 & H3 & H4 & H5 & H6).
  destruct (hex_pair a1 a2 H1 H2) as (r & Hr & Hrr & Hrf).
  destruct (hex_pair a3 a4 H3 H4) as (g & Hg & Hgr & Hgf).
  destruct (hex_pair a5 a6 H5 H6) as (b & Hb & Hbr & Hbf).
  exists r, g, b. unfold from_hex, Py.slice.
  cbn [String.substring Nat.sub].
  rewrite Hr, Hg, Hb, Hrf, Hgf, Hbf. repeat split; try lia.
Qed.

(** X2.  The three pairs of digits of a canonical colour are read as
    three bytes by the helper, without error, and writing these bytes the
    way the window does gives the colour back. *)
Theorem color_bytes_roundtrip (c : string) :
  Spec.is_color c ->
  exists r g b,
    from_hex (Py.slice 0 2 c) = Ok r
    /\ from_hex (Py.slice 2 4 c) = Ok g
    /\ from_hex (Py.slice 4 6 c) = Ok b
    /\ 0 <= r <= 255 /\ 0 <= g <= 255 /\ 0 <= b <= 255
    /\ Py.format_02x r ++ Py.format_02x g ++ Py.format_02x b = c.
Proof.
  intros Hc.
  destruct (color_chars c Hc)
    as (a1 & a2 & a3 & a4 & a5 & a6 & -> & H1 & H2 & H3 & H4 & H5 & H6).
  destruct (hex_pair a1 a2 H1 H2) as (r & Hr & Hrr & Hrf).
  destruct (hex_pair a3 a4 H3 H4) as (g & Hg & Hgr & Hgf).
  destruct (hex_pair a5 a6 H5 H6) as (b & Hb & Hbr & Hbf).
  exists r, g, b. unfold from_hex, Py.slice.
  cbn [String.substring Nat.sub].
  rewrite Hr, Hg, Hb, Hrf, Hgf, Hbf. repeat split; try lia.
Qed.

Lemma color_bytes_roundtrip_witness :
  Spec.is_color "00aaff"
  /\ exists r g b,
       from_hex (Py.slice 0 2 "00aaff") = Ok r
       /\ from_hex (Py.slice 2 4 "00aaff") = Ok g
       /\ from_hex (Py.slice 4 6 "00aaff") = Ok b
       /\ Py.format_02x r ++ Py.format_02x g ++ Py.format_02x b = "00aaff".
Proof.
  assert (H : Spec.is_color "00aaff") by (split; reflexivity).
  split; [exact H |].
  destruct (color_bytes_roundtrip "00aaff" H)
    as (r & g & b & Hr & Hg & Hb & _ & _ & _ & Hf).
  exists r, g, b. auto.
Defined.

End Colours.

(** ** Keyboard effects *)

Section Effects.

Import nekroctl.

(** The line of the effect for the colour bytes [r], [g] and [b]. *)
Lemma effect_write (args : effect_args) (mode : pyval) (id : Z) (w : world) :
  ef_mode args = Some mode ->
  resolve_mode mode = Ok id ->
  0 <= ef_speed args <= 9 ->
  0 <= ef_brightness args <= 100 ->
  1 <= ef_direction args <= 2 ->
  let send r g b :=
    Spec.checked_write KB_FOUR_MODE Spec.effect_desc
      (Py.join "," [Py.str id; Py.str (ef_speed args);
                    Py.str (ef_brightness args); Py.str (ef_direction args);
                    Py.str r; Py.str g; Py.str b])
      "OK: effect set" w in
  (ef_color args = None \/ ef_color args = Some "" ->
   cmd_rgb_effect args w = send 0 0 0)
  /\ (forall c hex r g b,
        ef_color args = Some c -> Py.truthy c = true ->
        _parse_hex_color c = Ok hex ->
        from_hex (Py.slice 0 2 hex) = Ok r ->
        from_hex (Py.slice 2 4 hex) = Ok g ->
        from_hex (Py.slice 4 6 hex) = Ok b ->
        cmd_rgb_effect args w = send r g b).
Proof.
  intros Hmode Hid Hs Hb Hd send.
  assert (Hs' : negb ((0 <=? ef_speed args) && (ef_speed args <=? 9)) = false)
    by (apply negb_false_iff, andb_true_iff; lia).
  assert (Hb' : negb ((0 <=? ef_brightness args)
                      && (ef_brightness args <=? 100)) = false)
    by (apply negb_false_iff, andb_true_iff; lia).
  assert (Hd' : negb ((1 <=? ef_direction args)
                      && (ef_direction args <=? 2)) = false)
    by (apply negb_false_iff, andb_true_iff; lia).
  split.
  - intros Hc. unfold send, Spec.checked_write, cmd_rgb_effect.
    apply bind_ext. intros [] w1. rewrite Hmode, bind_lift, Hid, Hs', Hb', Hd'.
    destruct Hc as [-> | ->]; reflexivity.
  - intros c hex r g b Hc Htruthy Hparse Hr Hg Hbb.
    unfold send, Spec.checked_write, cmd_rgb_effect.
    apply bind_ext. intros [] w1.
    rewrite Hmode, bind_lift, Hid, Hs', Hb', Hd', Hc, Htruthy.
    unfold bind, ret, lift.
    repeat first [rewrite Hparse | rewrite Hr | rewrite Hg | rewrite Hbb
                 | progress cbv beta iota].
    reflexivity.
Qed.



(** X21.  The colour that a refresh shows for an effect, computed from
    the three bytes that the helper wrote, is the colour that was given,
    or no text when that colour is black; and sending the effect again
    with what is shown, the way the window does, writes the same line. *)
Theorem effect_color_shown_roundtrip
  (args : effect_args) (mode : pyval) (id : Z) (c hex : string) (w : world) :
  ef_mode args = Some mode ->
  resolve_mode mode = Ok id ->
  0 <= ef_speed args <= 9 ->
  0 <= ef_brightness args <= 100 ->
  1 <= ef_direction args <= 2 ->
  ef_color args = Some c -> Py.truthy c = true ->
  _parse_hex_color c = Ok hex ->
  exists r g b,
    from_hex (Py.slice 0 2 hex) = Ok r
    /\ from_hex (Py.slice 2 4 hex) = Ok g
    /\ from_hex (Py.slice 4 6 hex) = Ok b
    /\ let shown := nekroctl_gui.effect_color_text r g b in
       (shown = if String.eqb hex "000000" then "" else hex)
       /\ cmd_rgb_effect
            {| ef_mode := ef_mode args; ef_speed := ef_speed args;
               ef_brightness := ef_brightness args;
               ef_direction := ef_direction args;
               ef_color := if Py.truthy shown then Some shown else None;
               ef_parser := ef_parser args |} w
          = cmd_rgb_effect args w.
Proof.
  intros Hmode Hid Hs Hb Hd Hc Htruthy Hparse.
  pose proof (parse_hex_color_color c hex Hparse) as Hcol.
  destruct (color_bytes hex Hcol)
    as (r & g & b & Hr & Hg & Hbb & Hrr & Hgr & Hbr & Hf).
  exists r, g, b. split; [exact Hr |]. split; [exact Hg |].
  split; [exact Hbb |]. cbv zeta.
  destruct (effect_write args mode id w Hmode Hid Hs Hb Hd) as [_ Hsome].
  rewrite (Hsome c hex r g b Hc Htruthy Hparse Hr Hg Hbb).
  set (args' shown :=
         {| ef_mode := ef_mode args; ef_speed := ef_speed args;
            ef_brightness := ef_brightness args;
            ef_direction := ef_direction args;
            ef_color := if Py.truthy shown then Some shown else None;
            ef_parser := ef_parser args |}).
  assert (Hshown : nekroctl_gui.effect_color_text r g b
                   = if String.eqb hex "000000" then "" else hex).
  { unfold nekroctl_gui.effect_color_text.
    destruct ((r =? 0) && (g =? 0) && (b =? 0)) eqn:Hz.
    - apply andb_true_iff in Hz as [Hz Hz3].
      apply andb_true_iff in Hz as [Hz1 Hz2].
      apply Z.eqb_eq in Hz1, Hz2, Hz3. subst r g b.
      rewrite <- Hf. reflexivity.
    - rewrite Hf. destruct (String.eqb_spec hex "000000") as [E|]; [| reflexivity].
      exfalso. rewrite E in Hr, Hg, Hbb. vm_compute in Hr, Hg, Hbb.
      injection Hr as <-. injection Hg as <-. injection Hbb as <-.
      discriminate Hz. }
  split; [exact Hshown |]. rewrite Hshown.
  destruct (effect_write (args' (if String.eqb hex "000000" then "" else hex))
              mode id w Hmode Hid Hs Hb Hd) as [Hnone' Hsome'].
  destruct (String.eqb_spec hex "000000") as [E|Hne].
  - rewrite E in Hr, Hg, Hbb. vm_compute in Hr, Hg, Hbb.
    injection Hr as <-. injection Hg as <-. injection Hbb as <-.
    apply Hnone'. left. reflexivity.
  - assert (Ht : Py.truthy hex = true)
      by (destruct Hcol as [Hlen _]; destruct hex; [discriminate Hlen | reflexivity]).
    assert (Hfix : _parse_hex_color hex = Ok hex).
    { destruct (color_plain hex Hcol) as (H1 & H2 & H3 & H4).
      unfold _parse_hex_color. rewrite strip_hash_code, H1, H3.
      apply is_hex6_dec in H4. rewrite H4, H2. reflexivity. }
    apply (Hsome' hex hex r g b); auto.
    unfold args'. cbn [ef_color]. rewrite Ht. reflexivity.
Qed.

Lemma effect_color_shown_roundtrip_witness :
  let args := {| ef_mode := Some (VStr "wave"); ef_speed := 3;
                 ef_brightness := 80; ef_direction := 1;
                 ef_color := Some "#000000"; ef_parser := None |} in
  exists r g b,
    nekroctl_gui.effect_color_text r g b = ""
    /\ cmd_rgb_effect
         {| ef_mode := Some (VStr "wave"); ef_speed := 3;
            ef_brightness := 80; ef_direction := 1;
            ef_color := None; ef_parser := None |} Sample.world_root
       = cmd_rgb_effect args Sample.world_root.
Proof.
  intros args.
  destruct (effect_color_shown_roundtrip args (VStr "wave") 3 "#000000"
              "000000" Sample.world_root
              eq_refl eq_refl ltac:(cbn; lia) ltac:(cbn; lia) ltac:(cbn; lia)
              eq_refl eq_refl eq_refl)
    as (r & g & b & _ & _ & _ & Hshown & Hsame).
  exists r, g, b. cbn [String.eqb Ascii.eqb Bool.eqb] in Hshown.
  split; [exact Hshown |].
  rewrite Hshown in Hsame. exact Hsame.
Defined.

End Effects.

(** ** The battery limiter *)

Section Battery.

Import nekroctl.

Lemma parse_on_off_values (mode : string) (v : Z) :
  _parse_on_off mode = Ok v -> v = 1 \/ v = 0.
Proof.
  unfold _parse_on_off.
  destruct (in_set _ _); [intros [= <-]; auto |].
  destruct (in_set _ _); [intros [= <-]; auto | discriminate].
Qed.

(** X17.  [battery set] with a word that is read as on or off does what
    [battery on] or [battery off] does: the same result, the same system
    calls, the same attribute files and the same standard error; only the
    line it reports differs.  With any other word nothing is written, and
    when the attribute was found the command exits with the message of the
    validator. *)
Theorem battery_set_is_a_switch (mode : string) (w : world) :
  (forall v,
      _parse_on_off mode = Ok v ->
      let switch := if v =? 1 then cmd_battery_on else cmd_battery_off in
      fst (cmd_battery_set mode w) = fst (switch w)
      /\ fs (snd (cmd_battery_set mode w)) = fs (snd (switch w))
      /\ syslog (snd (cmd_battery_set mode w)) = syslog (snd (switch w))
      /\ stderr (snd (cmd_battery_set mode w)) = stderr (snd (switch w)))
  /\ (forall e,
        _parse_on_off mode = Raise e ->
        fs (snd (cmd_battery_set mode w)) = fs w
        /\ (forall p, fst (_battery_limit_path w) = Ok p ->
            fst (cmd_battery_set mode w)
            = Raise (SystemExit
                       (ExitStr "Expected on/off (or 1/0, true/false, yes/no)")))).
Proof.
  split.
  - intros v Hv switch.
    assert (Hrun : forall text report1 report2 w1 p,
      let r1 := bind (_write_text p text) (fun _ => print report1) w1 in
      let r2 := bind (_write_text p text) (fun _ => print report2) w1 in
      fst r1 = fst r2 /\ fs (snd r1) = fs (snd r2)
      /\ syslog (snd r1) = syslog (snd r2)
      /\ stderr (snd r1) = stderr (snd r2)).
    { intros text r1 r2 w1 p.
      unfold _write_text, bind, get_node, log, set_content, stderr_write,
        raise, print.
      cbn [fs fst snd]. destruct (fs w1 p) as [nd|]; [| auto].
      destruct (w_acc nd); cbn; auto. }
    assert (Hset : cmd_battery_set mode w
      = bind _battery_limit_path (fun p =>
          bind (_write_text p (Py.str v ++ newline)) (fun _ =>
            print ("OK: battery limit set to "
                   ++ (if v =? 1 then "ON (80%)" else "OFF (100%)")))) w).
    { unfold cmd_battery_set. apply bind_ext. intros p w1.
      rewrite bind_lift, Hv. reflexivity. }
    assert (Hbind : forall k1 k2 : string -> M unit,
      (forall p w1,
          fst (k1 p w1) = fst (k2 p w1)
          /\ fs (snd (k1 p w1)) = fs (snd (k2 p w1))
          /\ syslog (snd (k1 p w1)) = syslog (snd (k2 p w1))
          /\ stderr (snd (k1 p w1)) = stderr (snd (k2 p w1))) ->
      let r1 := bind _battery_limit_path k1 w in
      let r2 := bind _battery_limit_path k2 w in
      fst r1 = fst r2 /\ fs (snd r1) = fs (snd r2)
      /\ syslog (snd r1) = syslog (snd r2)
      /\ stderr (snd r1) = stderr (snd r2)).
    { intros k1 k2 H. unfold bind.
      destruct (_battery_limit_path w) as [[p|e] w1]; [apply H | cbn; auto]. }
    rewrite Hset. unfold switch.
    destruct (parse_on_off_values mode v Hv) as [-> | ->];
      cbn [Z.eqb Pos.eqb]; unfold cmd_battery_on, cmd_battery_off;
      apply Hbind; intros p w1; apply Hrun.
  - intros e He.
    assert (Hmsg : e = ValueError "Expected on/off (or 1/0, true/false, yes/no)").
    { revert He. unfold _parse_on_off.
      destruct (in_set _ _); [discriminate |].
      destruct (in_set _ _); [discriminate |]. now intros [= <-]. }
    subst e. pose proof (battery_limit_path_fs w) as Hfs.
    assert (Hset : cmd_battery_set mode w
      = bind _battery_limit_path (fun _ =>
          raise (SystemExit
                   (ExitStr "Expected on/off (or 1/0, true/false, yes/no)")))
          w).
    { unfold cmd_battery_set. apply bind_ext. intros p w1.
      rewrite bind_lift, He. reflexivity. }
    rewrite Hset. unfold bind, raise.
    destruct (_battery_limit_path w) as [[p|e] w1]; cbn [fst snd] in *.
    + split; [exact Hfs |]. intros p' _. reflexivity.
    + split; [exact Hfs |]. intros p' Hp. discriminate Hp.
Qed.

Lemma battery_set_is_a_switch_witness :
  _parse_on_off " Enabled " = Ok 1
  /\ fs (snd (cmd_battery_set " Enabled " Sample.world_root))
     = fs (snd (cmd_battery_on Sample.world_root))
  /\ fst (cmd_battery_set " Enabled " Sample.world_root) = Ok tt.
Proof.
  destruct (proj1 (battery_set_is_a_switch " Enabled " Sample.world_root)
              1 eq_refl) as (Hres & Hfs & _).
  split; [reflexivity |]. split; [exact Hfs |].
  rewrite Hres. reflexivity.
Defined.

End Battery.

(** ** What the window reads back and what it sends *)

Section Refresh.

Import nekroctl_gui.

Lemma all_char_app (f : ascii -> bool) (a b : string) :
  Py.all_char f (a ++ b) = Py.all_char f a && Py.all_char f b.
Proof.
  induction a as [|c a IH]; simpl; [reflexivity |].
  now rewrite IH, andb_assoc.
Qed.

Lemma rstrip_line (s : string) :
  Py.all_char (fun c => negb (Py.isspace c)) s = true ->
  Py.rstrip (s ++ nekroctl.newline) = s.
Proof.
  induction s as [|c s IH]; [reflexivity |].
  cbn [append Py.rstrip Py.all_char]. intros H.
  apply andb_true_iff in H as [Hc Hs]. rewrite (IH Hs).
  apply negb_true_iff in Hc. rewrite Hc. destruct s; reflexivity.
Qed.

(** A line without white space, read the way [read_text] reads it. *)
Lemma strip_line (s : string) :
  Py.all_char (fun c => negb (Py.isspace c)) s = true ->
  Py.strip (s ++ nekroctl.newline) = s.
Proof.
  intros H. unfold Py.strip. destruct s as [|c s]; [reflexivity |].
  pose proof H as H'. cbn [Py.all_char] in H'.
  apply andb_true_iff in H' as [Hc _]. apply negb_true_iff in Hc.
  cbn [append]. rewrite lstrip_nonspace by exact Hc.
  exact (rstrip_line (String c s) H).
Qed.

Lemma universal_newlines_plain (s : string) :
  Py.all_char (fun c => negb (Py.isspace c)) s = true ->
  Py.universal_newlines (s ++ nekroctl.newline) = s ++ nekroctl.newline.
Proof.
  induction s as [|c s IH]; [reflexivity |].
  cbn [append Py.all_char Py.universal_newlines]. intros H.
  apply andb_true_iff in H as [Hc Hs]. rewrite (IH Hs).
  destruct (Ascii.eqb_spec c "013") as [->|_]; [discriminate Hc | reflexivity].
Qed.

(** A line without white space, read the way [_read_text] reads it. *)
Lemma read_line (s : string) :
  Py.all_char (fun c => negb (Py.isspace c)) s = true ->
  Py.strip (Py.universal_newlines (s ++ nekroctl.newline)) = s.
Proof.
  intros H. rewrite universal_newlines_plain by exact H. now apply strip_line.
Qed.

Lemma split_go_field (sep : ascii) (t cur rest : string) :
  Py.all_char (fun c => negb (Ascii.eqb c sep)) t = true ->
  Py.split_go sep cur (t ++ String sep rest)
  = (cur ++ t) :: Py.split_go sep "" rest.
Proof.
  revert cur. induction t as [|c t IH]; intros cur H;
    cbn [append Py.split_go].
  - now rewrite Ascii.eqb_refl, append_nil_r.
  - cbn [Py.all_char] in H. apply andb_true_iff in H as [Hc Ht].
    apply negb_true_iff in Hc. rewrite Hc, IH by exact Ht.
    now rewrite append_assoc.
Qed.

Lemma split_go_last (sep : ascii) (t cur : string) :
  Py.all_char (fun c => negb (Ascii.eqb c sep)) t = true ->
  Py.split_go sep cur t = [cur ++ t].
Proof.
  revert cur. induction t as [|c t IH]; intros cur H; cbn [Py.split_go].
  - now rewrite append_nil_r.
  - cbn [Py.all_char] in H. apply andb_true_iff in H as [Hc Ht].
    apply negb_true_iff in Hc. rewrite Hc, IH by exact Ht.
    now rewrite append_assoc.
Qed.

Lemma field_facts (t : string) :
  Spec.field t ->
  Py.all_char (fun c => negb (Py.isspace c)) t = true
  /\ Py.all_char (fun c => negb (Ascii.eqb c ",")) t = true
  /\ Py.truthy t = true /\ Py.strip t = t.
Proof.
  intros [Hne Hall].
  assert (H1 : Py.all_char (fun c => negb (Py.isspace c)) t = true).
  { eapply all_char_impl; [| exact Hall]. intros c Hc.
    now apply andb_true_iff in Hc as [-> _]. }
  assert (H2 : Py.all_char (fun c => negb (Ascii.eqb c ",")) t = true).
  { eapply all_char_impl; [| exact Hall]. intros c Hc.
    now apply andb_true_iff in Hc as [_ ->]. }
  repeat split; auto.
  - destruct t; [contradiction | reflexivity].
  - now apply strip_nonspace.
Qed.

(** Splitting at the commas gives back the fields that were joined. *)
Lemma split_join (ts : list string) :
  ts <> [] -> Forall Spec.field ts ->
  Py.split "," (Py.join "," ts) = ts.
Proof.
  unfold Py.split, Py.join.
  induction ts as [|t ts IH]; [contradiction |].
  intros _ Hall. inversion Hall as [|? ? Ht Hts]; subst.
  destruct (field_facts t Ht) as (_ & Hc & _).
  destruct ts as [|t' ts'].
  - cbn [String.concat]. now rewrite split_go_last.
  - change (String.concat "," (t :: t' :: ts'))
      with (t ++ String "," (String.concat "," (t' :: ts'))).
    rewrite split_go_field by exact Hc.
    rewrite IH by (discriminate || exact Hts). reflexivity.
Qed.

Lemma join_nonspace (ts : list string) :
  Forall Spec.field ts ->
  Py.all_char (fun c => negb (Py.isspace c)) (Py.join "," ts) = true.
Proof.
  unfold Py.join. induction ts as [|t ts IH]; [reflexivity |].
  intros Hall. inversion Hall as [|? ? Ht Hts]; subst.
  destruct (field_facts t Ht) as (Hs & _).
  destruct ts as [|t' ts']; [exact Hs |].
  change (String.concat "," (t :: t' :: ts'))
    with (t ++ String "," (String.concat "," (t' :: ts'))).
  rewrite all_char_app, Hs. cbn [Py.all_char andb].
  rewrite (IH Hts). reflexivity.
Qed.

Lemma comma_parts_join (ts : list string) :
  ts <> [] -> Forall Spec.field ts ->
  comma_parts (Py.join "," ts) = ts.
Proof.
  intros Hne Hall. unfold comma_parts. rewrite split_join by assumption.
  clear Hne. induction ts as [|t ts IH]; [reflexivity |].
  inversion Hall as [|? ? Ht Hts]; subst.
  destruct (field_facts t Ht) as (_ & _ & Htr & Hst).
  cbn [map filter]. rewrite Hst, Htr, (IH Hts). reflexivity.
Qed.

Lemma color_field (c : string) : Spec.is_color c -> Spec.field c.
Proof.
  intros [Hlen Hall]. split; [intros ->; discriminate Hlen |].
  eapply all_char_impl; [| exact Hall]. intros x Hx.
  destruct (lower_hex_char_facts x Hx) as (Hs & _ & _ & _ & Hc).
  unfold Spec.field_char. now rewrite Hs, Hc.
Qed.

Lemma digit_field_char (c : ascii) :
  Py.isdigit c = true -> Spec.field_char c = true.
Proof.
  destruct c as [[] [] [] [] [] [] [] []]; intros H;
    try (vm_compute in H; discriminate H); reflexivity.
Qed.

Lemma str_field (z : Z) : 0 <= z -> Spec.field (Py.str z).
Proof.
  intros Hz. unfold Py.str. apply Z.ltb_ge in Hz. rewrite Hz.
  destruct (str_nonneg_digits z) as (c & s & -> & Hall).
  split; [discriminate |].
  eapply all_char_impl; [| exact Hall]. exact digit_field_char.
Qed.

(** The window and the helper accept the same colours and bring them to
    the same form. *)
Lemma parse_hex_color_agrees (s c : string) :
  parse_hex_color s = nekroctl.Ok c <-> nekroctl._parse_hex_color s = nekroctl.Ok c.
Proof.
  unfold parse_hex_color, nekroctl._parse_hex_color.
  destruct (_ || _); split; intros H; first [discriminate H | exact H].
Qed.

Lemma parse_color_fixed (c : string) :
  Spec.is_color c ->
  parse_hex_color c = nekroctl.Ok c
  /\ nekroctl._parse_hex_color c = nekroctl.Ok c.
Proof.
  intros Hc. destruct (color_plain c Hc) as (H1 & H2 & H3 & H4).
  assert (H : nekroctl._parse_hex_color c = nekroctl.Ok c).
  { unfold nekroctl._parse_hex_color. rewrite strip_hash_code, H1, H3.
    apply is_hex6_dec in H4. rewrite H4, H2. reflexivity. }
  split; [apply parse_hex_color_agrees |]; exact H.
Qed.

Lemma map_result_ok {A B} (f : A -> nekroctl.result B) (l : list A)
  (ys : list B) :
  nekroctl.map_result f l = nekroctl.Ok ys ->
  Forall2 (fun x y => f x = nekroctl.Ok y) l ys.
Proof.
  revert ys. induction l as [|x l IH]; intros ys; cbn [nekroctl.map_result].
  - intros [= <-]. constructor.
  - destruct (f x) as [y|e] eqn:Hx; [| discriminate].
    destruct (nekroctl.map_result f l) as [ys'|e]; [| discriminate].
    intros [= <-]. constructor; [exact Hx | now apply IH].
Qed.

Lemma gui_color (s c : string) :
  parse_hex_color s = nekroctl.Ok c -> Spec.is_color c.
Proof.
  intros H. apply parse_hex_color_agrees in H.
  exact (parse_hex_color_color s c H).
Qed.

(** What the helper does with four canonical colours and a brightness in
    range. *)
Lemma per_zone_write (c1 c2 c3 c4 : string) (b : Z) (parser : option string)
  (w : nekroctl.world) :
  Spec.is_color c1 -> Spec.is_color c2 -> Spec.is_color c3 ->
  Spec.is_color c4 -> 0 <= b <= 100 ->
  nekroctl.cmd_rgb_per_zone
    {| nekroctl.pz_colors := [c1; c2; c3; c4];
       nekroctl.pz_brightness := Some b;
       nekroctl.pz_parser := parser |} w
  = Spec.checked_write nekroctl.KB_PER_ZONE Spec.per_zone_desc
      (Py.join "," [c1; c2; c3; c4; Py.str b]) "OK: per-zone colors set" w.
Proof.
  intros H1 H2 H3 H4 Hb.
  assert (Hr : negb ((0 <=? b) && (b <=? 100)) = false)
    by (apply negb_false_iff, andb_true_iff; lia).
  unfold nekroctl.cmd_rgb_per_zone, Spec.checked_write.
  apply bind_ext. intros [] w'. rewrite bind_lift.
  cbn [nekroctl.pz_colors nekroctl.pz_brightness nekroctl.map_result].
  rewrite (proj2 (parse_color_fixed c1 H1)), (proj2 (parse_color_fixed c2 H2)),
    (proj2 (parse_color_fixed c3 H3)), (proj2 (parse_color_fixed c4 H4)).
  cbv beta iota zeta. cbn [List.length Nat.eqb negb app].
  rewrite Hr. reflexivity.
Qed.

(** X11.  Whatever the per-zone widgets show, the arguments that the
    window computes from them, if any, are [rgb per-zone] with four
    canonical colours, [-b] and the decimal text of the brightness; with
    the brightness from 0 to 100 the helper reads that text back as the
    same number, takes the four colours as they are and, the attribute
    being there, writes them with the brightness: it refuses nothing that
    the window sends. *)
Theorem window_per_zone_args_accepted
  (v : per_zone_view) (args : list string) (parser : option string)
  (w : nekroctl.world) :
  _compute_per_zone_args v = Some args ->
  0 <= bright_row_value v <= 100 ->
  exists c1 c2 c3 c4,
    args = ["rgb"; "per-zone"; c1; c2; c3; c4; "-b";
            Py.str (bright_row_value v)]
    /\ Forall Spec.is_color [c1; c2; c3; c4]
    /\ nekroctl.map_result nekroctl._parse_hex_color [c1; c2; c3; c4]
       = nekroctl.Ok [c1; c2; c3; c4]
    /\ Py.int (Py.str (bright_row_value v)) = Some (bright_row_value v)
    /\ nekroctl.cmd_rgb_per_zone
         {| nekroctl.pz_colors := [c1; c2; c3; c4];
            nekroctl.pz_brightness := Some (bright_row_value v);
            nekroctl.pz_parser := parser |} w
       = Spec.checked_write nekroctl.KB_PER_ZONE Spec.per_zone_desc
           (Py.join "," [c1; c2; c3; c4; Py.str (bright_row_value v)])
           "OK: per-zone colors set" w.
Proof.
  intros Hargs Hb.
  assert (Hcols : exists c1 c2 c3 c4,
    args = ["rgb"; "per-zone"; c1; c2; c3; c4; "-b";
            Py.str (bright_row_value v)]
    /\ Spec.is_color c1 /\ Spec.is_color c2 /\ Spec.is_color c3
    /\ Spec.is_color c4).
  { revert Hargs. unfold _compute_per_zone_args.
    destruct (kb_per_zone_exists v); [| discriminate]. cbn [negb].
    destruct (single_row_active v).
    - destruct (parse_hex_color (single_color_text v)) as [c|e] eqn:Hc;
        [| discriminate].
      intros [= <-]. apply gui_color in Hc. exists c, c, c, c. auto.
    - destruct (nekroctl.map_result parse_hex_color (z_entries_text v))
        as [cs|e] eqn:Hcs; [| discriminate].
      destruct (Nat.eqb (List.length cs) 4) eqn:Hlen; [| discriminate].
      apply Nat.eqb_eq in Hlen. apply map_result_ok in Hcs.
      destruct cs as [|c1 [|c2 [|c3 [|c4 [|c5 cs']]]]];
        try discriminate Hlen.
      cbn [negb List.length Nat.eqb app]. intros [= <-].
      inversion Hcs as [|x1 ? l1 ? P1 R1]; subst.
      inversion R1 as [|x2 ? l2 ? P2 R2]; subst.
      inversion R2 as [|x3 ? l3 ? P3 R3]; subst.
      inversion R3 as [|x4 ? l4 ? P4 R4]; subst.
      apply gui_color in P1, P2, P3, P4.
      exists c1, c2, c3, c4. auto. }
  destruct Hcols as (c1 & c2 & c3 & c4 & -> & H1 & H2 & H3 & H4).
  exists c1, c2, c3, c4. split; [reflexivity |].
  split; [repeat (apply Forall_cons; [assumption |]); apply Forall_nil |].
  split.
  { cbn [nekroctl.map_result].
    now rewrite (proj2 (parse_color_fixed c1 H1)),
      (proj2 (parse_color_fixed c2 H2)), (proj2 (parse_color_fixed c3 H3)),
      (proj2 (parse_color_fixed c4 H4)). }
  split; [apply int_str |].
  now apply per_zone_write.
Qed.

Lemma window_per_zone_args_accepted_witness :
  exists c1 c2 c3 c4,
    _compute_per_zone_args (Sample.single_color " #FF0000" 50)
    = Some ["rgb"; "per-zone"; c1; c2; c3; c4; "-b"; "50"]
    /\ Forall Spec.is_color [c1; c2; c3; c4].
Proof.
  destruct (window_per_zone_args_accepted
              (Sample.single_color " #FF0000" 50)
              ["rgb"; "per-zone"; "ff0000"; "ff0000"; "ff0000"; "ff0000";
               "-b"; "50"]
              None Sample.world_root eq_refl
              ltac:(cbn; lia))
    as (c1 & c2 & c3 & c4 & Hargs & Hcol & _).
  exists c1, c2, c3, c4. split; [| exact Hcol].
  inversion Hargs; subst. reflexivity.
Defined.

Lemma set_size_one (l : list string) (x y : string) :
  set_size l = 1%nat -> In x l -> In y l -> x = y.
Proof.
  unfold set_size. intros H Hx Hy.
  apply (nodup_In string_dec) in Hx, Hy.
  destruct (nodup string_dec l) as [|z [|z' r]]; try discriminate H.
  destruct Hx as [<-|[]], Hy as [<-|[]]. reflexivity.
Qed.

Lemma set_size_same (c : string) : set_size [c; c; c; c] = 1%nat.
Proof.
  unfold set_size. cbn [nodup].
  repeat (destruct (in_dec string_dec c _) as [_|Hn];
          [| exfalso; apply Hn; left; reflexivity]).
  reflexivity.
Qed.

Lemma normalise_color (c : string) (cs : list string) :
  Spec.is_color c -> normalise_cols (c :: cs) = c :: normalise_cols cs.
Proof.
  intros Hc. destruct (color_plain c Hc) as (H1 & H2 & H3 & _).
  cbn [normalise_cols]. cbv zeta.
  rewrite H1, strip_hash_code, H3, H2, (proj1 Hc). reflexivity.
Qed.

Lemma set_size_all_equal (c1 c2 c3 c4 : string) :
  Nat.eqb (set_size [c1; c2; c3; c4]) 1 = true
  <-> c2 = c1 /\ c3 = c1 /\ c4 = c1.
Proof.
  rewrite Nat.eqb_eq. split.
  - intros Hone.
    repeat split; apply (set_size_one _ _ _ Hone); simpl; auto.
  - intros (-> & -> & ->). apply set_size_same.
Qed.

(** The widgets after a refresh that read four canonical colours and a
    brightness in range. *)
Lemma per_zone_refreshed
  (fs : string -> option nekroctl.node) (nd : nekroctl.node)
  (v : per_zone_view) (c1 c2 c3 c4 : string) (b : Z) :
  Spec.is_color c1 -> Spec.is_color c2 -> Spec.is_color c3 ->
  Spec.is_color c4 -> 0 <= b <= 100 ->
  fs nekroctl.KB_PER_ZONE = Some nd ->
  nekroctl.r_acc nd = nekroctl.Granted ->
  nekroctl.content nd
  = Py.join "," [c1; c2; c3; c4; Py.str b] ++ nekroctl.newline ->
  List.length (z_entries_text v) = 4%nat ->
  _refresh_keyboard_per_zone fs v
  = let all_eq := Nat.eqb (set_size [c1; c2; c3; c4]) 1 in
    {| kb_per_zone_exists := kb_per_zone_exists v;
       single_row_active := all_eq;
       single_color_text := if all_eq then c1 else single_color_text v;
       z_entries_text := if all_eq then z_entries_text v
                         else [c1; c2; c3; c4];
       bright_row_value := b |}.
Proof.
  intros H1 H2 H3 H4 Hb Hfs Hr Hcontent Hlen.
  assert (Hfields : Forall Spec.field [c1; c2; c3; c4; Py.str b]).
  { repeat (apply Forall_cons; [now apply color_field |]).
    apply Forall_cons; [apply str_field; lia | apply Forall_nil]. }
  assert (Hrange : (0 <=? b) && (b <=? 100) = true)
    by (apply andb_true_iff; lia).
  unfold _refresh_keyboard_per_zone, path_exists, read_text.
  rewrite Hfs, Hr, Hcontent. cbn [negb].
  rewrite read_line by (apply join_nonspace; exact Hfields).
  rewrite comma_parts_join by (discriminate || exact Hfields).
  cbv beta iota zeta. rewrite int_str.
  rewrite !normalise_color by assumption.
  cbn [normalise_cols List.length Nat.eqb hd].
  rewrite Hlen. cbn [Nat.ltb Nat.leb andb].
  destruct (z_entries_text v) as [|e1 [|e2 [|e3 [|e4 [|e5 es]]]]];
    try discriminate Hlen.
  cbn [firstn skipn app]. rewrite Hrange.
  destruct (Nat.eqb (set_size [c1; c2; c3; c4]) 1); reflexivity.
Qed.

(** The arguments computed from these widgets. *)
Lemma per_zone_refreshed_args
  (v : per_zone_view) (c1 c2 c3 c4 : string) (b : Z) :
  Spec.is_color c1 -> Spec.is_color c2 -> Spec.is_color c3 ->
  Spec.is_color c4 ->
  kb_per_zone_exists v = true ->
  _compute_per_zone_args
    (let all_eq := Nat.eqb (set_size [c1; c2; c3; c4]) 1 in
     {| kb_per_zone_exists := kb_per_zone_exists v;
        single_row_active := all_eq;
        single_color_text := if all_eq then c1 else single_color_text v;
        z_entries_text := if all_eq then z_entries_text v
                          else [c1; c2; c3; c4];
        bright_row_value := b |})
  = Some ["rgb"; "per-zone"; c1; c2; c3; c4; "-b"; Py.str b].
Proof.
  intros H1 H2 H3 H4 Hexists. cbv zeta.
  unfold _compute_per_zone_args.
  cbn [kb_per_zone_exists single_row_active single_color_text
       z_entries_text bright_row_value].
  rewrite Hexists. cbn [negb].
  destruct (Nat.eqb (set_size [c1; c2; c3; c4]) 1) eqn:Hall.
  - destruct (proj1 (set_size_all_equal c1 c2 c3 c4) Hall) as (-> & -> & ->).
    rewrite (proj1 (parse_color_fixed c1 H1)). reflexivity.
  - cbn [nekroctl.map_result].
    rewrite (proj1 (parse_color_fixed c1 H1)),
      (proj1 (parse_color_fixed c2 H2)), (proj1 (parse_color_fixed c3 H3)),
      (proj1 (parse_color_fixed c4 H4)).
    reflexivity.
Qed.

(** X12.  After the helper wrote four colours and a brightness to the
    per-zone attribute, a refresh of the window sets the brightness widget
    to that brightness, selects the single colour exactly when the four
    colours are the same, and leaves the widgets such that the arguments
    computed from them are the four colours and the brightness that the
    attribute holds: applying after a refresh writes back what was read. *)
Theorem per_zone_refresh_roundtrip
  (fs : string -> option nekroctl.node) (nd : nekroctl.node)
  (v : per_zone_view) (c1 c2 c3 c4 : string) (b : Z) :
  Spec.is_color c1 -> Spec.is_color c2 -> Spec.is_color c3 ->
  Spec.is_color c4 -> 0 <= b <= 100 ->
  fs nekroctl.KB_PER_ZONE = Some nd ->
  nekroctl.r_acc nd = nekroctl.Granted ->
  nekroctl.content nd
  = Py.join "," [c1; c2; c3; c4; Py.str b] ++ nekroctl.newline ->
  kb_per_zone_exists v = true ->
  List.length (z_entries_text v) = 4%nat ->
  let v' := _refresh_keyboard_per_zone fs v in
  bright_row_value v' = b
  /\ (single_row_active v' = true <-> c2 = c1 /\ c3 = c1 /\ c4 = c1)
  /\ _compute_per_zone_args v'
     = Some ["rgb"; "per-zone"; c1; c2; c3; c4; "-b"; Py.str b].
Proof.
  intros H1 H2 H3 H4 Hb Hfs Hr Hcontent Hexists Hlen. cbv zeta.
  rewrite (per_zone_refreshed fs nd v c1 c2 c3 c4 b
             H1 H2 H3 H4 Hb Hfs Hr Hcontent Hlen).
  split; [reflexivity |].
  split; [cbv zeta; cbn [single_row_active]; apply set_size_all_equal |].
  now apply per_zone_refreshed_args.
Qed.

Lemma per_zone_refresh_roundtrip_witness :
  let text := "ff0000,00ff00,0000ff,ffffff,40" ++ nekroctl.newline in
  let v' := _refresh_keyboard_per_zone
              (Sample.machine text nekroctl.Granted)
              (Sample.single_color "000000" 10) in
  bright_row_value v' = 40
  /\ _compute_per_zone_args v'
     = Some ["rgb"; "per-zone"; "ff0000"; "00ff00"; "0000ff"; "ffffff";
             "-b"; "40"].
Proof.
  intros text v'.
  destruct (per_zone_refresh_roundtrip
              (Sample.machine text nekroctl.Granted)
              {| nekroctl.content := text; nekroctl.r_acc := nekroctl.Granted;
                 nekroctl.w_acc := nekroctl.Granted |}
              (Sample.single_color "000000" 10)
              "ff0000" "00ff00" "0000ff" "ffffff" 40
              (conj eq_refl eq_refl) (conj eq_refl eq_refl)
              (conj eq_refl eq_refl) (conj eq_refl eq_refl)
              ltac:(lia) eq_refl eq_refl eq_refl eq_refl eq_refl)
    as (Hb & _ & Hargs).
  split; [exact Hb | exact Hargs].
Defined.

(** X13.  After the helper wrote a colour, a brightness and the power
    flag of the back logo, a refresh of the window with what [logo get]
    prints sets the three widgets to these values; the arguments computed
    from the widgets name the same colour, brightness and flag, and the
    helper given them writes the same line again. *)
Theorem logo_refresh_roundtrip
  (c : string) (b : Z) (on : bool) (v : logo_view) (w : nekroctl.world) :
  Spec.is_color c -> 0 <= b <= 100 ->
  let out := Py.join "," [c; Py.str b; Py.str (if on then 1 else 0)] in
  let v' := _refresh_logo true out v in
  v' = {| logo_power_active := on; logo_color_text := c;
          logo_brightness_value := b |}
  /\ _compute_logo_args v'
     = Some ["logo"; "set"; c; "-b"; Py.str b;
             if on then "--on" else "--off"]
  /\ nekroctl.cmd_logo_set
       {| nekroctl.lg_color := c; nekroctl.lg_brightness := Some b;
          nekroctl.lg_on := on; nekroctl.lg_off := negb on |} w
     = Spec.checked_write nekroctl.LOGO_COLOR "back_logo/color" out
         "OK: back logo updated" w.
Proof.
  intros Hc Hb out v'.
  assert (Hrange : (0 <=? b) && (b <=? 100) = true)
    by (apply andb_true_iff; lia).
  assert (Hfields : Forall Spec.field
                      [c; Py.str b; Py.str (if on then 1 else 0)]).
  { apply Forall_cons; [now apply color_field |].
    apply Forall_cons; [apply str_field; lia |].
    apply Forall_cons; [apply str_field; destruct on; lia | apply Forall_nil]. }
  assert (Hout : Py.truthy out = true).
  { destruct Hc as [Hlen _]. unfold out, Py.join. cbn [String.concat].
    destruct c; [discriminate Hlen | reflexivity]. }
  assert (Hv' : v' = {| logo_power_active := on; logo_color_text := c;
                        logo_brightness_value := b |}).
  { unfold v', _refresh_logo. rewrite Hout. cbn [negb orb].
    unfold out. rewrite split_join by (discriminate || exact Hfields).
    cbn [firstn map].
    destruct (field_facts c (color_field c Hc)) as (_ & _ & Htr & Hst).
    rewrite Hst, Htr, (proj1 Hc), !strip_str, int_str, Hrange.
    cbn [Nat.eqb andb]. destruct on; reflexivity. }
  split; [exact Hv' |]. rewrite Hv'. split.
  - unfold _compute_logo_args.
    cbn [logo_color_text logo_brightness_value logo_power_active].
    rewrite (proj1 (parse_color_fixed c Hc)). reflexivity.
  - assert (Hr : negb ((0 <=? b) && (b <=? 100)) = false)
      by (rewrite Hrange; reflexivity).
    unfold nekroctl.cmd_logo_set, Spec.checked_write.
    apply bind_ext. intros [] w'. rewrite bind_lift.
    cbn [nekroctl.lg_color nekroctl.lg_brightness nekroctl.lg_on
         nekroctl.lg_off].
    rewrite (proj2 (parse_color_fixed c Hc)). cbv zeta. rewrite Hr.
    unfold out, Py.join. cbn [String.concat].
    rewrite !append_assoc. destruct on; reflexivity.
Qed.

Lemma logo_refresh_roundtrip_witness :
  let v' := _refresh_logo true "00aaff,60,0"
              {| logo_power_active := true; logo_color_text := "";
                 logo_brightness_value := 100 |} in
  v' = {| logo_power_active := false; logo_color_text := "00aaff";
          logo_brightness_value := 60 |}
  /\ _compute_logo_args v'
     = Some ["logo"; "set"; "00aaff"; "-b"; "60"; "--off"].
Proof.
  intros v'.
  destruct (logo_refresh_roundtrip "00aaff" 60 false
              {| logo_power_active := true; logo_color_text := "";
                 logo_brightness_value := 100 |}
              Sample.world_root (conj eq_refl eq_refl) ltac:(lia))
    as (Hv & Hargs & _).
  split; [exact Hv | exact Hargs].
Defined.

Lemma checked_write_granted (path desc payload report : string)
  (w : nekroctl.world) (n : nekroctl.node) :
  nekroctl.fs w path = Some n ->
  nekroctl.w_acc n = nekroctl.Granted ->
  let r := Spec.checked_write path desc payload report w in
  fst r = nekroctl.Ok tt
  /\ nekroctl.fs (snd r)
     = Spec.with_content (nekroctl.fs w) path (payload ++ nekroctl.newline)
  /\ nekroctl.stdout (snd r)
     = (nekroctl.stdout w ++ [nekroctl.Line report])%list.
Proof.
  intros Hn Hacc.
  unfold Spec.checked_write, nekroctl._require_path, nekroctl._path_exists,
    nekroctl._write_text, nekroctl.bind, nekroctl.get_node, nekroctl.log,
    nekroctl.ret, nekroctl.set_content, nekroctl.print.
  cbn [nekroctl.fs fst snd]. rewrite Hn. cbn [nekroctl.fs fst snd negb].
  rewrite Hn. cbn [nekroctl.fs fst snd]. rewrite Hacc.
  cbn [nekroctl.fs nekroctl.stdout fst snd]. auto.
Qed.

(** X19.  After [rgb per-zone] wrote four colours and a brightness,
    [rgb per-zone get] prints the line that was written, and a refresh of
    the window leaves widgets from which the same four colours and
    brightness are computed: what was applied is what is shown. *)
Theorem per_zone_set_then_get
  (c1 c2 c3 c4 : string) (b : Z) (parser : option string)
  (w : nekroctl.world) (n : nekroctl.node) :
  Spec.is_color c1 -> Spec.is_color c2 -> Spec.is_color c3 ->
  Spec.is_color c4 -> 0 <= b <= 100 ->
  nekroctl.fs w nekroctl.KB_PER_ZONE = Some n ->
  nekroctl.w_acc n = nekroctl.Granted ->
  nekroctl.r_acc n = nekroctl.Granted ->
  let w1 := snd (nekroctl.cmd_rgb_per_zone
                   {| nekroctl.pz_colors := [c1; c2; c3; c4];
                      nekroctl.pz_brightness := Some b;
                      nekroctl.pz_parser := parser |} w) in
  fst (nekroctl.cmd_rgb_per_zone_get w1) = nekroctl.Ok tt
  /\ nekroctl.stdout (snd (nekroctl.cmd_rgb_per_zone_get w1))
     = (nekroctl.stdout w
        ++ [nekroctl.Line "OK: per-zone colors set";
            nekroctl.Line (Py.join "," [c1; c2; c3; c4; Py.str b])])%list
  /\ forall v,
       kb_per_zone_exists v = true ->
       List.length (z_entries_text v) = 4%nat ->
       _compute_per_zone_args
         (_refresh_keyboard_per_zone (nekroctl.fs w1) v)
       = Some ["rgb"; "per-zone"; c1; c2; c3; c4; "-b"; Py.str b].
Proof.
  intros H1 H2 H3 H4 Hb Hn Hw Hr w1.
  assert (Hfields : Forall Spec.field [c1; c2; c3; c4; Py.str b]).
  { repeat (apply Forall_cons; [now apply color_field |]).
    apply Forall_cons; [apply str_field; lia | apply Forall_nil]. }
  destruct (checked_write_granted nekroctl.KB_PER_ZONE Spec.per_zone_desc
              (Py.join "," [c1; c2; c3; c4; Py.str b])
              "OK: per-zone colors set" w n Hn Hw) as (_ & Hfs & Hout).
  rewrite <- (per_zone_write c1 c2 c3 c4 b parser w H1 H2 H3 H4 Hb)
    in Hfs, Hout.
  fold w1 in Hfs, Hout.
  assert (Hnode : nekroctl.fs w1 nekroctl.KB_PER_ZONE
    = Some {| nekroctl.content :=
                Py.join "," [c1; c2; c3; c4; Py.str b] ++ nekroctl.newline;
              nekroctl.r_acc := nekroctl.r_acc n;
              nekroctl.w_acc := nekroctl.w_acc n |}).
  { rewrite Hfs. unfold Spec.with_content.
    now rewrite String.eqb_refl, Hn. }
  split; [| split].
  - unfold nekroctl.cmd_rgb_per_zone_get, nekroctl._require_path,
      nekroctl._path_exists, nekroctl._read_text, nekroctl.bind,
      nekroctl.get_node, nekroctl.log, nekroctl.ret, nekroctl.print.
    cbn [nekroctl.fs fst snd]. rewrite Hnode. cbn [nekroctl.fs fst snd negb].
    rewrite Hnode. cbn [nekroctl.fs fst snd nekroctl.r_acc].
    rewrite Hr. reflexivity.
  - unfold nekroctl.cmd_rgb_per_zone_get, nekroctl._require_path,
      nekroctl._path_exists, nekroctl._read_text, nekroctl.bind,
      nekroctl.get_node, nekroctl.log, nekroctl.ret, nekroctl.print.
    cbn [nekroctl.fs fst snd]. rewrite Hnode. cbn [nekroctl.fs fst snd negb].
    rewrite Hnode. cbn [nekroctl.fs fst snd nekroctl.r_acc].
    rewrite Hr. cbn [nekroctl.stdout nekroctl.content fst snd].
    rewrite Hout, <- app_assoc.
    rewrite read_line by (apply join_nonspace; exact Hfields).
    reflexivity.
  - intros v Hv Hlen.
    rewrite (per_zone_refreshed (nekroctl.fs w1) _ v c1 c2 c3 c4 b
               H1 H2 H3 H4 Hb Hnode Hr eq_refl Hlen).
    now apply per_zone_refreshed_args.
Qed.

Lemma per_zone_set_then_get_witness :
  let w1 := snd (nekroctl.cmd_rgb_per_zone
                   {| nekroctl.pz_colors :=
                        ["ff0000"; "00ff00"; "0000ff"; "ffffff"];
                      nekroctl.pz_brightness := Some 40;
                      nekroctl.pz_parser := None |} Sample.world_root) in
  nekroctl.stdout (snd (nekroctl.cmd_rgb_per_zone_get w1))
  = [nekroctl.Line "OK: per-zone colors set";
     nekroctl.Line "ff0000,00ff00,0000ff,ffffff,40"]
  /\ _compute_per_zone_args
       (_refresh_keyboard_per_zone (nekroctl.fs w1)
          (Sample.single_color "000000" 10))
     = Some ["rgb"; "per-zone"; "ff0000"; "00ff00"; "0000ff"; "ffffff";
             "-b"; "40"].
Proof.
  intros w1.
  destruct (per_zone_set_then_get "ff0000" "00ff00" "0000ff" "ffffff" 40
              None Sample.world_root
              {| nekroctl.content := "0,0"; nekroctl.r_acc := nekroctl.Granted;
                 nekroctl.w_acc := nekroctl.Granted |}
              (conj eq_refl eq_refl) (conj eq_refl eq_refl)
              (conj eq_refl eq_refl) (conj eq_refl eq_refl)
              ltac:(lia) eq_refl eq_refl eq_refl)
    as (_ & Hout & Hargs).
  split; [exact Hout |].
  exact (Hargs (Sample.single_color "000000" 10) eq_refl eq_refl).
Defined.

Lemma parse_percent_shown (auto : bool) (n : Z) :
  1 <= n <= 100 ->
  nekroctl._parse_percent_or_auto
    (nekroctl.VStr (if auto then "auto" else Py.str n))
  = nekroctl.Ok (if auto then 0 else n).
Proof.
  intros Hn. destruct auto; [reflexivity |].
  change (nekroctl._parse_percent_or_auto (nekroctl.VStr (Py.str n)))
    with (nekroctl._parse_percent_or_auto (nekroctl.VInt n)).
  rewrite parse_percent_of_int.
  destruct (n =? 0) eqn:H0; [lia |].
  destruct ((1 <=? n) && (n <=? 100)) eqn:Hr; [reflexivity | lia].
Qed.

Lemma parse_percent_kept (n : Z) :
  n = 0 \/ 1 <= n <= 100 ->
  nekroctl._parse_percent_or_auto (nekroctl.VStr (Py.str n)) = nekroctl.Ok n.
Proof.
  intros Hn.
  change (nekroctl._parse_percent_or_auto (nekroctl.VStr (Py.str n)))
    with (nekroctl._parse_percent_or_auto (nekroctl.VInt n)).
  rewrite parse_percent_of_int.
  destruct (n =? 0) eqn:H0; [f_equal; lia |].
  destruct ((1 <=? n) && (n <=? 100)) eqn:Hr; [reflexivity | lia].
Qed.

(** X22.  With the two percentages in the range of their widgets, the
    arguments that the fans page computes are [fan auto] when both fans
    are on auto, and otherwise [fan set --cpu C --gpu G] where an
    automatic fan is sent as [auto]; the helper given them finds the
    attribute and writes [c,g], an automatic fan as 0 and the other as
    the number shown. *)
Theorem window_fan_args_accepted (v : fans_view) (w : nekroctl.world) :
  1 <= cpu_row_value v <= 100 ->
  1 <= gpu_row_value v <= 100 ->
  let c := if cpu_auto_active v then 0 else cpu_row_value v in
  let g := if gpu_auto_active v then 0 else gpu_row_value v in
  (cpu_auto_active v && gpu_auto_active v = true ->
   _compute_fans_args v = Some ["fan"; "auto"]
   /\ nekroctl.fs (snd (nekroctl.cmd_fan_auto w))
      = nekroctl.fs (snd (Spec.set_fans c g w)))
  /\ (cpu_auto_active v && gpu_auto_active v = false ->
      let cpuv := if cpu_auto_active v then "auto"
                  else Py.str (cpu_row_value v) in
      let gpuv := if gpu_auto_active v then "auto"
                  else Py.str (gpu_row_value v) in
      _compute_fans_args v
      = Some ["fan"; "set"; "--cpu"; cpuv; "--gpu"; gpuv]
      /\ nekroctl.cmd_fan_set
           {| nekroctl.fan_values := []; nekroctl.fan_cpu := Some cpuv;
              nekroctl.fan_gpu := Some gpuv |} w
         = Spec.set_fans c g w).
Proof.
  intros Hc Hg c g. unfold _compute_fans_args. split.
  - intros Hboth. rewrite Hboth. split; [reflexivity |].
    apply andb_true_iff in Hboth as [Ha Hb]. unfold c, g. rewrite Ha, Hb.
    unfold nekroctl.cmd_fan_auto, Spec.set_fans, nekroctl.bind.
    destruct (nekroctl._fan_path w) as [[p|e] w1]; [| reflexivity].
    unfold nekroctl._write_text, nekroctl.bind, nekroctl.get_node,
      nekroctl.log, nekroctl.set_content, nekroctl.stderr_write,
      nekroctl.raise, nekroctl.print.
    cbn [nekroctl.fs fst snd]. destruct (nekroctl.fs w1 p) as [nd|];
      [| reflexivity].
    destruct (nekroctl.w_acc nd); reflexivity.
  - intros Hboth. rewrite Hboth. cbv zeta.
    split; [reflexivity |].
    pose proof (parse_percent_shown (cpu_auto_active v) _ Hc) as Pc.
    pose proof (parse_percent_shown (gpu_auto_active v) _ Hg) as Pg.
    fold c in Pc. fold g in Pg.
    assert (Kc : nekroctl._parse_percent_or_auto (nekroctl.VStr (Py.str c))
                 = nekroctl.Ok c)
      by (apply parse_percent_kept; unfold c; destruct (cpu_auto_active v); lia).
    assert (Kg : nekroctl._parse_percent_or_auto (nekroctl.VStr (Py.str g))
                 = nekroctl.Ok g)
      by (apply parse_percent_kept; unfold g; destruct (gpu_auto_active v); lia).
    unfold nekroctl.cmd_fan_set, Spec.set_fans.
    apply bind_ext. intros p w1.
    cbn [nekroctl.fan_values nekroctl.fan_cpu nekroctl.fan_gpu option_map].
    unfold nekroctl.bind, nekroctl.ret, nekroctl.lift.
    cbn [nekroctl.str_of fst snd].
    rewrite Pc, Pg. reflexivity.
Qed.

Lemma window_fan_args_accepted_witness :
  let v := {| cpu_auto_active := true; cpu_row_value := 50;
              gpu_auto_active := false; gpu_row_value := 70 |} in
  _compute_fans_args v = Some ["fan"; "set"; "--cpu"; "auto"; "--gpu"; "70"]
  /\ nekroctl.cmd_fan_set
       {| nekroctl.fan_values := []; nekroctl.fan_cpu := Some "auto";
          nekroctl.fan_gpu := Some "70" |} Sample.world_root
     = Spec.set_fans 0 70 Sample.world_root.
Proof.
  intros v.
  destruct (window_fan_args_accepted v Sample.world_root
              ltac:(cbn; lia) ltac:(cbn; lia)) as [_ H].
  destruct (H eq_refl) as (Hargs & Hrun).
  split; [exact Hargs | exact Hrun].
Defined.

Lemma split_ws_spaces (s : string) :
  forall cur,
    Py.all_char (fun c => negb (Py.isspace c)) cur = true ->
    Spec.spaces_only s = true ->
    filter Py.truthy (map Py.strip (Py.split_go " " cur s))
    = Py.split_ws_go cur s.
Proof.
  unfold Spec.spaces_only.
  induction s as [|c s IH]; intros cur Hcur Hs;
    cbn [Py.split_go Py.split_ws_go map filter].
  - rewrite strip_nonspace by exact Hcur. destruct (Py.truthy cur); reflexivity.
  - cbn [Py.all_char] in Hs. apply andb_true_iff in Hs as [Hc Hs].
    destruct (Ascii.eqb_spec c " ") as [->|Hne].
    + change (Py.isspace " ") with true. cbn [map filter].
      rewrite strip_nonspace by exact Hcur.
      rewrite (IH "" eq_refl Hs). destruct (Py.truthy cur); reflexivity.
    + apply orb_true_iff in Hc as [Hc|Hc]; [| discriminate Hc].
      apply negb_true_iff in Hc. rewrite Hc.
      apply IH; [| exact Hs].
      rewrite all_char_app, Hcur. cbn [Py.all_char andb]. now rewrite Hc.
Qed.

Lemma rstrip_app_line (s : string) :
  Py.rstrip (s ++ nekroctl.newline) = Py.rstrip s.
Proof.
  induction s as [|c s IH]; [reflexivity |].
  cbn [append Py.rstrip]. now rewrite IH.
Qed.

Lemma rstrip_rstrip (s : string) : Py.rstrip (Py.rstrip s) = Py.rstrip s.
Proof.
  induction s as [|c s IH]; [reflexivity |].
  cbn [Py.rstrip]. destruct (Py.rstrip s) as [|c' r] eqn:E.
  - destruct (Py.isspace c) eqn:Hc; [reflexivity |].
    cbn [Py.rstrip]. now rewrite Hc.
  - cbn [Py.rstrip] in *. now rewrite IH.
Qed.

Lemma lstrip_head (s : string) :
  Py.lstrip s = ""
  \/ exists c r, Py.lstrip s = String c r /\ Py.isspace c = false.
Proof.
  induction s as [|c s IH]; [left; reflexivity |].
  cbn [Py.lstrip]. destruct (Py.isspace c) eqn:Hc; [exact IH |].
  right. eauto.
Qed.

Lemma rstrip_head (c : ascii) (s : string) :
  Py.isspace c = false -> exists r, Py.rstrip (String c s) = String c r.
Proof.
  intros Hc. cbn [Py.rstrip]. rewrite Hc. destruct (Py.rstrip s); eauto.
Qed.

(** A text that was stripped and printed as a line is read back as it
    was. *)
Lemma strip_printed_line (s : string) :
  Py.strip (Py.strip s ++ nekroctl.newline) = Py.strip s.
Proof.
  unfold Py.strip at 2 3.
  destruct (lstrip_head s) as [E|(c & r & E & Hc)]; rewrite E.
  - reflexivity.
  - destruct (rstrip_head c r Hc) as [r' Er]. rewrite Er.
    unfold Py.strip. cbn [append]. rewrite lstrip_nonspace by exact Hc.
    change (String c (r' ++ nekroctl.newline))
      with (String c r' ++ nekroctl.newline).
    rewrite rstrip_app_line, <- Er. apply rstrip_rstrip.
Qed.

(** Where the text has no white space other than spaces, [split()] and
    the helper's [split(" ")] give the same profiles. *)
Lemma power_choices_split (list_out : string) :
  Spec.spaces_only list_out = true ->
  Py.truthy list_out = true ->
  power_choices true list_out = Spec.advertised list_out.
Proof.
  intros Hs Ht.
  unfold power_choices, Spec.advertised, Py.split, Py.split_ws.
  rewrite Ht. cbn [andb].
  rewrite (split_ws_spaces list_out "" eq_refl Hs).
  clear Hs Ht. generalize "" at 1 2 as cur.
  induction list_out as [|c s IH]; intros cur; cbn [Py.split_ws_go].
  - destruct (Py.truthy cur) eqn:E; cbn [filter]; [now rewrite E | reflexivity].
  - destruct (Py.isspace c); [| apply IH].
    rewrite filter_app, IH.
    destruct (Py.truthy cur) eqn:E; cbn [filter]; [now rewrite E | reflexivity].
Qed.

(** X23.  The power page asks the helper for the profiles with
    [power list], run without privilege on a machine whose
    [platform_profile_choices] can be read and holds, once stripped, the
    text [t] with no white space other than spaces.  The answer is
    [(True, t or "OK")].  When [t] is not empty the page offers the
    profiles that the helper takes as advertised, in the same order; when
    it is empty the page offers the one profile [OK], and the helper takes
    none as advertised.  Either way the page offers no profile that
    [power set] refuses as unsupported: where the profile can be written,
    [power set] writes every profile that the page offers.  When the list
    could not be obtained, the page offers three default profiles whatever
    the platform supports. *)
Theorem power_choices_are_advertised
  (w : nekroctl.world) (n : nekroctl.node) (h : host) (tr : list event) :
  let t := Py.strip (Py.universal_newlines (nekroctl.content n)) in
  let answer := fst (run_privileged ["power"; "list"] h tr) in
  let offered := power_choices (fst answer) (snd answer) in
  nekroctl.fs w nekroctl.PLATFORM_PROFILE_CHOICES = Some n ->
  nekroctl.r_acc n = nekroctl.Granted ->
  nekroctl.stdout w = [] ->
  Spec.spaces_only t = true ->
  Spec.answers h (tr ++ [Call Unprivileged])
    [executable h; NEKROCTL_PATH h; "power"; "list"]
    (nekroctl.main (nekroctl.Parsed nekroctl.PowerList) w) ->
  answer = (true, Py.or_else t "OK")
  /\ (t <> "" -> offered = Spec.advertised t)
  /\ (t = "" -> offered = ["OK"] /\ Spec.advertised t = [])
  /\ (forall sel,
         In sel offered ->
         Spec.advertised t = [] \/ In sel (Spec.advertised t))
  /\ (forall sel p,
         In sel offered ->
         nekroctl.fs w nekroctl.PLATFORM_PROFILE = Some p ->
         nekroctl.w_acc p = nekroctl.Granted ->
         let set := nekroctl.main
                      (nekroctl.Parsed (nekroctl.PowerSet (Some sel))) w in
         fst set = 0
         /\ nekroctl.fs (snd set)
            = Spec.with_content (nekroctl.fs w) nekroctl.PLATFORM_PROFILE
                (sel ++ nekroctl.newline))
  /\ (forall out, power_choices false out
                  = ["balanced"; "performance"; "power-saver"]).
Proof.
  intros t answer offered Hn Hr Hout Hs (text & Htext & Hproc).
  destruct (power_list_prints w n Hn Hr) as (Hcode & Hprinted & _).
  rewrite Hprinted, Hout in Htext. cbn [app Spec.printed] in Htext.
  change (nekroctl.newline ++ "") with nekroctl.newline in Htext.
  injection Htext as <-. rewrite Hcode in Hproc. fold t in Hproc.
  assert (Hanswer : answer = (true, Py.or_else t "OK")).
  { unfold answer, run_privileged, _run_nekroctl, bind, enter, ask, spawn, ret.
    cbn [app]. rewrite Hproc. cbn [fst snd Z.eqb].
    unfold t. now rewrite strip_printed_line. }
  assert (Hcases : (t <> "" -> offered = Spec.advertised t)
                   /\ (t = "" -> offered = ["OK"] /\ Spec.advertised t = [])).
  { unfold offered. rewrite Hanswer. cbn [fst snd]. split.
    - intros Hne. destruct t as [|c r] eqn:E; [contradiction |].
      cbn [Py.or_else Py.truthy]. now apply power_choices_split.
    - intros ->. split; reflexivity. }
  destruct Hcases as [Hsome Hnone].
  assert (Hpass : forall sel, In sel offered ->
                    Spec.advertised t = [] \/ In sel (Spec.advertised t)).
  { intros sel Hin. destruct (string_dec t "") as [E|Hne].
    - left. apply (Hnone E).
    - right. now rewrite <- (Hsome Hne). }
  split; [exact Hanswer |].
  split; [exact Hsome |].
  split; [exact Hnone |].
  split; [exact Hpass |].
  split; [| reflexivity].
  intros sel p Hin Hp Hw. cbv zeta.
  exact (power_set_accepted sel w p n Hp Hw Hn Hr (Hpass sel Hin)).
Qed.

Lemma power_choices_are_advertised_witness :
  let w := Sample.world_profiles
             ("low-power balanced performance" ++ nekroctl.newline) in
  let h := Sample.host_answering
             ("low-power balanced performance" ++ nekroctl.newline) in
  let answer := fst (run_privileged ["power"; "list"] h []) in
  answer = (true, "low-power balanced performance")
  /\ power_choices (fst answer) (snd answer)
     = ["low-power"; "balanced"; "performance"]
  /\ fst (nekroctl.main
            (nekroctl.Parsed (nekroctl.PowerSet (Some "low-power"))) w) = 0.
Proof.
  intros w h answer.
  destruct (power_choices_are_advertised w
              {| nekroctl.content :=
                   "low-power balanced performance" ++ nekroctl.newline;
                 nekroctl.r_acc := nekroctl.Granted;
                 nekroctl.w_acc := nekroctl.Denied |}
              h [] eq_refl eq_refl eq_refl eq_refl
              (ex_intro _ ("low-power balanced performance" ++ nekroctl.newline)
                 (conj eq_refl eq_refl)))
    as (Hanswer & Hsome & _ & _ & Hset & _).
  split; [exact Hanswer |].
  split; [exact (Hsome ltac:(discriminate)) |].
  refine (proj1 (Hset "low-power" _ _ eq_refl eq_refl)).
  rewrite (Hsome ltac:(discriminate)). left. reflexivity.
Defined.

(** A blank choices file: the page offers the profile [OK], which the
    helper, taking no profile as advertised, writes. *)
Example power_choices_blank :
  let w := Sample.world_profiles nekroctl.newline in
  let h := Sample.host_answering nekroctl.newline in
  let answer := fst (run_privileged ["power"; "list"] h []) in
  fst (nekroctl.main (nekroctl.Parsed nekroctl.PowerList) w) = 0
  /\ nekroctl.stdout (snd (nekroctl.main (nekroctl.Parsed nekroctl.PowerList) w))
     = [nekroctl.Line ""]
  /\ answer = (true, "OK")
  /\ power_choices (fst answer) (snd answer) = ["OK"]
  /\ Spec.advertised "" = [].
Proof. cbv zeta. repeat split; reflexivity. Qed.

End Refresh.

(** ** The string extractor, [analysis/extract_strings.py] *)

Section Strings.

Import extract_strings.

Local Abbreviation ok := (fun c => Py.char_in c allowed).
Local Abbreviation chars := list_ascii_of_string.

Lemma chars_app (a b : string) : chars (a ++ b) = (chars a ++ chars b)%list.
Proof. induction a as [|c a IH]; [reflexivity |]. cbn. now rewrite IH. Qed.

Lemma length_snoc (a : string) (c : ascii) :
  String.length (a ++ String c "") = S (String.length a).
Proof. induction a as [|x a IH]; [reflexivity |]. cbn. now rewrite IH. Qed.

(** What the loop reports is the run it was given, extended up to the
    first byte that ends it, or a later run between two such bytes. *)
Lemma strings_go_runs (min : nat) (data : list ascii) :
  forall (result s : string),
    In s (strings_go min result data) ->
    (min <= String.length s)%nat
    /\ ((exists run c post,
           s = result ++ run
           /\ data = (chars run ++ c :: post)%list
           /\ Py.all_char ok run = true /\ ok c = false)
        \/ (exists pre d c post,
              data = (pre ++ d :: chars s ++ c :: post)%list
              /\ ok d = false /\ Py.all_char ok s = true /\ ok c = false)).
Proof.
  induction data as [|x data IH]; intros result s Hin; [destruct Hin |].
  cbn [strings_go] in Hin. destruct (ok x) eqn:Hx.
  - destruct (IH _ _ Hin) as [Hlen [(run & c & post & -> & -> & Hrun & Hc)
                                  |(pre & d & c & post & -> & Hd & Hs & Hc)]].
    + split; [exact Hlen |]. left. exists (String x run), c, post.
      rewrite append_assoc. cbn [append Py.all_char chars app].
      rewrite Hx, Hrun. auto.
    + split; [exact Hlen |]. right. exists (x :: pre), d, c, post. auto.
  - apply in_app_or in Hin as [Hin|Hin].
    + destruct (Nat.leb_spec min (String.length result)) as [Hle|Hlt];
        [| destruct Hin].
      destruct Hin as [<-|[]]. split; [exact Hle |].
      left. exists "", x, data. rewrite append_nil_r. auto.
    + destruct (IH _ _ Hin) as [Hlen [(run & c & post & -> & -> & Hrun & Hc)
                                    |(pre & d & c & post & -> & Hd & Hs & Hc)]].
      * split; [exact Hlen |]. right. exists [], x, c, post. auto.
      * split; [exact Hlen |]. right. exists (x :: pre), d, c, post. auto.
Qed.

(** X14.  Every string that [strings] reports has at least [min]
    characters, all of them letters, digits, [_], [-] or a space, and is a
    whole run of such bytes of the file: it starts at the beginning of the
    file or after a byte of another kind, and a byte of another kind
    follows it. *)
Theorem strings_are_terminated_runs
  (data : list ascii) (min : nat) (s : string) :
  In s (strings data min) ->
  (min <= String.length s)%nat
  /\ Py.all_char (fun c => Py.char_in c allowed) s = true
  /\ exists pre c post,
       data = (pre ++ list_ascii_of_string s ++ c :: post)%list
       /\ Py.char_in c allowed = false
       /\ (pre = []
           \/ exists pre' d, pre = (pre' ++ [d])%list
                             /\ Py.char_in d allowed = false).
Proof.
  intros Hin. unfold strings in Hin.
  destruct (strings_go_runs min data "" s Hin)
    as [Hlen [(run & c & post & -> & -> & Hrun & Hc)
             |(pre & d & c & post & -> & Hd & Hs & Hc)]].
  - split; [exact Hlen |]. split; [exact Hrun |].
    exists [], c, post. auto.
  - split; [exact Hlen |]. split; [exact Hs |].
    exists (pre ++ [d])%list, c, post. rewrite <- app_assoc.
    split; [reflexivity |]. split; [exact Hc |]. right. eauto.
Qed.

Lemma strings_are_terminated_runs_witness :
  In "Acer" (strings (list_ascii_of_string "..Acer.WMI") 4)
  /\ exists pre c post,
       list_ascii_of_string "..Acer.WMI"
       = (pre ++ list_ascii_of_string "Acer" ++ c :: post)%list
       /\ Py.char_in c allowed = false.
Proof.
  assert (Hin : In "Acer" (strings (list_ascii_of_string "..Acer.WMI") 4))
    by (left; reflexivity).
  split; [exact Hin |].
  destruct (strings_are_terminated_runs _ 4%nat "Acer" Hin)
    as (_ & _ & pre & c & post & Hd & Hc & _).
  exists pre, c, post. auto.
Defined.

Lemma strings_go_tail (min : nat) (data tail : list ascii) :
  Forall (fun c => ok c = true) tail ->
  forall result,
    strings_go min result (data ++ tail) = strings_go min result data.
Proof.
  intros Htail. induction data as [|x data IH]; intros result.
  - cbn [app]. revert result.
    induction Htail as [|c tail Hc _ IHt]; intros result; [reflexivity |].
    cbn [strings_go]. rewrite Hc. apply IHt.
  - cbn [app strings_go]. destruct (ok x); [apply IH |].
    now rewrite IH.
Qed.

(** X15.  A run of letters, digits, [_], [-] and spaces that reaches the
    end of the file is not reported, however long it is: the strings found
    are the ones found without it.  A file made of such bytes only gives
    no string at all. *)
Theorem strings_drops_final_run
  (data tail : list ascii) (min : nat) :
  Forall (fun c => Py.char_in c allowed = true) tail ->
  strings (data ++ tail) min = strings data min
  /\ strings tail min = [].
Proof.
  intros Htail. unfold strings. split.
  - now apply strings_go_tail.
  - exact (strings_go_tail min [] tail Htail "").
Qed.

Lemma strings_drops_final_run_witness :
  strings (list_ascii_of_string "..Acer.WMI") 3 = ["Acer"]
  /\ strings (list_ascii_of_string "PredatorSense") 4 = [].
Proof.
  assert (H : forall t, Py.all_char ok t = true ->
                        Forall (fun c => ok c = true) (chars t)).
  { induction t as [|c t IH]; [constructor |]. cbn [Py.all_char chars].
    intros Hc. apply andb_true_iff in Hc as [Hc Ht].
    constructor; [exact Hc | exact (IH Ht)]. }
  split.
  - exact (eq_trans
             (proj1 (strings_drops_final_run (chars "..Acer.") (chars "WMI")
                       3 (H "WMI" eq_refl)))
             eq_refl).
  - exact (proj2 (strings_drops_final_run [] (chars "PredatorSense") 4
                    (H "PredatorSense" eq_refl))).
Defined.

Lemma analyze_go_spec (found : list string) :
  forall count : nat,
    (count <= 100)%nat ->
    analyze_go count found
    = let ms := filter has_keyword found in
      if Nat.leb (List.length ms + count) 100 then ms
      else (firstn (101 - count) ms ++ ["... (truncated)"])%list.
Proof.
  induction found as [|s found IH]; intros count Hc.
  { cbn [analyze_go filter List.length Nat.add]. cbv zeta.
    destruct (Nat.leb_spec count 100); [reflexivity | lia]. }
  cbn [analyze_go filter]. cbv zeta. destruct (has_keyword s).
  - cbn [List.length].
    destruct (Nat.ltb_spec 100 (S count)) as [Hlt|Hge].
    + assert (count = 100%nat) as -> by lia.
      destruct (Nat.leb_spec (S (List.length (filter has_keyword found)) + 100)
                  100); [lia | reflexivity].
    + rewrite IH by lia. cbv zeta.
      replace (101 - count)%nat with (S (101 - S count)) by lia.
      cbn [firstn app].
      destruct (Nat.leb_spec
                  (List.length (filter has_keyword found) + S count) 100);
        destruct (Nat.leb_spec
                    (S (List.length (filter has_keyword found)) + count) 100);
        try lia; reflexivity.
  - now apply IH.
Qed.

(** X16.  [analyze_binary] prints the header, then the strings of four
    characters or more that contain one of the keywords, in the order of
    the file: all of them when there are at most 100, and otherwise the
    first 101 followed by the truncation line. *)
Theorem analyze_binary_output (path : string) (data : list ascii) :
  let ms := filter has_keyword (strings data 4) in
  analyze_binary path data
  = ("--- Strings in " ++ path ++ " ---")
    :: (if Nat.leb (List.length ms) 100 then ms
        else (firstn 101 ms ++ ["... (truncated)"])%list).
Proof.
  cbv zeta. unfold analyze_binary.
  rewrite (analyze_go_spec _ 0%nat) by lia. cbv zeta.
  now rewrite Nat.add_0_r.
Qed.

End Strings.
